(** * FineFlex: the statistics aggregator, the advice engine and the chat
      orchestrator of [server.js], embedded in Rocq.

    Conventions of the embedding.

    - A JavaScript string is the sequence of the bytes of its UTF-8 encoding
      ([string]); the source is UTF-8, so a literal of the source and its
      literal here agree byte for byte.
    - A JavaScript number is an exact rational, one of the two infinities
      or NaN ([Num.number]): the arithmetic follows IEEE 754 on the
      infinities and NaN and is exact on the finite numbers.  The rounding of
      a result to 53 bits, the overflow of a sum or product and the sign of
      zero are not part of the model; the theorems about printed figures are
      stated for whole numbers up to 2^53, where binary64 is exact too.  The
      number of a text is rounded at the two ends of the range: below
      2^-1075 it is 0, and from 2^1024 - 2^970 on it is an infinity.
    - A column of the store with [REAL] affinity holds what the handlers
      bind to it without validation: a number, a text that is not a numeral,
      or NULL ([JS.prim]); a [TEXT NOT NULL] column is a [string].
    - Objects and arrays that the code shares live in a heap ([World]); the
      console and the requests sent to the external service are traces of the
      same world. *)

From Stdlib Require Import Ascii QArith Qminmax Qround Qabs Sorted Lia.
From Stdlib Require OrderedTypeEx.
From stdpp Require Import gmap strings list fin_maps.

Local Open Scope Z_scope.
#[local] Set Warnings "-register-all".

(** ** Strings *)

Module Str.

(** The line feed of a template literal and the double quote. *)
Definition nl : string := String "010"%char EmptyString.
Definition dquote : string := String "034"%char EmptyString.

(** [String.prototype.toLowerCase], on the ASCII letters.  The characters
    outside ASCII keep their bytes; the keywords of the advice engine are
    ASCII and no character outside ASCII lowers to a sequence of them, so
    the keyword tests below see what the engine sees. *)
Definition lower_ascii (c : ascii) : ascii :=
  let n := Ascii.N_of_ascii c in
  if ((65 <=? n) && (n <=? 90))%N then Ascii.ascii_of_N (n + 32) else c.

Fixpoint toLowerCase (s : string) : string :=
  match s with
  | EmptyString => EmptyString
  | String c r => String (lower_ascii c) (toLowerCase r)
  end.

(** [hay.includes(needle)]. *)
Fixpoint includes (hay needle : string) : bool :=
  String.prefix needle hay ||
  match hay with
  | EmptyString => false
  | String _ r => includes r needle
  end.

(** The white space and line terminators that [trim] removes, by their
    UTF-8 encodings: TAB, LF, VT, FF, CR, SP; U+00A0; U+1680, U+2000 to
    U+200A, U+2028, U+2029, U+202F, U+205F, U+3000 and U+FEFF. *)
Definition ws1 (a : ascii) : bool :=
  let n := Ascii.N_of_ascii a in
  (((9 <=? n) && (n <=? 13)) || (n =? 32))%N.

Definition ws2 (a b : ascii) : bool :=
  ((Ascii.N_of_ascii a =? 194) && (Ascii.N_of_ascii b =? 160))%N.

Definition ws3 (a b c : ascii) : bool :=
  let x := Ascii.N_of_ascii a in
  let y := Ascii.N_of_ascii b in
  let z := Ascii.N_of_ascii c in
  (((x =? 225) && (y =? 154) && (z =? 128))
   || ((x =? 226) && (y =? 128)
       && (((128 <=? z) && (z <=? 138)) || (z =? 168) || (z =? 169) || (z =? 175)))
   || ((x =? 226) && (y =? 129) && (z =? 159))
   || ((x =? 227) && (y =? 128) && (z =? 128))
   || ((x =? 239) && (y =? 187) && (z =? 191)))%N.

Fixpoint trimStart (s : string) : string :=
  match s with
  | EmptyString => EmptyString
  | String a r1 =>
      if ws1 a then trimStart r1 else
      match r1 with
      | EmptyString => s
      | String b r2 =>
          if ws2 a b then trimStart r2 else
          match r2 with
          | EmptyString => s
          | String c r3 => if ws3 a b c then trimStart r3 else s
          end
      end
  end.

Definition blank (s : string) : bool :=
  match trimStart s with EmptyString => true | _ => false end.

Fixpoint trimEnd (s : string) : string :=
  match s with
  | EmptyString => EmptyString
  | String a r => if blank s then EmptyString else String a (trimEnd r)
  end.

(** [String.prototype.trim]. *)
Definition trim (s : string) : string := trimEnd (trimStart s).

Definition is_empty (s : string) : bool :=
  match s with EmptyString => true | _ => false end.

Definition concat_all (l : list string) : string :=
  fold_right String.append EmptyString l.

End Str.

(** ** Numbers *)

Module Num.

Local Open Scope string_scope.

(** The result of [ToNumber]. *)
Inductive number :=
| NaN
| Finite (q : Q)
| PosInf
| NegInf.

Definition is_zero (q : Q) : bool := (Qnum q =? 0)%Z.

Definition digit (d : N) : ascii := Ascii.ascii_of_N (48 + d).

Fixpoint digits_pos (fuel : nat) (n : N) (acc : string) : string :=
  match fuel with
  | O => acc
  | S f =>
      if (n =? 0)%N then acc
      else digits_pos f (n / 10)%N (String (digit (n mod 10)%N) acc)
  end.

(** The decimal digits of a natural number, none for 0. *)
Definition dec_nonzero (n : N) : string :=
  digits_pos (S (N.to_nat (N.log2 n)))%nat n EmptyString.

Definition dec (n : N) : string :=
  if (n =? 0)%N then "0" else dec_nonzero n.

(** The digits after the point of [r / d], for [r < d]. *)
Fixpoint frac_digits (fuel : nat) (r d : N) : string :=
  match fuel with
  | O => EmptyString
  | S f =>
      if (r =? 0)%N then EmptyString
      else String (digit (r * 10 / d)%N) (frac_digits f (r * 10 mod d)%N d)
  end.

Fixpoint zeros (n : nat) : string :=
  match n with
  | O => EmptyString
  | S m => String "0"%char (zeros m)
  end.

Fixpoint leading_zeros (s : string) : nat :=
  match s with
  | String "0"%char r => S (leading_zeros r)
  | _ => O
  end.

Fixpoint drop (n : nat) (s : string) : string :=
  match n, s with
  | S m, String _ r => drop m r
  | _, _ => s
  end.

Fixpoint take (n : nat) (s : string) : string :=
  match n, s with
  | S m, String c r => String c (take m r)
  | _, _ => EmptyString
  end.

Fixpoint all_zero (s : string) : bool :=
  match s with
  | EmptyString => true
  | String "0"%char r => all_zero r
  | _ => false
  end.

Fixpoint strip_trailing_zeros (s : string) : string :=
  match s with
  | EmptyString => EmptyString
  | String c r => if all_zero s then EmptyString else String c (strip_trailing_zeros r)
  end.

(** The layout of [Number::toString]: [s] holds the [k] significant digits
    and the value is [0.s * 10^n]. *)
Definition layout (s : string) (n : Z) : string :=
  let k := Z.of_nat (String.length s) in
  if ((k <=? n) && (n <=? 21))%Z then s ++ zeros (Z.to_nat (n - k))
  else if ((0 <? n) && (n <=? 21))%Z then
    take (Z.to_nat n) s ++ "." ++ drop (Z.to_nat n) s
  else if ((-6 <? n) && (n <=? 0))%Z then "0." ++ zeros (Z.to_nat (- n)) ++ s
  else
    let e := (n - 1)%Z in
    let sg := if (0 <? e)%Z then "+" else "-" in
    let m := match s with
             | String c EmptyString => s
             | String c r => String c ("." ++ r)
             | EmptyString => s
             end in
    m ++ "e" ++ sg ++ dec (Z.abs_N e).

Definition render (q : Q) : string :=
  let a := Z.abs_N (Qnum q) in
  let d := Npos (Qden q) in
  if (a =? 0)%N then "0" else
  let ip := dec_nonzero (a / d)%N in
  let fp := frac_digits (N.to_nat (N.log2 d) + 17)%nat (a mod d)%N d in
  let body :=
    match ip with
    | EmptyString =>
        let z := leading_zeros fp in
        layout (strip_trailing_zeros (drop z fp)) (- Z.of_nat z)
    | _ => layout (strip_trailing_zeros (ip ++ fp)) (Z.of_nat (String.length ip))
    end in
  if (Qnum q <? 0)%Z then "-" ++ body else body.

(** [Number::toString] in radix 10: the digits of a decimal fraction are
    all written; another rational is cut after the digits that the fuel of
    [frac_digits] allows. *)
Definition number_to_string (q : Q) : string := render (Qred q).

(** [Number.prototype.toFixed(1)]: the sign aside, the nearest integer
    number of tenths, the larger one on a tie.  The program rounds the
    binary64 value of the number in this way, the model its rational. *)
Definition toFixed1 (x : Q) : string :=
  let a := Qabs x in
  if Qle_bool (10 ^ 21) a then number_to_string x else
  let n := Z.to_N (Qfloor (a * 10 + (1 # 2))) in
  let m := dec n in
  let body :=
    match m with
    | String c EmptyString => "0." ++ m
    | _ => take (String.length m - 1) m ++ "." ++ drop (String.length m - 1) m
    end in
  if Qlt_le_dec x 0 then "-" ++ body else body.

(** *** The arithmetic of numbers

    On the infinities and NaN the operations are those of IEEE 754.  On two
    finite numbers they give the exact result, where the program rounds it
    to binary64: the two agree where the exact result is a binary64 number,
    as it is for the sums, differences and products of whole numbers up to
    2^53. *)

Definition negate (n : number) : number :=
  match n with
  | NaN => NaN
  | Finite q => Finite (- q)
  | PosInf => NegInf
  | NegInf => PosInf
  end.

Definition sign (q : Q) : comparison := (Qnum q ?= 0)%Z.

(** [a + b] *)
Definition add (a b : number) : number :=
  match a, b with
  | NaN, _ | _, NaN => NaN
  | Finite x, Finite y => Finite (x + y)
  | PosInf, NegInf | NegInf, PosInf => NaN
  | PosInf, _ | _, PosInf => PosInf
  | NegInf, _ | _, NegInf => NegInf
  end.

(** [a - b] *)
Definition sub (a b : number) : number :=
  match a, b with
  | Finite x, Finite y => Finite (x - y)
  | _, _ => add a (negate b)
  end.

(** [a * b]: an infinity times 0 is NaN. *)
Definition mul (a b : number) : number :=
  match a, b with
  | NaN, _ | _, NaN => NaN
  | Finite x, Finite y => Finite (x * y)
  | Finite x, PosInf | PosInf, Finite x =>
      match sign x with Eq => NaN | Gt => PosInf | Lt => NegInf end
  | Finite x, NegInf | NegInf, Finite x =>
      match sign x with Eq => NaN | Gt => NegInf | Lt => PosInf end
  | PosInf, PosInf | NegInf, NegInf => PosInf
  | PosInf, NegInf | NegInf, PosInf => NegInf
  end.

(** [a / b]: the zero of the model is the positive zero. *)
Definition div (a b : number) : number :=
  match a, b with
  | NaN, _ | _, NaN => NaN
  | Finite x, Finite y =>
      match sign y with
      | Eq => match sign x with Eq => NaN | Gt => PosInf | Lt => NegInf end
      | _ => Finite (x / y)
      end
  | Finite _, _ => Finite 0
  | PosInf, Finite y => match sign y with Lt => NegInf | _ => PosInf end
  | NegInf, Finite y => match sign y with Lt => PosInf | _ => NegInf end
  | _, _ => NaN
  end.

(** [Math.max(a, b)] and [Math.min(a, b)]: NaN as soon as one is. *)
Definition largest (a b : number) : number :=
  match a, b with
  | NaN, _ | _, NaN => NaN
  | PosInf, _ | _, PosInf => PosInf
  | NegInf, x | x, NegInf => x
  | Finite x, Finite y => Finite (Qmax x y)
  end.

Definition smallest (a b : number) : number :=
  match a, b with
  | NaN, _ | _, NaN => NaN
  | NegInf, _ | _, NegInf => NegInf
  | PosInf, x | x, PosInf => x
  | Finite x, Finite y => Finite (Qmin x y)
  end.

(** [a > b]: false as soon as one is NaN. *)
Definition gt (a b : number) : bool :=
  match a, b with
  | NaN, _ | _, NaN => false
  | PosInf, PosInf | NegInf, _ | _, PosInf => false
  | PosInf, _ | _, NegInf => true
  | Finite x, Finite y => negb (Qle_bool x y)
  end.

(** [ToBoolean] of a number, and [n || 0]. *)
Definition nonzero (n : number) : bool :=
  match n with
  | NaN => false
  | Finite q => negb (is_zero q)
  | PosInf | NegInf => true
  end.

Definition or_nothing (n : number) : number := if nonzero n then n else Finite 0.

(** [Number::toString] and [toFixed(1)] of a number. *)
Definition show (n : number) : string :=
  match n with
  | NaN => "NaN"
  | Finite q => number_to_string q
  | PosInf => "Infinity"
  | NegInf => "-Infinity"
  end.

Definition fixed1 (n : number) : string :=
  match n with
  | Finite q => toFixed1 q
  | _ => show n
  end.

(** The number of a numeral, rounded where binary64 ends: a value of at most
    [2^-1075] is 0, a value of at least [2^1024 - 2^970] an infinity. *)
Definition tiny : Q := 1 # (2 ^ 1075).
Definition huge : Q := (2 ^ 1024 - 2 ^ 970) # 1.

(** Two numbers are the same number: the rationals are compared by their
    value. *)
Definition eqv (a b : number) : Prop :=
  match a, b with
  | NaN, NaN | PosInf, PosInf | NegInf, NegInf => True
  | Finite x, Finite y => (x == y)%Q
  | _, _ => False
  end.

Definition bounded (q : Q) : number :=
  if Qle_bool (Qabs q) tiny then Finite 0
  else if Qle_bool huge (Qabs q) then (if (Qnum q <? 0)%Z then NegInf else PosInf)
  else Finite q.

End Num.

(** ** JavaScript values *)

Module JS.

Import Num.
Local Open Scope string_scope.

(** The values of a parsed JSON text ([1e999] is read as an infinity),
    [undefined], the number NaN, which no JSON text holds but a sum can
    give, and what a read reaches through the prototype chain of a plain
    object: a built-in function or [Object.prototype] itself, kept by the
    string that [ToString] gives for it. *)
Inductive jsval :=
| JUndefined
| JNull
| JBool (b : bool)
| JNum (q : Q)
| JNaN
| JInf (negative : bool)
| JStr (s : string)
| JArr (l : list jsval)
| JObj (l : list (string * jsval))
| JNative (src : string).

(** [ToBoolean]. *)
Definition truthy (v : jsval) : bool :=
  match v with
  | JUndefined | JNull | JNaN => false
  | JBool b => b
  | JNum q => negb (is_zero q)
  | JInf _ => true
  | JStr s => negb (Str.is_empty s)
  | JArr _ | JObj _ | JNative _ => true
  end.

(** [a || b]. *)
Definition or_else (a b : jsval) : jsval := if truthy a then a else b.

(** The own properties of an object, in the order of their creation. *)
Fixpoint own (k : string) (l : list (string * jsval)) : option jsval :=
  match l with
  | [] => None
  | (k', v) :: r => if String.eqb k k' then Some v else own k r
  end.

(** The methods of [Object.prototype] in Node; [constructor] and
    [__proto__] are its two other properties. *)
Definition Object_prototype_functions : list string :=
  [ "__defineGetter__"; "__defineSetter__"; "hasOwnProperty";
    "__lookupGetter__"; "__lookupSetter__"; "isPrototypeOf";
    "propertyIsEnumerable"; "toString"; "valueOf"; "toLocaleString" ].

Definition native_function (name : string) : jsval :=
  JNative ("function " ++ name ++ "() { [native code] }").

Definition Object_prototype_get (k : string) : jsval :=
  if String.eqb k "__proto__" then JNative "[object Object]"
  else if String.eqb k "constructor" then native_function "Object"
  else if existsb (String.eqb k) Object_prototype_functions then native_function k
  else JUndefined.


(** [o[k]] on a plain object. *)
Definition obj_get (k : string) (o : list (string * jsval)) : jsval :=
  match own k o with
  | Some v => v
  | None => Object_prototype_get k
  end.

Fixpoint replace (k : string) (v : jsval) (l : list (string * jsval)) :=
  match l with
  | [] => []
  | (k', v') :: r =>
      if String.eqb k k' then (k', v) :: r else (k', v') :: replace k v r
  end.

(** [o[k] = v] on a plain object, for a primitive [v]: an own property is
    overwritten in place, the setter of [__proto__] ignores a primitive,
    and any other key becomes a new own property. *)
Definition obj_set (k : string) (v : jsval) (o : list (string * jsval)) :=
  match own k o with
  | Some _ => replace k v o
  | None => if String.eqb k "__proto__" then o else (o ++ [(k, v)])%list
  end.

Definition is_digit (c : ascii) : bool :=
  let n := Ascii.N_of_ascii c in ((48 <=? n) && (n <=? 57))%N.

Fixpoint all_digits (s : string) : bool :=
  match s with
  | EmptyString => true
  | String c r => is_digit c && all_digits r
  end.

Fixpoint digits_value (s : string) (acc : N) : N :=
  match s with
  | EmptyString => acc
  | String c r => digits_value r (acc * 10 + (Ascii.N_of_ascii c - 48))%N
  end.

(** An array index: a canonical numeric string below [2^32 - 1]. *)
Definition array_index (k : string) : option N :=
  match k with
  | EmptyString => None
  | String "0"%char EmptyString => Some 0%N
  | String "0"%char _ => None
  | _ =>
      if all_digits k && (String.length k <=? 10)%nat
         && (digits_value k 0 <? 4294967295)%N
      then Some (digits_value k 0) else None
  end.

(** The order of the own property keys of an object: the array indices
    in ascending order, then the other keys in the order of their
    creation.  [key] gives the key of an element. *)
Section OwnPropertyOrder.
Context {A : Type} (key : A -> string).

Fixpoint insert_index (i : N) (x : A) (l : list (N * A)) : list (N * A) :=
  match l with
  | [] => [(i, x)]
  | (j, y) :: r => if (i <? j)%N then (i, x) :: l else (j, y) :: insert_index i x r
  end.

Fixpoint index_props (l : list A) : list (N * A) :=
  match l with
  | [] => []
  | x :: r =>
      match array_index (key x) with
      | Some i => insert_index i x (index_props r)
      | None => index_props r
      end
  end.

Definition named (x : A) : bool :=
  match array_index (key x) with
  | Some _ => false
  | None => true
  end.

Definition own_property_order (l : list A) : list A :=
  (List.map snd (index_props l) ++ List.filter named l)%list.
End OwnPropertyOrder.

(** [Object.entries(o)] *)
Definition Object_entries (o : list (string * jsval)) : list (string * jsval) :=
  own_property_order fst o.

(** A number as a value. *)
Definition of_number (n : number) : jsval :=
  match n with
  | NaN => JNaN
  | Finite q => JNum q
  | PosInf => JInf false
  | NegInf => JInf true
  end.

(** [ToString]; [None] is the TypeError of an object whose own [toString]
    is not callable. *)
Fixpoint to_string (v : jsval) : option string :=
  match v with
  | JUndefined => Some "undefined"
  | JNull => Some "null"
  | JBool b => Some (if b then "true" else "false")
  | JNum q => Some (number_to_string q)
  | JNaN => Some "NaN"
  | JInf negative => Some (if negative then "-Infinity" else "Infinity")
  | JStr s => Some s
  | JArr l =>
      (fix join (l : list jsval) : option string :=
         match l with
         | [] => Some EmptyString
         | x :: r =>
             match (match x with
                    | JUndefined | JNull => Some EmptyString
                    | _ => to_string x
                    end) with
             | None => None
             | Some e =>
                 match r with
                 | [] => Some e
                 | _ => match join r with
                        | None => None
                        | Some t => Some (e ++ "," ++ t)
                        end
                 end
             end
         end) l
  | JObj l =>
      match own "toString" l with
      | Some _ => None
      | None => Some "[object Object]"
      end
  | JNative src => Some src
  end.

(** *** [StringToNumber] *)

Definition radix_digit (c : ascii) : option N :=
  let n := Ascii.N_of_ascii c in
  if ((48 <=? n) && (n <=? 57))%N then Some (n - 48)%N
  else if ((97 <=? n) && (n <=? 102))%N then Some (n - 87)%N
  else if ((65 <=? n) && (n <=? 70))%N then Some (n - 55)%N
  else None.

Fixpoint radix_value (base : N) (s : string) (acc : N) : option N :=
  match s with
  | EmptyString => Some acc
  | String c r =>
      match radix_digit c with
      | Some d => if (d <? base)%N then radix_value base r (acc * base + d)%N else None
      | None => None
      end
  end.

Definition parse_radix (base : N) (s : string) : number :=
  match s with
  | EmptyString => NaN
  | _ => match radix_value base s 0 with
         | Some n => bounded (Z.of_N n # 1)
         | None => NaN
         end
  end.

Fixpoint span_digits (s : string) : string * string :=
  match s with
  | EmptyString => (EmptyString, EmptyString)
  | String c r =>
      if is_digit c then let (d, t) := span_digits r in (String c d, t)
      else (EmptyString, s)
  end.

Definition pow10 (e : Z) : Q :=
  if (0 <=? e)%Z then (10 ^ e # 1) else (1 # Z.to_pos (10 ^ (- e))).

Definition parse_exponent (s : string) : option Z :=
  match s with
  | EmptyString => Some 0%Z
  | String c r =>
      if Ascii.eqb c "e" || Ascii.eqb c "E" then
        let (sg, d) :=
          match r with
          | String "+"%char t => (1%Z, t)
          | String "-"%char t => ((-1)%Z, t)
          | _ => (1%Z, r)
          end in
        if Str.is_empty d || negb (all_digits d) then None
        else Some (sg * Z.of_N (digits_value d 0))%Z
      else None
  end.

Definition parse_unsigned (s : string) : number :=
  if String.eqb s "Infinity" then PosInf else
  let (ip, r1) := span_digits s in
  let (fp, r2) :=
    match r1 with
    | String "."%char t => span_digits t
    | _ => (EmptyString, r1)
    end in
  if Str.is_empty ip && Str.is_empty fp then NaN else
  match parse_exponent r2 with
  | None => NaN
  | Some e =>
      bounded ((Z.of_N (digits_value (ip ++ fp) 0) # 1)
               * pow10 (e - Z.of_nat (String.length fp)))
  end.

(** [StringToNumber]: the white space around the literal is dropped, the
    empty string is 0, a literal is hexadecimal, octal, binary or a signed
    decimal with an optional fraction and exponent, and anything else is
    NaN.  The value underflows to 0 and overflows to an infinity as in
    binary64 ([bounded]). *)
Definition string_to_number (s : string) : number :=
  match Str.trim s with
  | EmptyString => Finite 0
  | String "0"%char (String x r) as t =>
      if Ascii.eqb x "x" || Ascii.eqb x "X" then parse_radix 16 r
      else if Ascii.eqb x "o" || Ascii.eqb x "O" then parse_radix 8 r
      else if Ascii.eqb x "b" || Ascii.eqb x "B" then parse_radix 2 r
      else parse_unsigned t
  | String "+"%char r => parse_unsigned r
  | String "-"%char r => negate (parse_unsigned r)
  | t => parse_unsigned t
  end.

(** [ToNumber]; [None] is the TypeError of [to_string]. *)
Definition to_number (v : jsval) : option number :=
  match v with
  | JUndefined => Some NaN
  | JNull => Some (Finite 0)
  | JBool b => Some (Finite (if b then 1 else 0))
  | JNum q => Some (Finite q)
  | JNaN => Some NaN
  | JInf negative => Some (if negative then NegInf else PosInf)
  | JStr s => Some (string_to_number s)
  | JArr _ | JObj _ | JNative _ =>
      match to_string v with
      | Some s => Some (string_to_number s)
      | None => None
      end
  end.

(** [ToPrimitive]: an array, an object and a function give a string. *)
Definition to_primitive (v : jsval) : option jsval :=
  match v with
  | JArr _ | JObj _ | JNative _ =>
      match to_string v with
      | Some s => Some (JStr s)
      | None => None
      end
  | _ => Some v
  end.

(** [a + b]: the concatenation when a side is a string after
    [ToPrimitive], the sum of the two numbers otherwise.  [None] is a
    TypeError. *)
Definition add (a b : jsval) : option jsval :=
  match to_primitive a, to_primitive b with
  | Some pa, Some pb =>
      match pa, pb with
      | JStr x, _ =>
          match to_string pb with
          | Some y => Some (JStr (x ++ y))
          | None => None
          end
      | _, JStr y =>
          match to_string pa with
          | Some x => Some (JStr (x ++ y))
          | None => None
          end
      | _, _ =>
          match to_number pa, to_number pb with
          | Some x, Some y => Some (of_number (Num.add x y))
          | _, _ => None
          end
      end
  | _, _ => None
  end.

(** [v <= 0]: false as soon as [v] is not a number. *)
Definition le_zero (v : jsval) : option bool :=
  match to_number v with
  | None => None
  | Some NaN => Some false
  | Some (Finite q) => Some (Qle_bool q 0)
  | Some PosInf => Some false
  | Some NegInf => Some true
  end.

(** *** The values of a row

    What the driver hands over for a column with [REAL] affinity, and what
    the arithmetic of the handlers makes of it: null, a number or a
    string.  The operations are those of the values above, on these
    three. *)
Inductive prim :=
| PNull
| PNum (n : number)
| PStr (s : string).

Definition Real (q : Q) : prim := PNum (Finite q).

Definition js (p : prim) : jsval :=
  match p with
  | PNull => JNull
  | PNum n => of_number n
  | PStr s => JStr s
  end.

(** [ToBoolean] and [a || b] *)
Definition prim_truthy (p : prim) : bool :=
  match p with
  | PNull => false
  | PNum n => nonzero n
  | PStr s => negb (Str.is_empty s)
  end.

Definition prim_or (a b : prim) : prim := if prim_truthy a then a else b.

(** [ToNumber] and [ToString] *)
Definition prim_number (p : prim) : number :=
  match p with
  | PNull => Finite 0
  | PNum n => n
  | PStr s => string_to_number s
  end.

Definition prim_string (p : prim) : string :=
  match p with
  | PNull => "null"
  | PNum n => show n
  | PStr s => s
  end.

(** [a + b] *)
Definition prim_add (a b : prim) : prim :=
  match a, b with
  | PStr x, _ => PStr (x ++ prim_string b)
  | _, PStr y => PStr (prim_string a ++ y)
  | _, _ => PNum (Num.add (prim_number a) (prim_number b))
  end.

(** *** Property reads

    [v.k] for the names that the source reads: [message], [name],
    [amount], [category], [candidates], [content], [parts], [text],
    [output_text] and [error], and the index [0].  None of these names is
    a property of a built-in prototype other than through an own property,
    so a primitive, an array and a string have them only as an element or
    a character (kept as one byte).  [None] is the TypeError of a read on
    [undefined] or [null]. *)
Definition get (v : jsval) (k : string) : option jsval :=
  match v with
  | JUndefined | JNull => None
  | JObj l => Some (obj_get k l)
  | JArr l =>
      match array_index k with
      | Some i => Some (nth (N.to_nat i) l JUndefined)
      | None => Some JUndefined
      end
  | JStr s =>
      match array_index k with
      | Some i =>
          match String.get (N.to_nat i) s with
          | Some c => Some (JStr (String c EmptyString))
          | None => Some JUndefined
          end
      | None => Some JUndefined
      end
  | JBool _ | JNum _ | JNaN | JInf _ | JNative _ => Some JUndefined
  end.

(** [v?.k] and [v?.[0]]. *)
Definition get_opt (v : jsval) (k : string) : jsval :=
  match get v k with
  | Some x => x
  | None => JUndefined
  end.

End JS.

Import Num JS.

(** ** The ledger store *)

(** The row of [SELECT monthly_income, savings_goal FROM users]. *)
Record user_row := UserRow {
  monthly_income : prim;
  savings_goal : prim
}.

(** The row of [SELECT name, amount, category FROM expenses]. *)
Record expense_row := ExpenseRow {
  name : string;
  amount : prim;
  category : string
}.

(** The row of [SELECT category, SUM(amount) as total ... GROUP BY category]. *)
Record category_total := {
  group_category : string;
  total : prim
}.

(** What a callback of the driver receives: [err] or the rows. *)
Inductive db_result (A : Type) :=
| DbErr (message : string)
| DbOk (rows : A).
Arguments DbErr {A} message.
Arguments DbOk {A} rows.

(** The three reads of the statistics and chat handlers. *)
Record Ledger := {
  get_user : Z -> db_result (option user_row);
  month_category_totals : Z -> db_result (list category_total);
  month_recent_expenses : Z -> db_result (list expense_row)
}.

(** The tables of [database.js], with the columns that the queries of the
    two handlers touch, and the queries themselves. *)
Module Sql.

Record users_record := {
  id : Z;
  monthly_income : prim;
  savings_goal : prim
}.

Record expenses_record := {
  expense_id : Z;
  user_id : Z;
  name : string;
  amount : prim;
  category : string;
  date : string
}.

Record tables := {
  users : list users_record;
  expenses : list expenses_record
}.

(** [WHERE id = ?], for [db.get]: the first row. *)
Definition select_user (t : tables) (uid : Z) : option user_row :=
  match List.find (fun u => (id u =? uid)%Z) (users t) with
  | Some u => Some (UserRow (monthly_income u) (savings_goal u))
  | None => None
  end.

(** [WHERE user_id = ? AND date >= date('now','start of month')]: the two
    sides are texts, compared byte by byte; [month_start] is the value of
    [date('now','start of month')]. *)
Definition in_month (month_start : string) (uid : Z) (e : expenses_record) : bool :=
  (user_id e =? uid)%Z && String.leb month_start (date e).

Definition month_expenses (t : tables) (month_start : string) (uid : Z) :=
  List.filter (in_month month_start uid) (expenses t).

(** The number that the store reads in a text, for [SUM]: after the white
    space at its start, the longest numeral that it begins with (a sign,
    digits, a fraction, an exponent), and 0 where there is none. *)
Definition space (c : ascii) : bool :=
  let n := Ascii.N_of_ascii c in (((9 <=? n) && (n <=? 13)) || (n =? 32))%N.

Fixpoint skip_spaces (s : string) : string :=
  match s with
  | String c r => if space c then skip_spaces r else s
  | EmptyString => s
  end.

Definition signed (s : string) : Z * string :=
  match s with
  | String "-"%char r => ((-1)%Z, r)
  | String "+"%char r => (1%Z, r)
  | _ => (1%Z, s)
  end.

Definition atof (s : string) : Q :=
  let (sg, s1) := signed (skip_spaces s) in
  let (ip, r1) := span_digits s1 in
  let (fp, r2) :=
    match r1 with
    | String "."%char t => span_digits t
    | _ => (EmptyString, r1)
    end in
  let e :=
    match r2 with
    | String c t =>
        if Ascii.eqb c "e" || Ascii.eqb c "E" then
          let (esg, t1) := signed t in
          let (ed, _) := span_digits t1 in
          (esg * Z.of_N (digits_value ed 0))%Z
        else 0%Z
    | EmptyString => 0%Z
    end in
  ((sg * Z.of_N (digits_value (ip ++ fp) 0) # 1)
   * pow10 (e - Z.of_nat (String.length fp)))%Q.

(** The value of a column for [SUM]: NULL is left out. *)
Definition summand (v : prim) : option number :=
  match v with
  | PNull => None
  | PNum n => Some n
  | PStr s => Some (Finite (atof s))
  end.

(** One more value for a sum; [None] is the sum of no value. *)
Definition sum_step (acc : option number) (v : prim) : option number :=
  match summand v with
  | None => acc
  | Some n => Some (match acc with
                    | None => n
                    | Some a => Num.add a n
                    end)
  end.

(** The result of [SUM]: NULL for no value and for NaN. *)
Definition sum_result (acc : option number) : prim :=
  match acc with
  | None | Some NaN => PNull
  | Some n => PNum n
  end.

(** [GROUP BY category] with [SUM(amount)]: one row per category.  SQL
    leaves the order of the groups open; they come here in ascending byte
    order, as the sorter of SQLite gives them. *)
Fixpoint add_to_group (c : string) (v : prim) (g : list (string * option number)) :=
  match g with
  | [] => [(c, sum_step None v)]
  | (c', acc) :: g' =>
      match String.compare c c' with
      | Eq => (c, sum_step acc v) :: g'
      | Lt => (c, sum_step None v) :: g
      | Gt => (c', acc) :: add_to_group c v g'
      end
  end.

Definition groups (l : list expenses_record) : list (string * option number) :=
  fold_left (fun g e => add_to_group (category e) (amount e) g) l [].

Definition group_by_category (l : list expenses_record) : list category_total :=
  List.map (fun g => {| group_category := fst g; total := sum_result (snd g) |}) (groups l).

(** [ORDER BY date DESC]: the rows of equal date keep the order of the
    table. *)
Fixpoint insert_desc (e : expenses_record) (l : list expenses_record) :=
  match l with
  | [] => [e]
  | x :: r => if String.leb (date x) (date e) then e :: l else x :: insert_desc e r
  end.

Definition order_by_date_desc (l : list expenses_record) : list expenses_record :=
  fold_right insert_desc [] l.

Definition project (e : expenses_record) : expense_row :=
  ExpenseRow (name e) (amount e) (category e).

(** [... ORDER BY date DESC LIMIT 5] *)
Definition recent_expenses (t : tables) (month_start : string) (uid : Z) :=
  List.map project (firstn 5 (order_by_date_desc (month_expenses t month_start uid))).

Definition ledger (t : tables) (month_start : string) : Ledger :=
  {| get_user := fun uid => DbOk (select_user t uid);
     month_category_totals :=
       fun uid => DbOk (group_by_category (month_expenses t month_start uid));
     month_recent_expenses := fun uid => DbOk (recent_expenses t month_start uid) |}.

End Sql.

(** ** The world of a request *)

(** What a statement throws. *)
Inductive exn :=
| TypeError (what : string)
| Error (message : string)
| SyntaxError
| FetchFailed.

(** How a statement ends. *)
Inductive completion (A : Type) :=
| Return (a : A)
| Throw (e : exn).
Arguments Return {A} a.
Arguments Throw {A} e.

(** The objects of the heap: a row of [db.get], an array of rows of
    [db.all], and a plain object with its own properties in the order of
    their creation. *)
Inductive cell :=
| CRow (u : user_row)
| CArray (rows : list expense_row)
| CObject (props : list (string * jsval)).

(** A line of the console: the label and what is printed after it. *)
Inductive log_entry :=
| LogError (label : string) (e : exn)
| LogWarn (label : string) (data : jsval).

(** The arguments of [fetch]; [payload] is the object given to
    [JSON.stringify]. *)
Record request := {
  url : string;
  method : string;
  headers : list (string * string);
  payload : jsval
}.

(** The heap, the console and the requests sent so far. *)
Record World := {
  heap : gmap positive cell;
  console : list log_entry;
  sent : list request
}.

(** ** The monad of the handlers: a state over the world, with exceptions *)

Definition JSM (A : Type) : Type := World -> completion A * World.

Definition ret {A} (a : A) : JSM A := fun w => (Return a, w).

Definition throw {A} (e : exn) : JSM A := fun w => (Throw e, w).

Definition bind {A B} (m : JSM A) (k : A -> JSM B) : JSM B :=
  fun w =>
    match m w with
    | (Return a, w') => k a w'
    | (Throw e, w') => (Throw e, w')
    end.

Definition try_catch {A} (m : JSM A) (h : exn -> JSM A) : JSM A :=
  fun w =>
    match m w with
    | (Return a, w') => (Return a, w')
    | (Throw e, w') => h e w'
    end.

Declare Scope jsm_scope.
Delimit Scope jsm_scope with jsm.
Notation "x <- m ;; k" := (bind m (fun x => k))
  (at level 100, m at next level, k at level 200, right associativity) : jsm_scope.
Local Open Scope jsm_scope.

Definition type_error {A} (what : string) (o : option A) : JSM A :=
  match o with
  | Some a => ret a
  | None => throw (TypeError what)
  end.

(** A new object, array or row. *)
Definition alloc (c : cell) : JSM positive :=
  fun w =>
    let l := fresh (dom (heap w)) in
    (Return l, {| heap := <[l := c]> (heap w); console := console w; sent := sent w |}).

Definition read (l : positive) : JSM cell :=
  fun w =>
    match heap w !! l with
    | Some c => (Return c, w)
    | None => (Throw (TypeError "dangling reference"), w)
    end.

Definition write (l : positive) (c : cell) : JSM unit :=
  fun w => (Return tt, {| heap := <[l := c]> (heap w); console := console w; sent := sent w |}).

Definition read_row (l : positive) : JSM user_row :=
  c <- read l ;;
  match c with
  | CRow u => ret u
  | _ => throw (TypeError "not a row")
  end.

Definition read_array (l : positive) : JSM (list expense_row) :=
  c <- read l ;;
  match c with
  | CArray rows => ret rows
  | _ => throw (TypeError "not an array")
  end.

Definition read_object (l : positive) : JSM (list (string * jsval)) :=
  c <- read l ;;
  match c with
  | CObject props => ret props
  | _ => throw (TypeError "not an object")
  end.

(** [console.error] and [console.warn]. *)
Definition log (e : log_entry) : JSM unit :=
  fun w => (Return tt, {| heap := heap w; console := console w ++ [e]; sent := sent w |}).

(** [expenses.reduce((sum, exp) => f sum exp, init)], for a callback without
    effects. *)
Definition reduce {A} (arr : positive) (f : A -> expense_row -> A) (init : A) : JSM A :=
  rows <- read_array arr ;;
  ret (fold_left f rows init).

Fixpoint for_each {A} (f : A -> JSM unit) (l : list A) : JSM unit :=
  match l with
  | [] => ret tt
  | x :: r => _ <- f x ;; for_each f r
  end.

(** [expenses.forEach(f)] *)
Definition forEach (arr : positive) (f : expense_row -> JSM unit) : JSM unit :=
  rows <- read_array arr ;;
  for_each f rows.

(** [arr.forEach] with a local variable that the callback updates. *)
Fixpoint fold_m {A B} (f : B -> A -> JSM B) (l : list A) (b : B) : JSM B :=
  match l with
  | [] => ret b
  | x :: r => b' <- f b x ;; fold_m f r b'
  end.

(** [question.toLowerCase()] and [aiResponse.trim()]: a method of strings
    only; no value of a JSON text carries a function. *)
Definition toLowerCase (v : jsval) : JSM string :=
  match v with
  | JStr s => ret (Str.toLowerCase s)
  | _ => throw (TypeError "toLowerCase is not a function")
  end.

Definition trim (v : jsval) : JSM string :=
  match v with
  | JStr s => ret (Str.trim s)
  | _ => throw (TypeError "trim is not a function")
  end.

(** ** [generateMockAIResponse] *)

Definition generateMockAIResponse (question : jsval) (user expenses : positive)
  : JSM string :=
  u <- read_row user ;;
  let income := prim_or (monthly_income u) (Real 0) in
  let goal := prim_or (savings_goal u) (Real 0) in
  totalExpenses <- reduce expenses (fun sum exp => prim_add sum (amount exp)) (Real 0) ;;
  let saved :=
    Num.largest (Finite 0) (Num.sub (prim_number income) (prim_number totalExpenses)) in
  q <- toLowerCase question ;;
  if Str.includes q "save" || Str.includes q "saving" then
    ret ("Based on your current financial situation:" +:+ Str.nl
         +:+ "• Monthly Income: ₹" +:+ prim_string income +:+ Str.nl
         +:+ "• Current Savings: ₹" +:+ Num.show saved +:+ Str.nl
         +:+ "• Savings Goal: ₹" +:+ prim_string goal +:+ Str.nl
         +:+ Str.nl
         +:+ "I recommend setting aside 20% of your income (₹"
         +:+ Num.show (Num.mul (prim_number income) (Finite (2 # 10)))
         +:+ ") each month. Consider automating transfers to your savings account right after you receive your income.")
  else if Str.includes q "budget" || Str.includes q "spend" then
    categories <- alloc (CObject []) ;;
    _ <- forEach expenses (fun exp =>
           o <- read_object categories ;;
           v <- type_error "Cannot convert object to primitive value"
                  (add (or_else (obj_get (category exp) o) (JNum 0)) (js (amount exp))) ;;
           write categories (CObject (obj_set (category exp) v o))) ;;
    o <- read_object categories ;;
    advice <- fold_m (fun advice entry =>
                amt <- type_error "Cannot convert object to primitive value"
                         (to_string (snd entry)) ;;
                ret (advice +:+ "• " +:+ fst entry +:+ ": ₹" +:+ amt +:+ Str.nl))
              (Object_entries o) ("Your spending breakdown:" +:+ Str.nl) ;;
    ret (advice +:+ Str.nl +:+ "Try the 50/30/20 rule: 50% needs, 30% wants, 20% savings.")
  else if Str.includes q "invest" || Str.includes q "grow" then
    ret ("For your income of ₹" +:+ prim_string income
         +:+ ", consider these investment options:" +:+ Str.nl
         +:+ "1. Emergency Fund: 3-6 months of expenses (₹"
         +:+ Num.show (Num.mul (prim_number totalExpenses) (Finite 4)) +:+ ")" +:+ Str.nl
         +:+ "2. Mutual Funds: Start with ₹"
         +:+ Num.show (Num.smallest (Finite 5000)
                         (Num.mul (prim_number income) (Finite (1 # 10))))
         +:+ " monthly SIP" +:+ Str.nl
         +:+ "3. Fixed Deposits: Safe option for short-term goals")
  else if Str.includes q "debt" || Str.includes q "loan" then
    ret ("For debt management:" +:+ Str.nl
         +:+ "• Prioritize high-interest debts first" +:+ Str.nl
         +:+ "• Consider debt consolidation if you have multiple loans" +:+ Str.nl
         +:+ "• Aim to keep total EMI under 40% of your monthly income")
  else
    qs <- type_error "Cannot convert object to primitive value" (to_string question) ;;
    ret ("I understand you're asking about " +:+ Str.dquote +:+ qs +:+ Str.dquote
         +:+ ". As your financial advisor, I can see:" +:+ Str.nl
         +:+ "• Your monthly income: ₹" +:+ prim_string income +:+ Str.nl
         +:+ "• Current expenses: ₹" +:+ prim_string totalExpenses +:+ Str.nl
         +:+ "• Savings progress: ₹" +:+ Num.show saved
         +:+ " of ₹" +:+ prim_string goal +:+ " goal" +:+ Str.nl
         +:+ Str.nl
         +:+ "For personalized advice, consider tracking all your expenses and setting clear financial goals. Would you like specific advice on savings, budgeting, or investments?").

(** ** The HTTP handlers *)

Record response := {
  status : Z;
  body : jsval
}.

(** [res.status(st).json(b)]; [res.json(b)] has status 200. *)
Definition json (st : Z) (b : jsval) : response := {| status := st; body := b |}.

Definition error_body (message : string) : jsval := JObj [("error", JStr message)].

(** *** GET /api/stats *)

Definition category_total_json (c : category_total) : jsval :=
  JObj [("category", JStr (group_category c)); ("total", js (total c))].

Definition api_stats (db : Ledger) (userId : Z) : response :=
  match get_user db userId with
  | DbErr message => json 500 (error_body message)
  | DbOk None => json 404 (error_body "User not found")
  | DbOk (Some user) =>
      match month_category_totals db userId with
      | DbErr message => json 500 (error_body message)
      | DbOk categoryTotals =>
          let totalExpenses :=
            fold_left (fun sum cat => prim_add sum (total cat)) categoryTotals (Real 0) in
          let saved :=
            Num.largest (Finite 0)
              (Num.sub (prim_number (prim_or (monthly_income user) (Real 0)))
                       (prim_number totalExpenses)) in
          let goalPercentage :=
            if Num.gt (prim_number (savings_goal user)) (Finite 0)
            then Num.smallest (Finite 100)
                   (Num.mul (Num.div saved (prim_number (savings_goal user))) (Finite 100))
            else Finite 0 in
          json 200 (JObj [
            ("monthly_income", js (monthly_income user));
            ("savings_goal", js (savings_goal user));
            ("total_expenses", js totalExpenses);
            ("saved_amount", of_number saved);
            ("goal_percentage", of_number goalPercentage);
            ("category_totals", JArr (List.map category_total_json categoryTotals))
          ])
      end
  end.

(** *** POST /api/expenses *)

(** The parameters bound to
    [INSERT INTO expenses (user_id, name, amount, category, date)]. *)
Record insert_expense := {
  insert_user_id : Z;
  insert_name : jsval;
  insert_amount : jsval;
  insert_category : jsval;
  insert_date : string
}.

(** What the handler does with a request: it answers at once, or it runs
    the INSERT (and answers from the callbacks of the driver). *)
Inductive expense_outcome :=
| Answered (r : response)
| Inserted (p : insert_expense).

(** [now] is [new Date().toISOString()].  A [Throw] leaves the handler and
    reaches the error handler of the framework. *)
Definition api_post_expense (userId : Z) (req_body : jsval) (now : string)
  : completion expense_outcome :=
  match get req_body "name", get req_body "amount", get req_body "category" with
  | Some name, Some amount, Some category =>
      let invalid := Answered (json 400 (error_body "Valid name and amount are required")) in
      if negb (truthy name) || negb (truthy amount) then Return invalid
      else
        match le_zero amount with
        | None => Throw (TypeError "Cannot convert object to primitive value")
        | Some true => Return invalid
        | Some false =>
            Return (Inserted {| insert_user_id := userId;
                                insert_name := name;
                                insert_amount := amount;
                                insert_category := or_else category (JStr "other");
                                insert_date := now |})
        end
  | _, _, _ => Throw (TypeError "Cannot destructure the request body")
  end.

(** *** POST /api/chat *)

Record Env := {
  GEMINI_API_KEY : option string
}.

(** What [fetch] gives: a rejected promise, or a response with its [ok]
    flag and the value of its body as JSON, if it is one. *)
Inductive fetch_outcome :=
| Rejected
| Responded (ok : bool) (data : option jsval).

Definition fetch (service : request -> fetch_outcome) (r : request)
  : JSM (bool * option jsval) :=
  fun w =>
    let w' := {| heap := heap w; console := console w; sent := sent w ++ [r] |} in
    match service r with
    | Rejected => (Throw FetchFailed, w')
    | Responded ok data => (Return (ok, data), w')
    end.

(** [await response.json()] *)
Definition response_json (data : option jsval) : JSM jsval :=
  match data with
  | Some d => ret d
  | None => throw SyntaxError
  end.

Definition join (sep : string) (l : list string) : string := String.concat sep l.

Definition financialContext (user : user_row) (totalExpenses : prim) (saved : number)
    (expenses : list expense_row) : string :=
  Str.nl
  +:+ "            User Financial Summary:" +:+ Str.nl
  +:+ "            - Monthly Income: ₹" +:+ prim_string (prim_or (monthly_income user) (Real 0)) +:+ Str.nl
  +:+ "            - Savings Goal: ₹" +:+ prim_string (prim_or (savings_goal user) (Real 0)) +:+ Str.nl
  +:+ "            - Current Month Expenses: ₹" +:+ prim_string (prim_or totalExpenses (Real 0)) +:+ Str.nl
  +:+ "            - Amount Saved: ₹" +:+ Num.show (Num.or_nothing saved) +:+ Str.nl
  +:+ "            - Savings Rate: "
  +:+ (if prim_truthy (monthly_income user)
       then Num.fixed1 (Num.mul (Num.div saved (prim_number (monthly_income user)))
                          (Finite 100))
       else "0")
  +:+ "%" +:+ Str.nl
  +:+ "            - Recent Expenses: "
  +:+ join ", " (List.map (fun e => name e +:+ ": ₹" +:+ prim_string (amount e)
                                    +:+ " (" +:+ category e +:+ ")")
                          (firstn 5 expenses))
  +:+ Str.nl
  +:+ "          ".

Definition prompt (context message : string) : string :=
  Str.nl
  +:+ "You are FineFlex AI, a helpful financial advisor." +:+ Str.nl
  +:+ "Use this financial context to give personalized advice:" +:+ Str.nl
  +:+ context +:+ Str.nl
  +:+ Str.nl
  +:+ "Be concise, friendly, and focus on practical, actionable tips." +:+ Str.nl
  +:+ "User's question: " +:+ message +:+ Str.nl
  +:+ "              ".

Definition gemini_request (gemini_key text : string) : request :=
  {| url := "https://generativelanguage.googleapis.com/v1/models/gemini-2.5-flash:generateContent?key="
            +:+ gemini_key;
     method := "POST";
     headers := [("Content-Type", "application/json")];
     payload := JObj [
       ("contents", JArr [JObj [("parts", JArr [JObj [("text", JStr text)]])]]);
       ("generationConfig", JObj [("temperature", JNum (7 # 10));
                                  ("maxOutputTokens", JNum 2048)])
     ] |}.

Definition apology : string :=
  "Sorry, I couldn’t generate a complete response this time. Try rephrasing your question!".

(** The text of the first candidate:
    [d?.candidates?.[0]?.content?.parts?.[0]?.text ||
     d?.candidates?.[0]?.output_text ||
     d?.candidates?.[0]?.content?.text || null]. *)
Definition extract_text (geminiData : jsval) : jsval :=
  let candidate := get_opt (get_opt geminiData "candidates") "0" in
  or_else
    (or_else
       (or_else
          (get_opt (get_opt (get_opt (get_opt candidate "content") "parts") "0") "text")
          (get_opt candidate "output_text"))
       (get_opt (get_opt candidate "content") "text"))
    JNull.

(** The callback of the second read: [user] and [expenses] are the row and
    the array that the driver handed over. *)
Definition chat_with_context (gemini_key : string) (service : request -> fetch_outcome)
    (message : jsval) (user expenses : positive) : JSM response :=
  totalExpenses <- reduce expenses (fun sum exp => prim_add sum (amount exp)) (Real 0) ;;
  u <- read_row user ;;
  let saved :=
    Num.largest (Finite 0)
      (Num.sub (prim_number (prim_or (monthly_income u) (Real 0)))
               (prim_number totalExpenses)) in
  rows <- read_array expenses ;;
  let context := financialContext u totalExpenses saved rows in
  try_catch
    (question <- type_error "Cannot convert object to primitive value" (to_string message) ;;
     geminiResponse <- fetch service (gemini_request gemini_key (prompt context question)) ;;
     if negb (fst geminiResponse) then
       errorData <- response_json (snd geminiResponse) ;;
       error <- type_error "Cannot read properties of null" (get errorData "error") ;;
       text <- type_error "Cannot convert object to primitive value"
                 (to_string (or_else (get_opt error "message") (JStr "Gemini API error"))) ;;
       throw (Error text)
     else
       geminiData <- response_json (snd geminiResponse) ;;
       let aiResponse := extract_text geminiData in
       if truthy aiResponse then
         text <- trim aiResponse ;;
         ret (json 200 (JObj [("response", JStr text)]))
       else
         _ <- log (LogWarn "⚠️ Gemini gave no text. Full response:" geminiData) ;;
         ret (json 200 (JObj [("response", JStr apology)])))
    (fun error =>
       _ <- log (LogError "Gemini API error:" error) ;;
       mockResponse <- generateMockAIResponse message user expenses ;;
       ret (json 200 (JObj [("response", JStr mockResponse)]))).

(** The handler.  Its [try] covers the statements that run before the first
    read of the store; the callbacks of the reads run later, and what they
    throw leaves the handler: no response is sent then. *)
Definition api_chat (env : Env) (db : Ledger) (service : request -> fetch_outcome)
    (userId : Z) (req_body : jsval) : JSM response :=
  checked <- try_catch
    (message <- type_error "Cannot destructure the request body" (get req_body "message") ;;
     if negb (truthy message) then
       ret (inl (json 400 (error_body "Message is required")))
     else
       match GEMINI_API_KEY env with
       | Some (String c k) => ret (inr (message, String c k))
       | _ =>
           ret (inl (json 500 (error_body
             "Gemini API key not configured. Please add GEMINI_API_KEY to your .env file.")))
       end)
    (fun err =>
       _ <- log (LogError "Unexpected error in /api/chat:" err) ;;
       ret (inl (json 500 (error_body "Internal Server Error")))) ;;
  match checked with
  | inl r => ret r
  | inr (message, gemini_key) =>
      match get_user db userId with
      | DbErr m => ret (json 500 (error_body m))
      | DbOk None => ret (json 404 (error_body "User not found"))
      | DbOk (Some u) =>
          user <- alloc (CRow u) ;;
          match month_recent_expenses db userId with
          | DbErr m => ret (json 500 (error_body m))
          | DbOk rows =>
              expenses <- alloc (CArray rows) ;;
              chat_with_context gemini_key service message user expenses
          end
      end
  end.

Definition empty_world : World := {| heap := ∅; console := []; sent := [] |}.

(** * Specification *)

(** ** The statistics of a month *)

(** A value of a row is a finite number; the number itself, 0 for another
    value. *)
Definition is_real (p : prim) : Prop :=
  match p with
  | PNum (Finite _) => True
  | _ => False
  end.

Definition real (p : prim) : Q :=
  match p with
  | PNum (Finite q) => q
  | _ => 0
  end.

(** A column that may be NULL holds a finite number or NULL. *)
Definition real_or_null (p : prim) : Prop :=
  match p with
  | PNull | PNum (Finite _) => True
  | _ => False
  end.


Definition sum_table_amounts (rows : list Sql.expenses_record) : Q :=
  fold_right (fun e s => (real (Sql.amount e) + s)%Q) 0%Q rows.

Definition sum_totals (groups : list category_total) : Q :=
  fold_right (fun g s => (real (total g) + s)%Q) 0%Q groups.


(** The number in a field of the JSON body of a response. *)
Definition number_field (r : response) (k : string) : option Q :=
  match get (body r) k with
  | Some (JNum q) => Some q
  | _ => None
  end.

(** ** The advice templates *)

Inductive template := Savings | Budget | Investment | Debt | Generic.

(** The keyword sets, in the order of their priority. *)
Definition keyword_sets : list (template * list string) :=
  [ (Savings, ["save"; "saving"]);
    (Budget, ["budget"; "spend"]);
    (Investment, ["invest"; "grow"]);
    (Debt, ["debt"; "loan"]) ].

(** A question mentions a keyword set when its lower-case form contains one
    of the keywords. *)
Definition mentions (question : string) (keywords : list string) : bool :=
  existsb (Str.includes (Str.toLowerCase question)) keywords.

Fixpoint first_match (question : string) (sets : list (template * list string))
  : template :=
  match sets with
  | [] => Generic
  | (t, keywords) :: r => if mentions question keywords then t else first_match question r
  end.

Definition matched (question : string) : template := first_match question keyword_sets.

(** The templates, for the income and the goal as the row gives them (or 0),
    the expenses as the engine adds them up, and the numbers that it
    derives. *)
Definition savings_text (income : prim) (saved : number) (goal : prim) : string :=
  "Based on your current financial situation:" +:+ Str.nl
  +:+ "• Monthly Income: ₹" +:+ prim_string income +:+ Str.nl
  +:+ "• Current Savings: ₹" +:+ Num.show saved +:+ Str.nl
  +:+ "• Savings Goal: ₹" +:+ prim_string goal +:+ Str.nl
  +:+ Str.nl
  +:+ "I recommend setting aside 20% of your income (₹"
  +:+ Num.show (Num.mul (prim_number income) (Finite (20 # 100)))
  +:+ ") each month. Consider automating transfers to your savings account right after you receive your income.".

Definition investment_text (income : prim) (emergency_fund contribution : number)
  : string :=
  "For your income of ₹" +:+ prim_string income
  +:+ ", consider these investment options:" +:+ Str.nl
  +:+ "1. Emergency Fund: 3-6 months of expenses (₹"
  +:+ Num.show emergency_fund +:+ ")" +:+ Str.nl
  +:+ "2. Mutual Funds: Start with ₹"
  +:+ Num.show contribution +:+ " monthly SIP" +:+ Str.nl
  +:+ "3. Fixed Deposits: Safe option for short-term goals".

Definition debt_text : string :=
  "For debt management:" +:+ Str.nl
  +:+ "• Prioritize high-interest debts first" +:+ Str.nl
  +:+ "• Consider debt consolidation if you have multiple loans" +:+ Str.nl
  +:+ "• Aim to keep total EMI under 40% of your monthly income".

Definition generic_text (question : string) (income expenses : prim) (saved : number)
    (goal : prim) : string :=
  "I understand you're asking about " +:+ Str.dquote +:+ question +:+ Str.dquote
  +:+ ". As your financial advisor, I can see:" +:+ Str.nl
  +:+ "• Your monthly income: ₹" +:+ prim_string income +:+ Str.nl
  +:+ "• Current expenses: ₹" +:+ prim_string expenses +:+ Str.nl
  +:+ "• Savings progress: ₹" +:+ Num.show saved
  +:+ " of ₹" +:+ prim_string goal +:+ " goal" +:+ Str.nl
  +:+ Str.nl
  +:+ "For personalized advice, consider tracking all your expenses and setting clear financial goals. Would you like specific advice on savings, budgeting, or investments?".

Definition guideline : string :=
  "Try the 50/30/20 rule: 50% needs, 30% wants, 20% savings.".

(** A breakdown: its heading, one line per entry, an empty line and the
    guideline. *)
Definition breakdown_text (lines : list string) : string :=
  ("Your spending breakdown:" +:+ Str.nl)
  +:+ Str.concat_all lines
  +:+ Str.nl +:+ guideline.

(** The object that the loop of the budget branch builds, one expense after
    the other. *)
Definition tally_step (o : list (string * jsval)) (exp : expense_row) :=
  match add (or_else (obj_get (category exp) o) (JNum 0)) (js (amount exp)) with
  | Some v => obj_set (category exp) v o
  | None => o
  end.

Definition tally (rows : list expense_row) : list (string * jsval) :=
  fold_left tally_step rows [].

Definition entry_line (entry : string * jsval) : string :=
  "• " +:+ fst entry +:+ ": ₹" +:+ default EmptyString (to_string (snd entry)) +:+ Str.nl.

Definition budget_text (rows : list expense_row) : string :=
  breakdown_text (List.map entry_line (Object_entries (tally rows))).

(** The expenses of a list, added one after the other from 0 with the [+]
    of the language: the sum of the amounts when they are numbers. *)
Definition total_of (rows : list expense_row) : prim :=
  fold_left (fun sum exp => prim_add sum (amount exp)) rows (Real 0).

(** What is saved: [max(0, income - expenses)]. *)
Definition saved_of (income expenses : prim) : number :=
  Num.largest (Finite 0) (Num.sub (prim_number income) (prim_number expenses)).

(** The advice for a question, the facts of a user and a list of expenses. *)
Definition advice (question : string) (u : user_row) (rows : list expense_row) : string :=
  let income := prim_or (monthly_income u) (Real 0) in
  let goal := prim_or (savings_goal u) (Real 0) in
  let expenses := total_of rows in
  let saved := saved_of income expenses in
  match matched question with
  | Savings => savings_text income saved goal
  | Budget => budget_text rows
  | Investment =>
      investment_text income (Num.mul (Finite 4) (prim_number expenses))
        (Num.smallest (Finite 5000) (Num.div (prim_number income) (Finite 10)))
  | Debt => debt_text
  | Generic => generic_text question income expenses saved goal
  end.




(** The row and the array that a call of the engine reads. *)
Definition holds (w : World) (user expenses : positive)
    (u : user_row) (rows : list expense_row) : Prop :=
  heap w !! user = Some (CRow u) /\ heap w !! expenses = Some (CArray rows).

(** Nothing that existed before has changed: neither the console, nor the
    requests sent, nor an object of the heap. *)
Definition unchanged (w w' : World) : Prop :=
  console w' = console w /\ sent w' = sent w /\
  forall l c, heap w !! l = Some c -> heap w' !! l = Some c.

(** ** Predicates, named blocks and examples *)

(** The values that the loop stores are numbers and strings. *)
Definition primitive (v : jsval) : Prop :=
  match v with
  | JNum _ | JNaN | JInf _ | JStr _ => True
  | _ => False
  end.




(** The request that the handler sends for a user, the expenses read for
    the context and a question. *)
Definition chat_request (gemini_key : string) (u : user_row)
    (rows : list expense_row) (question : string) : request :=
  let totalExpenses := total_of rows in
  let saved := saved_of (prim_or (monthly_income u) (Real 0)) totalExpenses in
  gemini_request gemini_key (prompt (financialContext u totalExpenses saved rows) question).

(** The external call fails: the transport fails, the status is not a
    success, or the body of a success is not JSON. *)
Definition call_fails (o : fetch_outcome) : Prop :=
  o = Rejected \/ (exists data, o = Responded false data) \/ o = Responded true None.

(** The block under [catch] of [chat_with_context], under a name for the
    proofs. *)
Definition fallback (message : jsval) (user expenses : positive) (error : exn)
  : JSM response :=
  _ <- log (LogError "Gemini API error:" error) ;;
  mockResponse <- generateMockAIResponse message user expenses ;;
  ret (json 200 (JObj [("response", JStr mockResponse)])).

(** The block under [try] of [chat_with_context], from the request to the
    answer, under a name for the proofs. *)
Definition attempt (gemini_key : string) (service : request -> fetch_outcome)
    (message : jsval) (context : string) : JSM response :=
  question <- type_error "Cannot convert object to primitive value" (to_string message) ;;
  geminiResponse <- fetch service (gemini_request gemini_key (prompt context question)) ;;
  if negb (fst geminiResponse) then
    errorData <- response_json (snd geminiResponse) ;;
    error <- type_error "Cannot read properties of null" (get errorData "error") ;;
    text <- type_error "Cannot convert object to primitive value"
              (to_string (or_else (get_opt error "message") (JStr "Gemini API error"))) ;;
    throw (Error text)
  else
    geminiData <- response_json (snd geminiResponse) ;;
    let aiResponse := extract_text geminiData in
    if truthy aiResponse then
      text <- trim aiResponse ;;
      ret (json 200 (JObj [("response", JStr text)]))
    else
      _ <- log (LogWarn "⚠️ Gemini gave no text. Full response:" geminiData) ;;
      ret (json 200 (JObj [("response", JStr apology)])).

(** The tables of the examples: one user with an income of 50000 and a goal
    of 20000, and one expense of 10000 on food in the month. *)
Definition example_tables : Sql.tables :=
  {| Sql.users := [ {| Sql.id := 1; Sql.monthly_income := Real 50000;
                       Sql.savings_goal := Real 20000 |} ];
     Sql.expenses := [ {| Sql.expense_id := 1; Sql.user_id := 1;
                          Sql.name := "groceries"; Sql.amount := Real 10000;
                          Sql.category := "food";
                          Sql.date := "2024-05-17T10:00:00.000Z" |} ] |}.

Definition example_ledger : Ledger := Sql.ledger example_tables "2024-05-01".


(** A world with a row and an array, for the examples. *)
Definition example_world (u : user_row) (rows : list expense_row) : World :=
  {| heap := <[1%positive := CRow u]> (<[2%positive := CArray rows]> ∅);
     console := []; sent := [] |}.



(** The tables of a user with an income of 1000 and seven expenses of 100,
    six of them in May 2024. *)
Definition busy_tables : Sql.tables :=
  let expense (i : Z) (day : string) :=
    {| Sql.expense_id := i; Sql.user_id := 1; Sql.name := "lunch"; Sql.amount := Real 100;
       Sql.category := "food"; Sql.date := day |} in
  {| Sql.users := [ {| Sql.id := 1; Sql.monthly_income := Real 1000;
                       Sql.savings_goal := Real 500 |} ];
     Sql.expenses := [ expense 1 "2024-04-30T12:00:00.000Z";
                       expense 2 "2024-05-01T12:00:00.000Z";
                       expense 3 "2024-05-02T12:00:00.000Z";
                       expense 4 "2024-05-03T12:00:00.000Z";
                       expense 5 "2024-05-04T12:00:00.000Z";
                       expense 6 "2024-05-05T12:00:00.000Z";
                       expense 7 "2024-05-06T12:00:00.000Z" ] |}.

Definition busy_ledger : Ledger := Sql.ledger busy_tables "2024-05-01".


(** The world after a step is the world before it. *)
Ltac same_world w := exists w; split; [|unfold unchanged; repeat split; auto].

(** * The handlers that reach the store through callbacks *)

(** ** Programs of calls

    [db.get], [db.all], [db.run], [bcrypt.hash], [bcrypt.compare] and
    [jwt.sign] are collaborators of the handlers: a handler hands over a
    statement or a value and goes on in a callback with the answer.  A
    program is that shape: it is done, or it makes a call and goes on with
    the answer. *)

(** The text of a statement and the values bound to its [?]. *)
Record statement := {
  sql : string;
  params : list jsval
}.

(** [this.lastID] and [this.changes] in the callback of [db.run]. *)
Record run_info := {
  lastID : Z;
  changes : Z
}.

(** The calls and the types of their answers: a row is the object of its
    columns, [undefined] without a row; a promise of [bcrypt] that rejects
    answers [None]. *)
Inductive call : Type -> Type :=
| DbGet (s : statement) : call (db_result jsval)
| DbAll (s : statement) : call (db_result (list jsval))
| DbRun (s : statement) : call (db_result run_info)
| BcryptHash (password : jsval) (rounds : Z) : call (option string)
| BcryptCompare (password hash : jsval) : call (option bool)
| JwtSign (payload : jsval) (secret : string) : call string.

Inductive prog (R : Type) : Type :=
| Done (r : R)
| Call {A : Type} (c : call A) (k : A -> prog R).
Arguments Done {R} r.
Arguments Call {R A} c k.

(** The collaborators: an answer to every call. *)
Definition driver : Type := forall A : Type, call A -> A.

Fixpoint run {R : Type} (d : driver) (p : prog R) : R :=
  match p with
  | Done r => r
  | Call c k => run d (k (d _ c))
  end.

(** A call with its answer, and the calls of a run in their order. *)
Inductive event : Type :=
| Event {A : Type} (c : call A) (a : A).

Fixpoint trace {R : Type} (d : driver) (p : prog R) : list event :=
  match p with
  | Done _ => []
  | Call c k => Event c (d _ c) :: trace d (k (d _ c))
  end.

(** [res.status(st).json(b)], which ends a handler. *)
Definition answer (st : Z) (b : jsval) : prog (completion response) :=
  Done (Return (json st b)).

(** An integer as a number. *)
Definition integer (z : Z) : jsval := JNum (inject_Z z).

(** [process.env.JWT_SECRET || 'fallback_secret'] *)
Definition secret_or_fallback (JWT_SECRET : option string) : string :=
  match JWT_SECRET with
  | Some (String c s) => String c s
  | _ => "fallback_secret"
  end.

(** ** POST /api/register

    The [try] of the handler covers the statements before the first
    callback, and its [catch] answers with the message of the error, for a
    body that cannot be destructured the message of V8; what a callback
    throws leaves the handler. *)
Definition api_register (JWT_SECRET : option string) (req_body : jsval)
  : prog (completion response) :=
  match get req_body "username", get req_body "email", get req_body "password",
        get req_body "monthly_income", get req_body "savings_goal" with
  | Some username, Some email, Some password, Some monthly_income, Some savings_goal =>
      if negb (truthy email) || negb (truthy password) then
        answer 400 (error_body "Email and password are required")
      else
        Call (DbGet {| sql := "SELECT * FROM users WHERE email = ?"; params := [email] |})
          (fun found =>
             match found with
             | DbErr message => answer 500 (error_body message)
             | DbOk user =>
                 if truthy user then answer 400 (error_body "User already exists")
                 else
                   Call (BcryptHash password 10)
                     (fun hashed =>
                        match hashed with
                        | None => Done (Throw (Error "Illegal arguments"))
                        | Some hashedPassword =>
                            Call (DbRun
                                    {| sql := "INSERT INTO users (username, email, password, monthly_income, savings_goal) "
                                              +:+ Str.nl +:+ "         VALUES (?, ?, ?, ?, ?)";
                                       params := [ or_else username (JStr "User"); email;
                                                   JStr hashedPassword;
                                                   or_else monthly_income (JNum 0);
                                                   or_else savings_goal (JNum 0) ] |})
                              (fun inserted =>
                                 match inserted with
                                 | DbErr message => answer 500 (error_body message)
                                 | DbOk this =>
                                     Call (JwtSign (JObj [("userId", integer (lastID this))])
                                             (secret_or_fallback JWT_SECRET))
                                       (fun token =>
                                          answer 201 (JObj [
                                            ("message", JStr "User created successfully");
                                            ("token", JStr token);
                                            ("user", JObj [
                                               ("id", integer (lastID this));
                                               ("username", or_else username (JStr "User"));
                                               ("email", email);
                                               ("monthly_income", or_else monthly_income (JNum 0));
                                               ("savings_goal", or_else savings_goal (JNum 0)) ]) ]))
                                 end)
                        end)
             end)
  | _, _, _, _, _ =>
      answer 500 (error_body
        ("Cannot destructure property 'username' of 'req.body' as it is "
         +:+ match req_body with JNull => "null" | _ => "undefined" end +:+ "."))
  end.

(** ** POST /api/login *)
Definition api_login (JWT_SECRET : option string) (req_body : jsval)
  : prog (completion response) :=
  match get req_body "email", get req_body "password" with
  | Some email, Some password =>
      if negb (truthy email) || negb (truthy password) then
        answer 400 (error_body "Email and password are required")
      else
        Call (DbGet {| sql := "SELECT * FROM users WHERE email = ?"; params := [email] |})
          (fun found =>
             match found with
             | DbErr message => answer 500 (error_body message)
             | DbOk user =>
                 if negb (truthy user) then answer 400 (error_body "Invalid credentials")
                 else
                   Call (BcryptCompare password (get_opt user "password"))
                     (fun compared =>
                        match compared with
                        | None => Done (Throw (Error "Illegal arguments"))
                        | Some validPassword =>
                            if negb validPassword then
                              answer 400 (error_body "Invalid credentials")
                            else
                              Call (JwtSign (JObj [("userId", get_opt user "id")])
                                      (secret_or_fallback JWT_SECRET))
                                (fun token =>
                                   answer 200 (JObj [
                                     ("message", JStr "Logged in successfully");
                                     ("token", JStr token);
                                     ("user", JObj [
                                        ("id", get_opt user "id");
                                        ("username", get_opt user "username");
                                        ("email", get_opt user "email");
                                        ("monthly_income", get_opt user "monthly_income");
                                        ("savings_goal", get_opt user "savings_goal") ]) ]))
                        end)
             end)
  | _, _ => Done (Throw (TypeError "Cannot destructure the request body"))
  end.

(** ** GET /api/user *)
Definition api_user (userId : Z) : prog (completion response) :=
  Call (DbGet {| sql := "SELECT id, username, email, monthly_income, savings_goal, openai_key FROM users WHERE id = ?";
                 params := [integer userId] |})
    (fun found =>
       match found with
       | DbErr message => answer 500 (error_body message)
       | DbOk user =>
           if negb (truthy user) then answer 404 (error_body "User not found")
           else answer 200 user
       end).

(** ** GET /api/expenses *)
Definition api_expenses (userId : Z) : prog (completion response) :=
  Call (DbAll {| sql := "SELECT * FROM expenses WHERE user_id = ? ORDER BY date DESC";
                 params := [integer userId] |})
    (fun found =>
       match found with
       | DbErr message => answer 500 (error_body message)
       | DbOk expenses => answer 200 (JArr expenses)
       end).

(** ** POST /api/expenses, with its callbacks

    [api_post_expense] decides; the statement that it binds is run, and the
    row of [this.lastID] is read back and sent. *)
Definition insert_expense_statement (p : insert_expense) : statement :=
  {| sql := "INSERT INTO expenses (user_id, name, amount, category, date) VALUES (?, ?, ?, ?, ?)";
     params := [ integer (insert_user_id p); insert_name p; insert_amount p;
                 insert_category p; JStr (insert_date p) ] |}.

Definition api_create_expense (userId : Z) (req_body : jsval) (now : string)
  : prog (completion response) :=
  match api_post_expense userId req_body now with
  | Throw e => Done (Throw e)
  | Return (Answered r) => Done (Return r)
  | Return (Inserted p) =>
      Call (DbRun (insert_expense_statement p))
        (fun inserted =>
           match inserted with
           | DbErr message => answer 500 (error_body message)
           | DbOk this =>
               Call (DbGet {| sql := "SELECT * FROM expenses WHERE id = ?";
                              params := [integer (lastID this)] |})
                 (fun found =>
                    match found with
                    | DbErr message => answer 500 (error_body message)
                    | DbOk expense => answer 201 expense
                    end)
           end)
  end.

(** ** DELETE /api/expenses/:id

    [id] is [req.params.id], a text of the URL. *)
Definition api_delete_expense (userId : Z) (id : string) : prog (completion response) :=
  Call (DbRun {| sql := "DELETE FROM expenses WHERE id = ? AND user_id = ?";
                 params := [JStr id; integer userId] |})
    (fun deleted =>
       match deleted with
       | DbErr message => answer 500 (error_body message)
       | DbOk this =>
           if (changes this =? 0)%Z then answer 404 (error_body "Expense not found")
           else answer 200 (JObj [("message", JStr "Expense deleted successfully")])
       end).

(** ** PUT /api/user/settings *)

(** [x !== undefined] *)
Definition defined (v : jsval) : bool :=
  match v with
  | JUndefined => false
  | _ => true
  end.

(** The two arrays that the handler fills, one field after the other. *)
Definition push_field (column : string) (v : jsval) (acc : list string * list jsval)
  : list string * list jsval :=
  if defined v then (fst acc ++ [column +:+ " = ?"], snd acc ++ [v]) else acc.

Definition api_update_settings (userId : Z) (req_body : jsval)
  : prog (completion response) :=
  match get req_body "monthly_income", get req_body "savings_goal",
        get req_body "openai_key" with
  | Some monthly_income, Some savings_goal, Some openai_key =>
      let filled :=
        push_field "openai_key" openai_key
          (push_field "savings_goal" savings_goal
             (push_field "monthly_income" monthly_income ([], []))) in
      let updates := fst filled in
      let values := snd filled in
      if (length updates =? 0)%nat then answer 400 (error_body "No fields to update")
      else
        Call (DbRun {| sql := "UPDATE users SET " +:+ join ", " updates +:+ " WHERE id = ?";
                       params := values ++ [integer userId] |})
          (fun updated =>
             match updated with
             | DbErr message => answer 500 (error_body message)
             | DbOk _ => answer 200 (JObj [("message", JStr "Settings updated successfully")])
             end)
  | _, _, _ => Done (Throw (TypeError "Cannot destructure the request body"))
  end.

(** ** GET /api/health *)
Definition api_health : prog (completion response) :=
  answer 200 (JObj [("status", JStr "OK"); ("message", JStr "Server is running")]).

(** ** The routes of these handlers *)
Inductive route :=
| PostRegister (req_body : jsval)
| PostLogin (req_body : jsval)
| GetUser (userId : Z)
| GetExpenses (userId : Z)
| PostExpenses (userId : Z) (req_body : jsval) (now : string)
| DeleteExpense (userId : Z) (id : string)
| PutSettings (userId : Z) (req_body : jsval)
| GetHealth.

Definition handle (JWT_SECRET : option string) (r : route) : prog (completion response) :=
  match r with
  | PostRegister req_body => api_register JWT_SECRET req_body
  | PostLogin req_body => api_login JWT_SECRET req_body
  | GetUser userId => api_user userId
  | GetExpenses userId => api_expenses userId
  | PostExpenses userId req_body now => api_create_expense userId req_body now
  | DeleteExpense userId id => api_delete_expense userId id
  | PutSettings userId req_body => api_update_settings userId req_body
  | GetHealth => api_health
  end.

(** ** What the calls of a run show *)

(** The error that the store gave to a call, if it gave one. *)
Definition store_error (e : event) : option string :=
  match e with
  | Event c a =>
      match c in call A return A -> option string with
      | DbGet _ => fun a => match a with DbErr m => Some m | DbOk _ => None end
      | DbAll _ => fun a => match a with DbErr m => Some m | DbOk _ => None end
      | DbRun _ => fun a => match a with DbErr m => Some m | DbOk _ => None end
      | _ => fun _ => None
      end a
  end.

(** The statement of a call of the store. *)
Definition statement_of (e : event) : option statement :=
  match e with
  | Event c _ =>
      match c with
      | DbGet s | DbAll s | DbRun s => Some s
      | _ => None
      end
  end.

(** The call changes the store: it is a [db.run]. *)
Definition writes (e : event) : bool :=
  match e with
  | Event c _ =>
      match c with
      | DbRun _ => true
      | _ => false
      end
  end.

(** The number of [?] in the text of a statement. *)
Fixpoint placeholders (s : string) : nat :=
  match s with
  | EmptyString => O
  | String c r => (if Ascii.eqb c "?" then 1 else 0) + placeholders r
  end.

(** The fields of the settings that a body may carry. *)
Definition settings_columns : list string :=
  ["monthly_income"; "savings_goal"; "openai_key"].

(** ** The writes of the store on the tables

    The statements of the handlers on the tables of [Sql], for bound values
    of the types of the columns; [id] is the integer that the store reads in
    a bound value. *)
Module Store.

(** [SELECT * FROM expenses WHERE user_id = ? ORDER BY date DESC] *)
Definition owned (uid : Z) (e : Sql.expenses_record) : bool :=
  (Sql.user_id e =? uid)%Z.

Definition list_expenses (t : Sql.tables) (uid : Z) : list Sql.expenses_record :=
  Sql.order_by_date_desc (List.filter (owned uid) (Sql.expenses t)).

(** [DELETE FROM expenses WHERE id = ? AND user_id = ?]. *)
Definition targeted (id uid : Z) (e : Sql.expenses_record) : bool :=
  (Sql.expense_id e =? id)%Z && (Sql.user_id e =? uid)%Z.

Definition delete_expense (t : Sql.tables) (id uid : Z) : Sql.tables :=
  {| Sql.users := Sql.users t;
     Sql.expenses := List.filter (fun e => negb (targeted id uid e)) (Sql.expenses t) |}.

(** What a column with [REAL] affinity keeps of a value that is bound to
    it: a number as it is, and a text that holds no digit, which is no
    numeral, as it is.  The texts that hold a digit, which the store may
    read as a numeral, and the other values are not covered. *)
Fixpoint has_digit (s : string) : bool :=
  match s with
  | EmptyString => false
  | String c r => is_digit c || has_digit r
  end.

Definition bound (v : jsval) : option prim :=
  match v with
  | JNull => Some PNull
  | JNum q => Some (Real q)
  | JInf negative => Some (PNum (if negative then NegInf else PosInf))
  | JStr s => if has_digit s then None else Some (PStr s)
  | _ => None
  end.

(** [INSERT INTO expenses (user_id, name, amount, category, date)]: the row
    of the bound values, under the id that the store gives it, for a name
    and a category that are texts and an amount that [bound] covers; the
    column of the amount is [NOT NULL]. *)
Definition stored_expense (p : insert_expense) (id : Z) : option Sql.expenses_record :=
  match insert_name p, bound (insert_amount p), insert_category p with
  | JStr n, Some a, JStr c =>
      match a with
      | PNull => None
      | _ => Some {| Sql.expense_id := id; Sql.user_id := insert_user_id p; Sql.name := n;
                     Sql.amount := a; Sql.category := c; Sql.date := insert_date p |}
      end
  | _, _, _ => None
  end.

Definition insert_expense (t : Sql.tables) (r : Sql.expenses_record) : Sql.tables :=
  {| Sql.users := Sql.users t; Sql.expenses := Sql.expenses t ++ [r] |}.

(** [UPDATE users SET monthly_income = ?, savings_goal = ? WHERE id = ?],
    with the fields that the body carries: a field that is missing keeps the
    column, another one sets it to what the column keeps of its value. *)
Inductive assignment :=
| Keep
| SetTo (v : prim).

Definition assignment_of (v : jsval) : option assignment :=
  match v with
  | JUndefined => Some Keep
  | _ => option_map SetTo (bound v)
  end.

Definition assign (a : assignment) (old : prim) : prim :=
  match a with
  | Keep => old
  | SetTo v => v
  end.

Definition update_user (t : Sql.tables) (uid : Z) (income goal : assignment) : Sql.tables :=
  {| Sql.users :=
       List.map (fun u =>
                   if (Sql.id u =? uid)%Z
                   then {| Sql.id := Sql.id u;
                           Sql.monthly_income := assign income (Sql.monthly_income u);
                           Sql.savings_goal := assign goal (Sql.savings_goal u) |}
                   else u) (Sql.users t);
     Sql.expenses := Sql.expenses t |}.

End Store.

(** Two ledgers show the same to a user. *)
Definition same_view (a b : Ledger) (uid : Z) : Prop :=
  get_user a uid = get_user b uid
  /\ month_category_totals a uid = month_category_totals b uid
  /\ month_recent_expenses a uid = month_recent_expenses b uid.

(** A program answers an error of the store at once, with status 500 and
    the message of the error. *)
Inductive fails_closed : prog (completion response) -> Prop :=
| fails_closed_done (r : completion response) : fails_closed (Done r)
| fails_closed_call (A : Type) (c : call A) (k : A -> prog (completion response)) :
    (forall a m, store_error (Event c a) = Some m -> k a = answer 500 (error_body m)) ->
    (forall a, fails_closed (k a)) ->
    fails_closed (Call c k).

(** Collaborators for the examples: a store that has no row, one whose
    reads and writes fail, and one that holds a registered user. *)
Definition empty_store : driver :=
  fun A c =>
    match c in call A return A with
    | DbGet _ => DbOk JUndefined
    | DbAll _ => DbOk []
    | DbRun _ => DbOk {| lastID := 7; changes := 0 |}
    | BcryptHash _ _ => Some "$2a$10$hash"
    | BcryptCompare _ _ => Some false
    | JwtSign _ _ => "token"
    end.

Definition failing_store : driver :=
  fun A c =>
    match c in call A return A with
    | DbGet _ => DbErr "SQLITE_BUSY"
    | DbAll _ => DbErr "SQLITE_BUSY"
    | DbRun _ => DbErr "SQLITE_BUSY"
    | BcryptHash _ _ => Some "$2a$10$hash"
    | BcryptCompare _ _ => Some false
    | JwtSign _ _ => "token"
    end.

Definition registered_user : jsval :=
  JObj [ ("id", integer 7); ("username", JStr "User"); ("email", JStr "a@b.c");
         ("password", JStr "$2a$10$hash"); ("monthly_income", JNum 0);
         ("savings_goal", JNum 0); ("openai_key", JNull);
         ("created_at", JStr "2024-05-17 10:00:00") ].

Definition store_with_user (valid : bool) : driver :=
  fun A c =>
    match c in call A return A with
    | DbGet _ => DbOk registered_user
    | DbAll _ => DbOk []
    | DbRun _ => DbOk {| lastID := 8; changes := 1 |}
    | BcryptHash _ _ => Some "$2a$10$hash"
    | BcryptCompare _ _ => Some valid
    | JwtSign _ _ => "token"
    end.

Definition credentials : jsval :=
  JObj [("email", JStr "a@b.c"); ("password", JStr "secret")].



(** A group of finite amounts, and its sum. *)
Definition finite_group (g : string * option number) : Prop :=
  match snd g with
  | Some (Finite _) => True
  | _ => False
  end.

Definition group_value (g : string * option number) : Q := real (Sql.sum_result (snd g)).

Definition values (g : list (string * option number)) : Q :=
  fold_right (fun x s => (group_value x + s)%Q) 0%Q g.



(** The texts of the statements of the handlers: the settings have one
    for each choice of fields. *)
Definition statement_texts : list string :=
  [ "SELECT * FROM users WHERE email = ?";
    "INSERT INTO users (username, email, password, monthly_income, savings_goal) "
      +:+ Str.nl +:+ "         VALUES (?, ?, ?, ?, ?)";
    "SELECT id, username, email, monthly_income, savings_goal, openai_key FROM users WHERE id = ?";
    "SELECT * FROM expenses WHERE user_id = ? ORDER BY date DESC";
    "INSERT INTO expenses (user_id, name, amount, category, date) VALUES (?, ?, ?, ?, ?)";
    "SELECT * FROM expenses WHERE id = ?";
    "DELETE FROM expenses WHERE id = ? AND user_id = ?";
    "UPDATE users SET monthly_income = ? WHERE id = ?";
    "UPDATE users SET savings_goal = ? WHERE id = ?";
    "UPDATE users SET openai_key = ? WHERE id = ?";
    "UPDATE users SET monthly_income = ?, savings_goal = ? WHERE id = ?";
    "UPDATE users SET monthly_income = ?, openai_key = ? WHERE id = ?";
    "UPDATE users SET savings_goal = ?, openai_key = ? WHERE id = ?";
    "UPDATE users SET monthly_income = ?, savings_goal = ?, openai_key = ? WHERE id = ?" ].

(** A statement has one of these texts, and a bound value for each of its
    placeholders. *)
Definition prepared_statement (s : statement) : Prop :=
  In (sql s) statement_texts /\ placeholders (sql s) = length (params s).

Definition prepared_call {A : Type} (c : call A) : Prop :=
  match c with
  | DbGet s | DbAll s | DbRun s => prepared_statement s
  | _ => True
  end.

Inductive prepared : prog (completion response) -> Prop :=
| prepared_done (r : completion response) : prepared (Done r)
| prepared_step (A : Type) (c : call A) (k : A -> prog (completion response)) :
    prepared_call c -> (forall a, prepared (k a)) -> prepared (Call c k).

(** A store that holds the expense of the examples under the id 8. *)
Definition stored_tea : jsval :=
  JObj [ ("id", integer 8); ("user_id", integer 1); ("name", JStr "tea");
         ("amount", JNum 10); ("category", JStr "other");
         ("date", JStr "2024-05-07T12:00:00.000Z");
         ("created_at", JStr "2024-05-07 12:00:00") ].

Definition store_with_expense : driver :=
  fun A c =>
    match c in call A return A with
    | DbGet _ => DbOk stored_tea
    | DbAll _ => DbOk [stored_tea]
    | DbRun _ => DbOk {| lastID := 8; changes := 1 |}
    | BcryptHash _ _ => Some "$2a$10$hash"
    | BcryptCompare _ _ => Some false
    | JwtSign _ _ => "token"
    end.

(** The numbers on which the arithmetic of the language is exact, so that
    the rationals of the model are the numbers of the program: the whole
    numbers from 0 to 2^53. *)
Definition exact (q : Q) : Prop :=
  Qden q = 1%positive /\ (0 <= q)%Q /\ (q <= inject_Z (2 ^ 53))%Q.

Definition exact_value (p : prim) : Prop :=
  match p with
  | PNum (Finite q) => exact q
  | _ => False
  end.




(** The income that the handlers count: [monthly_income || 0], for a value
    that is a finite number or NULL. *)
Definition income_of (p : prim) : Q := real (prim_or p (Real 0)).

(** The tables of two users: the first has an expense in May 2024 and one
    in April, the second an expense in May. *)
Definition shared_tables : Sql.tables :=
  {| Sql.users := [ {| Sql.id := 1; Sql.monthly_income := Real 50000;
                       Sql.savings_goal := Real 20000 |};
                    {| Sql.id := 2; Sql.monthly_income := Real 900;
                       Sql.savings_goal := PNull |} ];
     Sql.expenses := [ {| Sql.expense_id := 1; Sql.user_id := 1;
                          Sql.name := "groceries"; Sql.amount := Real 10000;
                          Sql.category := "food";
                          Sql.date := "2024-05-17T10:00:00.000Z" |};
                       {| Sql.expense_id := 2; Sql.user_id := 1;
                          Sql.name := "shoes"; Sql.amount := Real 999;
                          Sql.category := "clothes";
                          Sql.date := "2024-04-30T23:59:59.999Z" |};
                       {| Sql.expense_id := 3; Sql.user_id := 2;
                          Sql.name := "rent"; Sql.amount := Real 777;
                          Sql.category := "housing";
                          Sql.date := "2024-05-02T08:00:00.000Z" |} ] |}.

(** The tables of a user with two expenses in May 2024, the second with
    the text "abc" as its amount. *)
Definition text_amount_tables : Sql.tables :=
  {| Sql.users := [ {| Sql.id := 1; Sql.monthly_income := Real 1000;
                       Sql.savings_goal := Real 500 |} ];
     Sql.expenses := [ {| Sql.expense_id := 1; Sql.user_id := 1;
                          Sql.name := "bread"; Sql.amount := Real 5;
                          Sql.category := "food";
                          Sql.date := "2024-05-17T10:00:00.000Z" |};
                       {| Sql.expense_id := 2; Sql.user_id := 1;
                          Sql.name := "jam"; Sql.amount := PStr "abc";
                          Sql.category := "food";
                          Sql.date := "2024-05-18T10:00:00.000Z" |} ] |}.



(** * Properties *)

(** ** Numbers and strings *)

Lemma number_to_string_proper (x y : Q) :
  (x == y)%Q -> number_to_string x = number_to_string y.
Proof.
  intros H. unfold number_to_string. now rewrite (Qred_complete x y H).
Qed.

Lemma show_proper (a b : number) : Num.eqv a b -> Num.show a = Num.show b.
Proof.
  destruct a, b; simpl; try contradiction; try reflexivity.
  apply number_to_string_proper.
Qed.

Lemma sign_proper (x y : Q) : (x == y)%Q -> Num.sign x = Num.sign y.
Proof.
  unfold Num.sign, Qeq. intros H.
  destruct (Z.compare_spec (Qnum x) 0), (Z.compare_spec (Qnum y) 0); try reflexivity; nia.
Qed.

Lemma mul_comm (a b : number) : Num.eqv (Num.mul a b) (Num.mul b a).
Proof.
  destruct a, b; simpl; auto; try (destruct (Num.sign _); simpl; auto). ring.
Qed.

Lemma mul_proper_r (a : number) (x y : Q) :
  (x == y)%Q -> Num.eqv (Num.mul a (Finite x)) (Num.mul a (Finite y)).
Proof.
  intros H. destruct a; simpl; auto.
  - now rewrite H.
  - rewrite (sign_proper x y H). destruct (Num.sign y); simpl; auto.
  - rewrite (sign_proper x y H). destruct (Num.sign y); simpl; auto.
Qed.

Lemma mul_tenth (a : number) :
  Num.eqv (Num.mul a (Finite (1 # 10))) (Num.div a (Finite 10)).
Proof. destruct a; simpl; auto. field. Qed.

Lemma smallest_proper (a b c : number) :
  Num.eqv b c -> Num.eqv (Num.smallest a b) (Num.smallest a c).
Proof.
  destruct a, b, c; simpl; try contradiction; auto using Qeq_refl.
  intros H. now rewrite H.
Qed.



Lemma append_assoc (a b c : string) : (a +:+ b) +:+ c = a +:+ (b +:+ c).
Proof.
  induction a as [|x a IH]; [reflexivity|].
  change (String x ((a +:+ b) +:+ c) = String x (a +:+ b +:+ c)). now rewrite IH.
Qed.


(** ** Running the monad *)

Lemma bind_return {A B} (m : JSM A) (k : A -> JSM B) (w w' : World) (a : A) :
  m w = (Return a, w') -> bind m k w = k a w'.
Proof. intros H. unfold bind. now rewrite H. Qed.

Lemma bind_throw {A B} (m : JSM A) (k : A -> JSM B) (w w' : World) (e : exn) :
  m w = (Throw e, w') -> bind m k w = (Throw e, w').
Proof. intros H. unfold bind. now rewrite H. Qed.

Lemma read_row_run (w : World) (l : positive) (u : user_row) :
  heap w !! l = Some (CRow u) -> read_row l w = (Return u, w).
Proof. intros H. unfold read_row, bind, read. now rewrite H. Qed.

Lemma read_array_run (w : World) (l : positive) (rows : list expense_row) :
  heap w !! l = Some (CArray rows) -> read_array l w = (Return rows, w).
Proof. intros H. unfold read_array, bind, read. now rewrite H. Qed.

Lemma read_object_run (w : World) (l : positive) (o : list (string * jsval)) :
  heap w !! l = Some (CObject o) -> read_object l w = (Return o, w).
Proof. intros H. unfold read_object, bind, read. now rewrite H. Qed.

Lemma reduce_run {A} (w : World) (l : positive) (rows : list expense_row)
    (f : A -> expense_row -> A) (init : A) :
  heap w !! l = Some (CArray rows) ->
  reduce l f init w = (Return (fold_left f rows init), w).
Proof.
  intros H. unfold reduce. now rewrite (bind_return _ _ _ _ _ (read_array_run _ _ _ H)).
Qed.

Lemma forEach_run (w : World) (l : positive) (rows : list expense_row)
    (f : expense_row -> JSM unit) :
  heap w !! l = Some (CArray rows) -> forEach l f w = for_each f rows w.
Proof.
  intros H. unfold forEach. now rewrite (bind_return _ _ _ _ _ (read_array_run _ _ _ H)).
Qed.

Lemma unchanged_refl (w : World) : unchanged w w.
Proof. now repeat split. Qed.

(** ** The object of the budget branch *)

Lemma own_Forall (P : jsval -> Prop) (k : string) (o : list (string * jsval)) (v : jsval) :
  Forall (fun p => P (snd p)) o -> own k o = Some v -> P v.
Proof.
  induction 1 as [|[k' v'] o Hp Ho IH]; simpl; [discriminate|].
  destruct (String.eqb k k'); [|exact IH]. intros [= <-]. exact Hp.
Qed.

Lemma replace_Forall (P : jsval -> Prop) (k : string) (v : jsval) (o : list (string * jsval)) :
  P v -> Forall (fun p => P (snd p)) o -> Forall (fun p => P (snd p)) (replace k v o).
Proof.
  intros Hv. induction 1 as [|[k' v'] o Hp Ho IH]; simpl; [constructor|].
  destruct (String.eqb k k'); constructor; auto.
Qed.

Lemma obj_set_Forall (P : jsval -> Prop) (k : string) (v : jsval) (o : list (string * jsval)) :
  P v -> Forall (fun p => P (snd p)) o -> Forall (fun p => P (snd p)) (obj_set k v o).
Proof.
  intros Hv Ho. unfold obj_set. destruct (own k o).
  - now apply replace_Forall.
  - destruct (String.eqb k "__proto__"); [exact Ho|].
    apply Forall_app. split; [exact Ho|]. now repeat constructor.
Qed.

Lemma Object_prototype_get_cases (k : string) :
  Object_prototype_get k = JUndefined \/ exists src, Object_prototype_get k = JNative src.
Proof.
  unfold Object_prototype_get, native_function.
  repeat match goal with |- context [if ?b then _ else _] => destruct b end; eauto.
Qed.

(** The sum of the loop never fails: its left side is a number, a string or
    a built-in function, its right side a value of a row. *)
Lemma add_previous (k : string) (a : prim) (o : list (string * jsval)) :
  Forall (fun p => primitive (snd p)) o ->
  exists v, add (or_else (obj_get k o) (JNum 0)) (js a) = Some v /\ primitive v.
Proof.
  intros Ho. unfold obj_get. destruct (own k o) as [v|] eqn:E.
  - pose proof (own_Forall primitive k o v Ho E) as Hv.
    destruct v; try contradiction; unfold or_else; simpl;
      try destruct (negb (is_zero q)); try destruct (negb (Str.is_empty s));
      destruct a as [|[|x| |]|t]; simpl; try destruct negative;
      simpl; eexists; split; try reflexivity; exact I.
  - destruct (Object_prototype_get_cases k) as [-> | [src ->]];
      unfold or_else; simpl; destruct a as [|[|x| |]|t]; simpl;
      eexists; split; try reflexivity; exact I.
Qed.

Lemma tally_step_primitive (o : list (string * jsval)) (exp : expense_row) :
  Forall (fun p => primitive (snd p)) o ->
  Forall (fun p => primitive (snd p)) (tally_step o exp).
Proof.
  intros Ho. unfold tally_step.
  destruct (add_previous (category exp) (amount exp) o Ho) as (v & -> & Hv).
  now apply obj_set_Forall.
Qed.

Lemma tally_from_primitive (rows : list expense_row) (o : list (string * jsval)) :
  Forall (fun p => primitive (snd p)) o ->
  Forall (fun p => primitive (snd p)) (fold_left tally_step rows o).
Proof.
  revert o. induction rows as [|e rows IH]; intros o Ho; simpl; [exact Ho|].
  apply IH. now apply tally_step_primitive.
Qed.

Lemma tally_loop (categories : positive) (rows : list expense_row) :
  forall (o : list (string * jsval)) (w : World),
    heap w !! categories = Some (CObject o) ->
    Forall (fun p => primitive (snd p)) o ->
    exists w',
      for_each (fun exp =>
        o <- read_object categories ;;
        v <- type_error "Cannot convert object to primitive value"
               (add (or_else (obj_get (category exp) o) (JNum 0)) (js (amount exp))) ;;
        write categories (CObject (obj_set (category exp) v o))) rows w = (Return tt, w')
      /\ heap w' = <[categories := CObject (fold_left tally_step rows o)]> (heap w)
      /\ console w' = console w /\ sent w' = sent w.
Proof.
  induction rows as [|e rows IH]; intros o w Hc Ho.
  - exists w. simpl. repeat split. symmetry. now apply insert_id.
  - destruct (add_previous (category e) (amount e) o Ho) as (v & Hadd & Hv).
    set (w1 := {| heap := <[categories := CObject (obj_set (category e) v o)]> (heap w);
                  console := console w; sent := sent w |}).
    assert (Hstep : tally_step o e = obj_set (category e) v o)
      by (unfold tally_step; now rewrite Hadd).
    destruct (IH (obj_set (category e) v o) w1) as (w' & Hrun & Hh & Hcon & Hsent).
    { simpl. apply lookup_insert_eq. }
    { now apply obj_set_Forall. }
    exists w'. split; [|split; [|split]].
    + cbn [for_each]. unfold bind at 1.
      rewrite (bind_return _ _ _ _ _ (read_object_run _ _ _ Hc)).
      rewrite Hadd. cbn [type_error]. unfold bind at 1. cbn [ret write].
      exact Hrun.
    + rewrite Hh. cbn [fold_left]. rewrite Hstep. simpl. apply insert_insert_eq.
    + now rewrite Hcon.
    + now rewrite Hsent.
Qed.

Lemma to_string_primitive (v : jsval) :
  primitive v -> to_string v = Some (default EmptyString (to_string v)).
Proof. destruct v; simpl; try contradiction; reflexivity. Qed.

Lemma entries_loop (entries : list (string * jsval)) :
  Forall (fun p => primitive (snd p)) entries ->
  forall (acc : string) (w : World),
    fold_m (fun advice entry =>
      amt <- type_error "Cannot convert object to primitive value" (to_string (snd entry)) ;;
      ret (advice +:+ "• " +:+ fst entry +:+ ": ₹" +:+ amt +:+ Str.nl)) entries acc w
    = (Return (acc +:+ Str.concat_all (List.map entry_line entries)), w).
Proof.
  induction 1 as [|p entries Hp He IH]; intros acc w.
  - simpl. unfold ret. f_equal. f_equal.
    induction acc as [|c acc IHa]; [reflexivity|].
    change (String c acc = String c (acc +:+ EmptyString)). now rewrite <- IHa.
  - cbn [fold_m]. unfold bind at 1. rewrite (to_string_primitive _ Hp).
    cbn [type_error]. unfold bind at 1. cbn [ret].
    rewrite IH. f_equal. f_equal.
    cbn [List.map Str.concat_all fold_right].
    fold (Str.concat_all (List.map entry_line entries)).
    rewrite append_assoc. reflexivity.
Qed.

Lemma insert_index_Forall {A} (P : A -> Prop) (i : N) (x : A) (l : list (N * A)) :
  P x -> Forall (fun p => P (snd p)) l -> Forall (fun p => P (snd p)) (insert_index i x l).
Proof.
  intros Hx. induction 1 as [|[j y] l Hy Hl IH]; simpl.
  - now repeat constructor.
  - destruct (i <? j)%N; repeat constructor; auto.
Qed.

Lemma own_property_order_Forall {A} (key : A -> string) (P : A -> Prop) (l : list A) :
  Forall P l -> Forall P (own_property_order key l).
Proof.
  intros H. unfold own_property_order. apply Forall_app. split.
  - apply Forall_map. induction H as [|x l Hx Hl IH]; simpl; [constructor|].
    destruct (array_index (key x)); [|exact IH]. now apply insert_index_Forall.
  - clear -H. induction H as [|x l Hx Hl IH]; simpl; [constructor|].
    destruct (named key x); [constructor|]; auto.
Qed.

Lemma bind_ret {A B} (a : A) (k : A -> JSM B) : bind (ret a) k = k a.
Proof. reflexivity. Qed.

(** ** What a call of the engine gives *)

Lemma fresh_lookup_ne (w : World) (l : positive) (c : cell) :
  heap w !! l = Some c -> l <> fresh (dom (heap w)).
Proof.
  intros H ->. apply (is_fresh (dom (heap w))). apply elem_of_dom. now exists c.
Qed.

Lemma budget_branch_run (rows : list expense_row) (w : World) (expenses : positive) :
  heap w !! expenses = Some (CArray rows) ->
  exists w',
    (categories <- alloc (CObject []) ;;
     _ <- forEach expenses (fun exp =>
            o <- read_object categories ;;
            v <- type_error "Cannot convert object to primitive value"
                   (add (or_else (obj_get (category exp) o) (JNum 0)) (js (amount exp))) ;;
            write categories (CObject (obj_set (category exp) v o))) ;;
     o <- read_object categories ;;
     advice <- fold_m (fun advice entry =>
                 amt <- type_error "Cannot convert object to primitive value"
                          (to_string (snd entry)) ;;
                 ret (advice +:+ "• " +:+ fst entry +:+ ": ₹" +:+ amt +:+ Str.nl))
               (Object_entries o) ("Your spending breakdown:" +:+ Str.nl) ;;
     ret (advice +:+ Str.nl +:+ "Try the 50/30/20 rule: 50% needs, 30% wants, 20% savings.")) w
    = (Return (budget_text rows), w')
    /\ unchanged w w'.
Proof.
  intros He.
  set (l := fresh (dom (heap w))).
  set (w1 := {| heap := <[l := CObject []]> (heap w); console := console w; sent := sent w |}).
  assert (Hl : forall l' c, heap w !! l' = Some c -> l' <> l)
    by (intros l' c H; exact (fresh_lookup_ne w l' c H)).
  assert (He1 : heap w1 !! expenses = Some (CArray rows)).
  { simpl. rewrite lookup_insert_ne; [exact He|]. intros E. exact (Hl _ _ He (eq_sym E)). }
  destruct (tally_loop l rows [] w1) as (w2 & Hrun & Hh & Hcon & Hsent).
  { simpl. apply lookup_insert_eq. }
  { constructor. }
  assert (Ho : heap w2 !! l = Some (CObject (tally rows))).
  { rewrite Hh. apply lookup_insert_eq. }
  assert (Hprim : Forall (fun p => primitive (snd p)) (Object_entries (tally rows)))
    by (apply own_property_order_Forall, tally_from_primitive; constructor).
  exists w2. split.
  - rewrite (bind_return (alloc (CObject [])) _ w w1 l eq_refl).
    cbv beta.
    rewrite (bind_return _ _ _ _ _ (eq_trans (forEach_run _ _ _ _ He1) Hrun)).
    rewrite (bind_return _ _ _ _ _ (read_object_run _ _ _ Ho)).
    rewrite (bind_return _ _ _ _ _ (entries_loop _ Hprim _ _)).
    unfold ret, budget_text, breakdown_text, guideline.
    now rewrite append_assoc.
  - repeat split; [now rewrite Hcon | now rewrite Hsent |].
    intros l' c H. rewrite Hh. simpl.
    rewrite !lookup_insert_ne; [exact H | |]; intros E; exact (Hl _ _ H (eq_sym E)).
Qed.

Lemma generateMockAIResponse_run (question : string) (u : user_row)
    (rows : list expense_row) (w : World) (user expenses : positive) :
  holds w user expenses u rows ->
  exists w',
    generateMockAIResponse (JStr question) user expenses w
      = (Return (advice question u rows), w')
    /\ unchanged w w'.
Proof.
  intros [Hu He]. unfold generateMockAIResponse.
  rewrite (bind_return _ _ _ _ _ (read_row_run _ _ _ Hu)).
  rewrite (bind_return _ _ _ _ _ (reduce_run _ _ _ _ _ He)).
  cbn [toLowerCase]. rewrite bind_ret.
  unfold advice, matched, keyword_sets, first_match, mentions.
  cbn [existsb]. rewrite !orb_false_r.
  fold (total_of rows). unfold saved_of.
  set (q := Str.toLowerCase question).
  set (income := prim_or (monthly_income u) (Real 0)).
  destruct (Str.includes q "save" || Str.includes q "saving").
  { same_world w. unfold ret, savings_text.
    rewrite (show_proper _ _ (mul_proper_r (prim_number income) (2 # 10) (20 # 100)
                                ltac:(reflexivity))).
    reflexivity. }
  destruct (Str.includes q "budget" || Str.includes q "spend").
  { exact (budget_branch_run rows w expenses He). }
  destruct (Str.includes q "invest" || Str.includes q "grow").
  { same_world w. unfold ret, investment_text.
    rewrite (show_proper _ _ (mul_comm (prim_number (total_of rows)) (Finite 4))).
    rewrite (show_proper _ _ (smallest_proper (Finite 5000) _ _
                                (mul_tenth (prim_number income)))).
    reflexivity. }
  destruct (Str.includes q "debt" || Str.includes q "loan").
  { same_world w. reflexivity. }
  same_world w. cbn [to_string type_error]. rewrite bind_ret. reflexivity.
Qed.

Lemma generateMockAIResponse_not_a_string (question : jsval) (u : user_row)
    (rows : list expense_row) (w : World) (user expenses : positive) :
  holds w user expenses u rows ->
  (forall s, question <> JStr s) ->
  generateMockAIResponse question user expenses w
    = (Throw (TypeError "toLowerCase is not a function"), w).
Proof.
  intros [Hu He] Hq. unfold generateMockAIResponse.
  rewrite (bind_return _ _ _ _ _ (read_row_run _ _ _ Hu)).
  rewrite (bind_return _ _ _ _ _ (reduce_run _ _ _ _ _ He)).
  destruct question; try reflexivity. now destruct (Hq s).
Qed.

Lemma holds_unchanged (w w' : World) (user expenses : positive)
    (u : user_row) (rows : list expense_row) :
  holds w user expenses u rows -> unchanged w w' -> holds w' user expenses u rows.
Proof. intros [Hu He] (_ & _ & H). split; now apply H. Qed.

(** ** The order of first appearance *)






(** ** The object of the budget branch, without inherited names *)


Lemma own_replace (k k' : string) (v : jsval) (o : list (string * jsval)) :
  own k' (replace k v o) =
  match own k' o with
  | Some x => if String.eqb k' k then Some v else Some x
  | None => None
  end.
Proof.
  induction o as [|[k0 v0] o IH]; simpl; [reflexivity|].
  destruct (String.eqb_spec k k0) as [->|Hk]; simpl.
  - destruct (String.eqb_spec k' k0) as [->|Hk']; [reflexivity|].
    destruct (own k' o); reflexivity.
  - destruct (String.eqb_spec k' k0) as [->|Hk'].
    + destruct (String.eqb_spec k0 k) as [->|_]; [contradiction | reflexivity].
    + exact IH.
Qed.

Lemma own_app_single (k k' : string) (v : jsval) (o : list (string * jsval)) :
  own k' (o ++ [(k, v)]) =
  match own k' o with
  | Some x => Some x
  | None => if String.eqb k' k then Some v else None
  end.
Proof.
  induction o as [|[k0 v0] o IH]; simpl; [reflexivity|].
  destruct (String.eqb k' k0); [reflexivity | exact IH].
Qed.





(** ** The order of [Object.entries] *)











(** ** The chat handler *)

Lemma fallback_run (question : string) (u : user_row) (rows : list expense_row)
    (w : World) (user expenses : positive) (error : exn) :
  holds w user expenses u rows ->
  exists w',
    fallback (JStr question) user expenses error w
      = (Return (json 200 (JObj [("response", JStr (advice question u rows))])), w')
    /\ sent w' = sent w
    /\ console w' = console w ++ [LogError "Gemini API error:" error]
    /\ (forall l c, heap w !! l = Some c -> heap w' !! l = Some c).
Proof.
  intros H. unfold fallback.
  set (w1 := {| heap := heap w;
                console := console w ++ [LogError "Gemini API error:" error];
                sent := sent w |}).
  destruct (generateMockAIResponse_run question u rows w1 user expenses)
    as (w' & Hrun & Hcon & Hsent & Hheap); [exact H|].
  exists w'. split; [|split; [|split]].
  - rewrite (bind_return (log _) _ w w1 tt eq_refl).
    now rewrite (bind_return _ _ _ _ _ Hrun).
  - exact Hsent.
  - exact Hcon.
  - exact Hheap.
Qed.

Lemma chat_with_context_unfold (gemini_key : string) (service : request -> fetch_outcome)
    (message : jsval) (user expenses : positive) (u : user_row)
    (rows : list expense_row) (w : World) :
  holds w user expenses u rows ->
  chat_with_context gemini_key service message user expenses w
  = try_catch
      (attempt gemini_key service message
         (financialContext u (total_of rows)
                 (saved_of (prim_or (monthly_income u) (Real 0)) (total_of rows)) rows))
      (fallback message user expenses) w.
Proof.
  intros [Hu He]. unfold chat_with_context.
  rewrite (bind_return _ _ _ _ _ (reduce_run _ _ _ _ _ He)).
  rewrite (bind_return _ _ _ _ _ (read_row_run _ _ _ Hu)).
  rewrite (bind_return _ _ _ _ _ (read_array_run _ _ _ He)).
  reflexivity.
Qed.


Lemma attempt_fails (gemini_key : string) (service : request -> fetch_outcome)
    (question context : string) (w : World) :
  call_fails (service (gemini_request gemini_key (prompt context question))) ->
  exists e w',
    attempt gemini_key service (JStr question) context w = (Throw e, w')
    /\ heap w' = heap w.
Proof.
  intros Hf. unfold attempt. cbn [to_string type_error]. rewrite bind_ret.
  unfold bind at 1, fetch.
  destruct Hf as [-> | [[data ->] | ->]]; [simpl; eauto | | simpl; eauto].
  cbn [fst snd negb].
  destruct data as [d|]; cbn [response_json]; [|simpl; eauto].
  rewrite bind_ret.
  destruct (get d "error") as [e|]; cbn [type_error]; [|simpl; eauto].
  rewrite bind_ret.
  destruct (to_string _); simpl; eauto.
Qed.

Lemma attempt_no_text (gemini_key : string) (service : request -> fetch_outcome)
    (message : jsval) (question context : string) (d : jsval) (w : World) :
  to_string message = Some question ->
  service (gemini_request gemini_key (prompt context question)) = Responded true (Some d) ->
  truthy (extract_text d) = false ->
  fst (attempt gemini_key service message context w)
  = Return (json 200 (JObj [("response", JStr apology)])).
Proof.
  intros Hq Hs Ht. unfold attempt. rewrite Hq. cbn [type_error]. rewrite bind_ret.
  unfold bind at 1, fetch. rewrite Hs. cbn [fst snd negb response_json].
  rewrite bind_ret. cbv zeta. rewrite Ht. reflexivity.
Qed.

(** The handler up to the callback of the second read. *)
Lemma api_chat_run (env : Env) (db : Ledger) (service : request -> fetch_outcome)
    (userId : Z) (req_body message : jsval) (key : string) (u : user_row)
    (rows : list expense_row) (w : World) :
  get req_body "message" = Some message ->
  truthy message = true ->
  GEMINI_API_KEY env = Some key -> key <> EmptyString ->
  get_user db userId = DbOk (Some u) ->
  month_recent_expenses db userId = DbOk rows ->
  exists w' user expenses,
    api_chat env db service userId req_body w
      = chat_with_context key service message user expenses w'
    /\ holds w' user expenses u rows
    /\ sent w' = sent w /\ console w' = console w
    /\ (forall l c, heap w !! l = Some c -> heap w' !! l = Some c).
Proof.
  intros Hm Ht Hk Hne Hu Hr. unfold api_chat.
  set (user := fresh (dom (heap w))).
  set (w1 := {| heap := <[user := CRow u]> (heap w); console := console w; sent := sent w |}).
  set (expenses := fresh (dom (heap w1))).
  set (w2 := {| heap := <[expenses := CArray rows]> (heap w1);
                console := console w1; sent := sent w1 |}).
  assert (Hu1 : heap w1 !! user = Some (CRow u)) by apply lookup_insert_eq.
  assert (Hne2 : user <> expenses) by exact (fresh_lookup_ne w1 user _ Hu1).
  exists w2, user, expenses. split; [|split; [|split; [|split]]].
  - unfold try_catch at 1. rewrite Hm. cbn [type_error]. rewrite bind_ret.
    rewrite Ht, Hk. cbn [negb].
    destruct key as [|c k]; [contradiction|].
    unfold bind at 1. cbn [ret]. rewrite Hu.
    rewrite (bind_return (alloc (CRow u)) _ w w1 user eq_refl).
    rewrite Hr.
    now rewrite (bind_return (alloc (CArray rows)) _ w1 w2 expenses eq_refl).
  - split; simpl.
    + rewrite lookup_insert_ne; [apply lookup_insert_eq | congruence].
    + apply lookup_insert_eq.
  - reflexivity.
  - reflexivity.
  - intros l c H. simpl.
    assert (l <> user) by exact (fresh_lookup_ne w l c H).
    assert (Hl1 : heap w1 !! l = Some c) by (simpl; rewrite lookup_insert_ne; congruence).
    assert (l <> expenses) by exact (fresh_lookup_ne w1 l c Hl1).
    rewrite lookup_insert_ne by congruence. exact Hl1.
Qed.

(** A failed call is answered with the advice. *)
Lemma api_chat_failure (env : Env) (db : Ledger) (service : request -> fetch_outcome)
    (userId : Z) (req_body : jsval) (question key : string) (u : user_row)
    (rows : list expense_row) (w : World) :
  get req_body "message" = Some (JStr question) ->
  question <> EmptyString ->
  GEMINI_API_KEY env = Some key ->
  key <> EmptyString ->
  get_user db userId = DbOk (Some u) ->
  month_recent_expenses db userId = DbOk rows ->
  call_fails (service (chat_request key u rows question)) ->
  fst (api_chat env db service userId req_body w)
  = Return (json 200 (JObj [("response", JStr (advice question u rows))])).
Proof.
  intros Hm Hq Hk Hne Hu Hr Hf.
  destruct (api_chat_run env db service userId req_body (JStr question) key u rows w)
    as (w' & user & expenses & -> & Hh & _); auto.
  { destruct question; [contradiction | reflexivity]. }
  rewrite (chat_with_context_unfold _ _ _ _ _ _ _ _ Hh).
  destruct (attempt_fails key service question _ w' Hf) as (e & w1 & Ha & Hheap).
  unfold try_catch. rewrite Ha.
  destruct (fallback_run question u rows w1 user expenses e) as (w2 & -> & _).
  - destruct Hh as [H1 H2]. split; now rewrite Hheap.
  - reflexivity.
Qed.

(** A success whose text is not a string is answered with the advice too:
    [trim] throws under the [try]. *)
Lemma api_chat_text_not_a_string (env : Env) (db : Ledger)
    (service : request -> fetch_outcome) (userId : Z) (req_body : jsval)
    (question key : string) (u : user_row) (rows : list expense_row)
    (geminiData : jsval) (w : World) :
  get req_body "message" = Some (JStr question) ->
  question <> EmptyString ->
  GEMINI_API_KEY env = Some key ->
  key <> EmptyString ->
  get_user db userId = DbOk (Some u) ->
  month_recent_expenses db userId = DbOk rows ->
  service (chat_request key u rows question) = Responded true (Some geminiData) ->
  truthy (extract_text geminiData) = true ->
  (forall s, extract_text geminiData <> JStr s) ->
  fst (api_chat env db service userId req_body w)
  = Return (json 200 (JObj [("response", JStr (advice question u rows))])).
Proof.
  intros Hm Hq Hk Hne Hu Hr Hs Ht Hx.
  destruct (api_chat_run env db service userId req_body (JStr question) key u rows w)
    as (w' & user & expenses & -> & Hh & _); auto.
  { destruct question; [contradiction | reflexivity]. }
  rewrite (chat_with_context_unfold _ _ _ _ _ _ _ _ Hh).
  unfold try_catch, attempt. cbn [to_string type_error]. rewrite bind_ret.
  unfold bind at 1, fetch. unfold chat_request in Hs. cbv zeta in Hs. rewrite Hs.
  cbn [fst snd negb response_json]. rewrite bind_ret. cbv zeta. rewrite Ht.
  assert (Htrim : forall w0, trim (extract_text geminiData) w0
                             = (Throw (TypeError "trim is not a function"), w0)).
  { intros w0. destruct (extract_text geminiData); try reflexivity. now destruct (Hx s). }
  rewrite (bind_throw _ _ _ _ _ (Htrim _)).
  match goal with
  | |- fst (fallback _ _ _ ?e ?w1) = _ =>
      destruct (fallback_run question u rows w1 user expenses e) as (w2 & -> & _)
  end.
  - exact Hh.
  - reflexivity.
Qed.

(** A success with a text is answered with the text, trimmed. *)
Lemma api_chat_text (env : Env) (db : Ledger)
    (service : request -> fetch_outcome) (userId : Z) (req_body message : jsval)
    (question key text : string) (u : user_row) (rows : list expense_row)
    (geminiData : jsval) (w : World) :
  get req_body "message" = Some message ->
  truthy message = true ->
  to_string message = Some question ->
  GEMINI_API_KEY env = Some key ->
  key <> EmptyString ->
  get_user db userId = DbOk (Some u) ->
  month_recent_expenses db userId = DbOk rows ->
  service (chat_request key u rows question) = Responded true (Some geminiData) ->
  extract_text geminiData = JStr text ->
  text <> EmptyString ->
  fst (api_chat env db service userId req_body w)
  = Return (json 200 (JObj [("response", JStr (Str.trim text))])).
Proof.
  intros Hm Ht Hq Hk Hne Hu Hr Hs Hx Hte.
  destruct (api_chat_run env db service userId req_body message key u rows w)
    as (w' & user & expenses & -> & Hh & _); auto.
  rewrite (chat_with_context_unfold _ _ _ _ _ _ _ _ Hh).
  unfold try_catch, attempt. rewrite Hq. cbn [type_error]. rewrite bind_ret.
  unfold bind at 1, fetch. unfold chat_request in Hs. cbv zeta in Hs. rewrite Hs.
  cbn [fst snd negb response_json]. rewrite bind_ret. cbv zeta. rewrite Hx.
  destruct text; [contradiction | reflexivity].
Qed.

(** C1, as amended: when the key is configured, the question is a text that
    is not empty, the reads of the store succeed and the external call fails
    (the transport fails, the status is not a success, or the body of a
    success is not JSON), the chat handler answers with status 200 and the
    text that the advice engine gives for the same question, user facts and
    expenses; no error reaches the caller. *)
Theorem chat_falls_back_on_failure (env : Env) (db : Ledger)
    (service : request -> fetch_outcome) (userId : Z) (req_body : jsval)
    (question key : string) (u : user_row) (rows : list expense_row) (w : World) :
  get req_body "message" = Some (JStr question) ->
  question <> EmptyString ->
  GEMINI_API_KEY env = Some key ->
  key <> EmptyString ->
  get_user db userId = DbOk (Some u) ->
  month_recent_expenses db userId = DbOk rows ->
  call_fails (service (chat_request key u rows question)) ->
  exists text,
    fst (api_chat env db service userId req_body w)
      = Return (json 200 (JObj [("response", JStr text)]))
    /\ forall w0 user expenses,
         holds w0 user expenses u rows ->
         fst (generateMockAIResponse (JStr question) user expenses w0) = Return text.
Proof.
  intros Hm Hq Hk Hne Hu Hr Hf.
  exists (advice question u rows). split.
  - now apply (api_chat_failure env db service userId req_body question key u rows w).
  - intros w0 user expenses Hh.
    destruct (generateMockAIResponse_run question u rows w0 user expenses Hh)
      as (w1 & -> & _).
    reflexivity.
Qed.

Lemma chat_falls_back_on_failure_witness :
  exists text,
    fst (api_chat {| GEMINI_API_KEY := Some "key" |} example_ledger (fun _ => Rejected) 1
           (JObj [("message", JStr "How can I save?")]) empty_world)
      = Return (json 200 (JObj [("response", JStr text)]))
    /\ forall w0 user expenses,
         holds w0 user expenses (UserRow (Real 50000) (Real 20000))
           [ExpenseRow "groceries" (Real 10000) "food"] ->
         fst (generateMockAIResponse (JStr "How can I save?") user expenses w0) = Return text.
Proof.
  apply (chat_falls_back_on_failure {| GEMINI_API_KEY := Some "key" |} example_ledger
           (fun _ => Rejected) 1 (JObj [("message", JStr "How can I save?")])
           "How can I save?" "key" (UserRow (Real 50000) (Real 20000))
           [ExpenseRow "groceries" (Real 10000) "food"] empty_world).
  - reflexivity.
  - discriminate.
  - reflexivity.
  - discriminate.
  - reflexivity.
  - reflexivity.
  - left. reflexivity.
Defined.

(** C1, the claim as stated fails: without a configured key the handler
    answers a question with status 500 and an error, not with the advice. *)
Lemma chat_without_key_answers_an_error :
  fst (api_chat {| GEMINI_API_KEY := None |} example_ledger (fun _ => Rejected) 1
         (JObj [("message", JStr "How can I save?")]) empty_world)
    = Return (json 500 (error_body
        "Gemini API key not configured. Please add GEMINI_API_KEY to your .env file."))
  /\ ~ (exists text,
         fst (api_chat {| GEMINI_API_KEY := None |} example_ledger (fun _ => Rejected) 1
                (JObj [("message", JStr "How can I save?")]) empty_world)
           = Return (json 200 (JObj [("response", JStr text)]))).
Proof.
  split; [reflexivity|]. intros [text H]. discriminate H.
Qed.

(** When the external call succeeds and none of the three places of the
    first candidate holds a truthy value (each is absent, null, empty or
    otherwise falsy), the chat handler answers with status 200 and the fixed
    apology, which is not empty. *)
Lemma chat_apologises_for_falsy_places (env : Env) (db : Ledger)
    (service : request -> fetch_outcome) (userId : Z) (req_body message : jsval)
    (question key : string) (u : user_row) (rows : list expense_row)
    (geminiData : jsval) (w : World) :
  get req_body "message" = Some message ->
  truthy message = true ->
  to_string message = Some question ->
  GEMINI_API_KEY env = Some key ->
  key <> EmptyString ->
  get_user db userId = DbOk (Some u) ->
  month_recent_expenses db userId = DbOk rows ->
  service (chat_request key u rows question) = Responded true (Some geminiData) ->
  truthy (extract_text geminiData) = false ->
  fst (api_chat env db service userId req_body w)
    = Return (json 200 (JObj [("response", JStr apology)]))
  /\ apology <> EmptyString.
Proof.
  intros Hm Ht Hq Hk Hne Hu Hr Hs Hx. split; [|discriminate].
  destruct (api_chat_run env db service userId req_body message key u rows w)
    as (w' & user & expenses & -> & Hh & _); auto.
  rewrite (chat_with_context_unfold _ _ _ _ _ _ _ _ Hh).
  pose proof (attempt_no_text key service message question _ geminiData w' Hq Hs Hx) as Ha.
  unfold try_catch. destruct (attempt _ _ _ _ w') as [[r|e] w1]; simpl in Ha |- *.
  - exact Ha.
  - discriminate Ha.
Qed.

(** C6, the failing inputs.  The external call succeeds and the first
    candidate holds a text of three spaces: the handler finds it truthy,
    trims it and answers with status 200 and an empty response, where the
    claim has the apology.  The first candidate holds the number 5 in the
    place of the text: no text can be extracted, [trim] is no function of a
    number, and the handler answers with the advice of the engine, which is
    not the apology.  A first candidate without a text is answered with the
    apology. *)
Theorem chat_answers_blank_text_with_empty_response :
  let candidate (text : jsval) :=
    JObj [("candidates",
           JArr [JObj [("content", JObj [("parts", JArr [JObj [("text", text)]])])]])] in
  let answer (geminiData : jsval) :=
    fst (api_chat {| GEMINI_API_KEY := Some "key" |} example_ledger
           (fun _ => Responded true (Some geminiData)) 1
           (JObj [("message", JStr "How can I save?")]) empty_world) in
  answer (candidate (JStr "   "))
    = Return (json 200 (JObj [("response", JStr EmptyString)]))
  /\ answer (candidate (JNum 5))
     = Return (json 200
                 (JObj [("response",
                         JStr (advice "How can I save?" (UserRow (Real 50000) (Real 20000))
                                 [ExpenseRow "groceries" (Real 10000) "food"]))]))
  /\ advice "How can I save?" (UserRow (Real 50000) (Real 20000))
       [ExpenseRow "groceries" (Real 10000) "food"] <> apology
  /\ answer (candidate JNull) = Return (json 200 (JObj [("response", JStr apology)]))
  /\ answer (JObj [("candidates", JArr [])])
     = Return (json 200 (JObj [("response", JStr apology)])).
Proof.
  cbv zeta. split; [vm_compute; reflexivity|]. split; [vm_compute; reflexivity|].
  split; [intros H; vm_compute in H; discriminate H|].
  split; vm_compute; reflexivity.
Qed.

(** ** The statistics handler *)

Lemma fold_left_totals (groups : list category_total) (a : Q) :
  Forall (fun g => is_real (total g)) groups ->
  exists q,
    fold_left (fun sum cat => prim_add sum (total cat)) groups (Real a) = Real q
    /\ (q == a + sum_totals groups)%Q.
Proof.
  intros H. revert a. induction H as [|g groups Hg _ IH]; intros a; simpl.
  - exists a. split; [reflexivity | ring].
  - destruct (total g) as [|[|x| |]|]; try contradiction.
    destruct (IH (a + x)%Q) as (q & Hq & Hs).
    exists q. split; [exact Hq|]. rewrite Hs. simpl. ring.
Qed.

(** *** The groups of [GROUP BY] *)

Lemma add_to_group_real (c : string) (a : Q) (g : list (string * option number)) :
  Forall finite_group g ->
  Forall finite_group (Sql.add_to_group c (Real a) g)
  /\ (values (Sql.add_to_group c (Real a) g) == a + values g)%Q.
Proof.
  induction 1 as [|[c' acc] g Hx Hg [IH1 IH2]]; cbn [Sql.add_to_group].
  - split; [repeat constructor | cbn; ring].
  - unfold finite_group in Hx. cbn in Hx.
    destruct (String.compare c c').
    + destruct acc as [[|x| |]|]; try contradiction;
        (split; [constructor; [exact I | exact Hg] | cbn; ring]).
    + split; [constructor; [exact I | constructor; assumption]|].
      cbn [values fold_right]. unfold group_value at 1. cbn. ring.
    + split; [constructor; assumption|].
      cbn [values fold_right]. fold (values (Sql.add_to_group c (Real a) g)).
      rewrite IH2. fold (values g). ring.
Qed.

Lemma groups_from_real (l : list Sql.expenses_record) (g : list (string * option number)) :
  Forall (fun e => is_real (Sql.amount e)) l ->
  Forall finite_group g ->
  Forall finite_group
    (fold_left (fun g e => Sql.add_to_group (Sql.category e) (Sql.amount e) g) l g)
  /\ (values (fold_left (fun g e => Sql.add_to_group (Sql.category e) (Sql.amount e) g) l g)
      == values g + sum_table_amounts l)%Q.
Proof.
  intros H. revert g. induction H as [|e l He _ IH]; intros g Hg; simpl.
  - split; [exact Hg | ring].
  - destruct (Sql.amount e) as [|[|a| |]|] eqn:E; try contradiction.
    destruct (add_to_group_real (Sql.category e) a g Hg) as [H1 H2].
    destruct (IH _ H1) as [H3 H4].
    split; [exact H3|]. rewrite H4, H2. simpl. ring.
Qed.

(** The totals of the groups are finite numbers that add up to the total of
    the rows. *)
Lemma group_by_category_sum (l : list Sql.expenses_record) :
  Forall (fun e => is_real (Sql.amount e)) l ->
  Forall (fun g => is_real (total g)) (Sql.group_by_category l)
  /\ (sum_totals (Sql.group_by_category l) == sum_table_amounts l)%Q.
Proof.
  intros H. destruct (groups_from_real l [] H) as [H1 H2]; [constructor|].
  fold (Sql.groups l) in H1, H2. unfold Sql.group_by_category. split.
  - apply Forall_map. revert H1. apply List.Forall_impl. intros [c acc]. unfold finite_group.
    simpl. now destruct acc as [[|x| |]|].
  - assert (E : forall g, sum_totals
                  (List.map (fun g => {| group_category := fst g;
                                         total := Sql.sum_result (snd g) |}) g)
                = values g)
      by (induction g as [|x g IHg]; simpl; [reflexivity | now rewrite IHg]).
    rewrite E, H2. simpl. ring.
Qed.

Lemma saved_nonneg (x : Q) : (0 <= Qmax 0 x)%Q.
Proof. apply Q.le_max_l. Qed.


Lemma income_number (p : prim) :
  real_or_null p -> prim_number (prim_or p (Real 0)) = Finite (income_of p).
Proof.
  destruct p as [|[|x| |]|]; try contradiction; intros _; [reflexivity|].
  unfold income_of, prim_or. simpl. now destruct (is_zero x).
Qed.

Lemma goal_number (p : prim) : real_or_null p -> prim_number p = Finite (real p).
Proof. destruct p as [|[|x| |]|]; try contradiction; reflexivity. Qed.

Lemma sign_positive (g : Q) : Qle_bool g 0 = false -> Num.sign g = Gt.
Proof.
  intros H. unfold Num.sign. apply Z.compare_gt_iff.
  destruct (Z_lt_le_dec 0 (Qnum g)) as [Hlt|Hle]; [exact Hlt|].
  assert (Hq : (g <= 0)%Q) by (unfold Qle; simpl; lia).
  apply Qle_bool_iff in Hq. congruence.
Qed.

(** The statistics of a user whose income and goal are finite numbers or
    NULL, for totals that are finite numbers. *)
Lemma api_stats_run (db : Ledger) (userId : Z) (u : user_row)
    (totals : list category_total) :
  get_user db userId = DbOk (Some u) ->
  month_category_totals db userId = DbOk totals ->
  real_or_null (monthly_income u) ->
  Forall (fun g => is_real (total g)) totals ->
  exists totalExpenses,
    (totalExpenses == sum_totals totals)%Q
    /\ (totals = [] -> totalExpenses = 0%Q)
    /\ let saved := Qmax 0 (income_of (monthly_income u) - totalExpenses) in
       status (api_stats db userId) = 200
       /\ number_field (api_stats db userId) "total_expenses" = Some totalExpenses
       /\ number_field (api_stats db userId) "saved_amount" = Some saved
       /\ (real_or_null (savings_goal u) ->
           number_field (api_stats db userId) "goal_percentage"
           = Some (if Qle_bool (real (savings_goal u)) 0 then 0%Q
                   else Qmin 100 (saved / real (savings_goal u) * 100))).
Proof.
  intros Hu Ht Hi Htot.
  destruct (fold_left_totals totals 0 Htot) as (T & HT & Hsum).
  exists T. split; [rewrite Hsum; ring|]. split.
  { intros ->. simpl in HT. now injection HT as <-. }
  unfold api_stats. rewrite Hu, Ht. cbv zeta.
  rewrite HT.
  rewrite (income_number _ Hi). cbn [prim_number Real Num.sub Num.largest].
  repeat (split; [reflexivity|]). intros Hg.
  rewrite (goal_number _ Hg). cbn [Num.gt].
  destruct (Qle_bool (real (savings_goal u)) 0) eqn:E; cbn [negb].
  - reflexivity.
  - cbn [Num.div]. now rewrite (sign_positive _ E).
Qed.



Lemma exact_is_real (p : prim) : exact_value p -> is_real p.
Proof. now destruct p as [|[|q| |]|]. Qed.




(** An amount that is a text counts in [SUM] as the number that the store
    reads at its start, 0 for "abc": the statistics of a user with the
    amounts 5 and "abc" show expenses of 5. *)
Lemma stats_count_a_text_amount_as_zero :
  (Sql.atof "abc" == 0)%Q
  /\ (Sql.atof "12abc" == 12)%Q
  /\ (Sql.atof " -1.5e2xyz" == -150)%Q
  /\ List.map total
       (Sql.group_by_category (Sql.month_expenses text_amount_tables "2024-05-01" 1))
     = [Real 5]
  /\ get (body (api_stats (Sql.ledger text_amount_tables "2024-05-01") 1)) "total_expenses"
     = Some (JNum 5)
  /\ get (body (api_stats (Sql.ledger text_amount_tables "2024-05-01") 1)) "saved_amount"
     = Some (JNum 995).
Proof. repeat split; vm_compute; reflexivity. Qed.




(** ** The expense handler *)

(** An amount that is missing, null, 0 or a negative number is refused with
    status 400, and nothing is inserted. *)
Lemma expense_rejects_missing_zero_negative (userId : Z) (req_body name amount category : jsval)
    (now : string) :
  get req_body "name" = Some name ->
  get req_body "amount" = Some amount ->
  get req_body "category" = Some category ->
  amount = JUndefined \/ amount = JNull \/ (exists q, amount = JNum q /\ (q <= 0)%Q) ->
  api_post_expense userId req_body now
  = Return (Answered (json 400 (error_body "Valid name and amount are required"))).
Proof.
  intros Hn Ha Hc H. unfold api_post_expense. rewrite Hn, Ha, Hc.
  destruct H as [-> | [-> | (q & -> & Hq)]].
  - cbn [truthy negb]. now rewrite orb_true_r.
  - cbn [truthy negb]. now rewrite orb_true_r.
  - destruct (negb (truthy name) || negb (truthy (JNum q))); [reflexivity|].
    unfold le_zero. cbn [to_number].
    apply Qle_bool_iff in Hq. now rewrite Hq.
Qed.

(** What is inserted passed the three tests of the handler, and only that. *)
Lemma expense_inserted (userId : Z) (req_body : jsval) (now : string) (p : insert_expense) :
  api_post_expense userId req_body now = Return (Inserted p) ->
  truthy (insert_name p) = true /\ truthy (insert_amount p) = true
  /\ le_zero (insert_amount p) = Some false.
Proof.
  unfold api_post_expense.
  destruct (get req_body "name") as [name|]; [|discriminate].
  destruct (get req_body "amount") as [amount|]; [|discriminate].
  destruct (get req_body "category") as [category|]; [|discriminate].
  destruct (truthy name) eqn:En, (truthy amount) eqn:Ea; cbn [negb orb]; try discriminate.
  destruct (le_zero amount) as [[|]|] eqn:E; try discriminate.
  intros [= <-]. simpl. auto.
Qed.

(** A text that reads as a number too small for the language is the
    number 0, and the handler rejects it; a text that reads as a number too
    large is an infinity. *)
Lemma expense_with_tiny_text_amount_is_rejected :
  string_to_number "1e-400" = Finite 0
  /\ string_to_number "1e999" = PosInf
  /\ string_to_number "-1e999" = NegInf
  /\ run empty_store
       (api_create_expense 1 (JObj [("name", JStr "tea"); ("amount", JStr "1e-400")])
          "2024-05-07T12:00:00.000Z")
     = Return (json 400 (error_body "Valid name and amount are required")).
Proof. repeat split; vm_compute; reflexivity. Qed.

(** C5, the failing input: an amount that is the text "abc" passes the
    validation, and the handler runs the INSERT with that text as the
    amount. *)
Theorem expense_with_text_amount_is_inserted :
  api_post_expense 1 (JObj [("name", JStr "lunch"); ("amount", JStr "abc")])
    "2024-05-17T10:00:00.000Z"
  = Return (Inserted {| insert_user_id := 1;
                        insert_name := JStr "lunch";
                        insert_amount := JStr "abc";
                        insert_category := JStr "other";
                        insert_date := "2024-05-17T10:00:00.000Z" |}).
Proof. reflexivity. Qed.

(** ** The templates of the advice engine *)

Lemma example_world_holds (u : user_row) (rows : list expense_row) :
  holds (example_world u rows) 1 2 u rows.
Proof. split; reflexivity. Qed.














(** C9: the engine is a function of the question, the facts of the user and
    the list of expenses, and it leaves the world as it found it: two calls
    on equal inputs, in any two worlds, give the same completion (the same
    text, or the same TypeError for a question that is not a text); the
    console, the requests sent and every object that existed before the
    call, the array of expenses among them, are unchanged, so a second call
    after the first gives the same text again. *)
Theorem generateMockAIResponse_deterministic (question : jsval) (u : user_row)
    (rows : list expense_row) (w1 w2 : World) (user1 expenses1 user2 expenses2 : positive) :
  holds w1 user1 expenses1 u rows ->
  holds w2 user2 expenses2 u rows ->
  fst (generateMockAIResponse question user1 expenses1 w1)
    = fst (generateMockAIResponse question user2 expenses2 w2)
  /\ unchanged w1 (snd (generateMockAIResponse question user1 expenses1 w1))
  /\ heap (snd (generateMockAIResponse question user1 expenses1 w1)) !! expenses1
     = Some (CArray rows)
  /\ fst (generateMockAIResponse question user1 expenses1
            (snd (generateMockAIResponse question user1 expenses1 w1)))
     = fst (generateMockAIResponse question user1 expenses1 w1).
Proof.
  intros H1 H2.
  assert (Hcall : forall w user expenses,
            holds w user expenses u rows ->
            exists r w',
              generateMockAIResponse question user expenses w = (r, w')
              /\ unchanged w w'
              /\ forall w0 user0 expenses0,
                   holds w0 user0 expenses0 u rows ->
                   fst (generateMockAIResponse question user0 expenses0 w0) = r).
  { intros w user expenses Hh.
    assert (Hs : (exists s, question = JStr s) \/ (forall s, question <> JStr s))
      by (destruct question; eauto; right; intros; discriminate).
    destruct Hs as [[s ->] | Hs].
    - destruct (generateMockAIResponse_run s u rows w user expenses Hh) as (w' & Hrun & Hun).
      exists (Return (advice s u rows)), w'. split; [exact Hrun|]. split; [exact Hun|].
      intros w0 user0 expenses0 H0.
      destruct (generateMockAIResponse_run s u rows w0 user0 expenses0 H0) as (w0' & -> & _).
      reflexivity.
    - exists (Throw (TypeError "toLowerCase is not a function")), w.
      split; [now apply (generateMockAIResponse_not_a_string question u rows)|].
      split; [apply unchanged_refl|].
      intros w0 user0 expenses0 H0.
      now rewrite (generateMockAIResponse_not_a_string question u rows w0 user0 expenses0 H0 Hs). }
  destruct (Hcall w1 user1 expenses1 H1) as (r & w' & Hrun & Hun & Hsame).
  rewrite Hrun. cbn [fst snd].
  pose proof (holds_unchanged _ _ _ _ _ _ H1 Hun) as H1'.
  split; [symmetry; now apply Hsame|]. split; [exact Hun|].
  split; [exact (proj2 H1')|]. now apply Hsame.
Qed.

Lemma generateMockAIResponse_deterministic_witness :
  fst (generateMockAIResponse (JStr "How should I budget?") 1 2
         (example_world (UserRow (Real 50000) (Real 20000))
            [ExpenseRow "groceries" (Real 10000) "food"]))
  = fst (generateMockAIResponse (JStr "How should I budget?") 2 1
           {| heap := <[2%positive := CRow (UserRow (Real 50000) (Real 20000))]>
                        (<[1%positive := CArray [ExpenseRow "groceries" (Real 10000) "food"]]> ∅);
              console := [LogWarn "earlier" JNull]; sent := [] |}).
Proof.
  refine (proj1 (generateMockAIResponse_deterministic (JStr "How should I budget?")
                   (UserRow (Real 50000) (Real 20000))
                   [ExpenseRow "groceries" (Real 10000) "food"] _ _ 1%positive 2%positive
                   2%positive 1%positive (example_world_holds _ _) _)).
  split; reflexivity.
Defined.

(** ** The budget template *)




(** ** The expenses of the chat context *)
















(** * More of the server *)

(** ** Errors of the store *)

Lemma get_defined (v : jsval) (k k' : string) (x : jsval) :
  get v k = Some x -> exists y, get v k' = Some y.
Proof.
  destruct v; simpl; try discriminate; intros _;
    repeat match goal with
           | |- context [match ?x with _ => _ end] => destruct x
           end; eauto.
Qed.

Lemma get_undefined (v : jsval) (k k' : string) :
  get v k = None -> get v k' = None.
Proof.
  destruct v; simpl; try reflexivity;
    repeat match goal with
           | |- context [match ?x with _ => _ end] => destruct x
           end; discriminate.
Qed.

Ltac answer_error :=
  let a := fresh "a" in
  let m := fresh "m" in
  let H := fresh "H" in
  intros a m H; destruct a; simpl in H; [injection H as <-; reflexivity | discriminate].

Ltac close_program :=
  repeat first
    [ apply fails_closed_done
    | apply fails_closed_call; [answer_error || (intros ? ? ?; discriminate) | intros []]
    | match goal with
      | |- fails_closed (if ?b then _ else _) => destruct b
      | |- fails_closed (match ?x with _ => _ end) => destruct x
      end ].

Lemma handle_fails_closed (JWT_SECRET : option string) (r : route) :
  fails_closed (handle JWT_SECRET r).
Proof.
  destruct r; unfold handle, api_register, api_login, api_user, api_expenses,
    api_create_expense, api_delete_expense, api_update_settings, api_health, answer;
    close_program.
Qed.

Lemma fails_closed_trace (d : driver) (p : prog (completion response)) :
  fails_closed p ->
  forall (before after : list event) (e : event) (m : string),
    trace d p = before ++ e :: after ->
    store_error e = Some m ->
    after = [] /\ run d p = Return (json 500 (error_body m)).
Proof.
  induction 1 as [r | A c k Herr Hk IH]; intros before after e m Ht He.
  - destruct before; discriminate.
  - cbn [trace run] in *. destruct before as [|x before].
    + cbn [app] in Ht. injection Ht as <- Hafter.
      rewrite (Herr _ _ He) in *. cbn [trace run answer] in *. split; [now subst | reflexivity].
    + cbn [app] in Ht. injection Ht as _ Hrest. exact (IH _ _ _ _ _ Hrest He).
Qed.

(** X1: in every handler that reaches the store through callbacks, an
    error of the store on any call is answered with status 500 and the
    message of the error, and no call follows it. *)
Theorem store_error_answers_500 (JWT_SECRET : option string) (r : route) (d : driver)
    (before after : list event) (e : event) (m : string) :
  trace d (handle JWT_SECRET r) = before ++ e :: after ->
  store_error e = Some m ->
  after = [] /\ run d (handle JWT_SECRET r) = Return (json 500 (error_body m)).
Proof. apply fails_closed_trace, handle_fails_closed. Qed.

Lemma store_error_answers_500_witness :
  run failing_store (handle None (PostRegister credentials))
  = Return (json 500 (error_body "SQLITE_BUSY")).
Proof.
  exact (proj2 (store_error_answers_500 None (PostRegister credentials) failing_store [] []
                  (Event (DbGet {| sql := "SELECT * FROM users WHERE email = ?";
                                   params := [JStr "a@b.c"] |})
                         (DbErr "SQLITE_BUSY"))
                  "SQLITE_BUSY" eq_refl eq_refl)).
Defined.

(** ** Registration and login *)

(** X2: registration and login answer a body whose email or password is
    missing, null, empty or otherwise falsy with status 400, and make no
    call: neither the store nor bcrypt sees such a request. *)
Theorem credentials_are_required (JWT_SECRET : option string) (d : driver)
    (req_body email password : jsval) :
  get req_body "email" = Some email ->
  get req_body "password" = Some password ->
  truthy email && truthy password = false ->
  (trace d (api_register JWT_SECRET req_body) = []
   /\ run d (api_register JWT_SECRET req_body)
      = Return (json 400 (error_body "Email and password are required")))
  /\ (trace d (api_login JWT_SECRET req_body) = []
      /\ run d (api_login JWT_SECRET req_body)
         = Return (json 400 (error_body "Email and password are required"))).
Proof.
  intros He Hp Ht.
  assert (Hor : negb (truthy email) || negb (truthy password) = true)
    by (destruct (truthy email), (truthy password); try discriminate; reflexivity).
  destruct (get_defined _ _ "username" _ He) as [username Hu].
  destruct (get_defined _ _ "monthly_income" _ He) as [income Hi].
  destruct (get_defined _ _ "savings_goal" _ He) as [goal Hg].
  unfold api_register, api_login. rewrite Hu, He, Hp, Hi, Hg, Hor. repeat split.
Qed.

Lemma credentials_are_required_witness :
  run empty_store (api_login None (JObj [("email", JStr "a@b.c"); ("password", JStr EmptyString)]))
  = Return (json 400 (error_body "Email and password are required")).
Proof.
  exact (proj2 (proj2 (credentials_are_required None empty_store
                         (JObj [("email", JStr "a@b.c"); ("password", JStr EmptyString)])
                         (JStr "a@b.c") (JStr EmptyString) eq_refl eq_refl eq_refl))).
Defined.

(** X3: when the lookup by email finds a row, registration answers 400
    "User already exists" after that one call: the password is not hashed
    and nothing is written. *)
Theorem register_existing_email (JWT_SECRET : option string) (d : driver)
    (req_body email password user : jsval) :
  get req_body "email" = Some email ->
  get req_body "password" = Some password ->
  truthy email = true ->
  truthy password = true ->
  d _ (DbGet {| sql := "SELECT * FROM users WHERE email = ?"; params := [email] |}) = DbOk user ->
  truthy user = true ->
  run d (api_register JWT_SECRET req_body) = Return (json 400 (error_body "User already exists"))
  /\ trace d (api_register JWT_SECRET req_body)
     = [Event (DbGet {| sql := "SELECT * FROM users WHERE email = ?"; params := [email] |})
              (DbOk user)].
Proof.
  intros He Hp Hte Htp Hd Hu.
  destruct (get_defined _ _ "username" _ He) as [username Hn].
  destruct (get_defined _ _ "monthly_income" _ He) as [income Hi].
  destruct (get_defined _ _ "savings_goal" _ He) as [goal Hg].
  unfold api_register. rewrite Hn, He, Hp, Hi, Hg, Hte, Htp. cbn [negb orb run trace].
  rewrite Hd, Hu. split; reflexivity.
Qed.

Lemma register_existing_email_witness :
  run (store_with_user true) (api_register None credentials)
  = Return (json 400 (error_body "User already exists")).
Proof.
  exact (proj1 (register_existing_email None (store_with_user true) credentials
                  (JStr "a@b.c") (JStr "secret") registered_user
                  eq_refl eq_refl eq_refl eq_refl eq_refl eq_refl)).
Defined.

(** X4: a registration that succeeds writes once.  The statement binds the
    hash that bcrypt gave and not the password; the profile of the answer
    (status 201) holds the id that the store gave and the very values that
    were bound for the name, the email, the income and the goal; the name is
    "User" and the income and the goal are 0 where the body has none (or a
    falsy one), so the name is never empty; the token is signed for that
    id. *)
Theorem register_success (JWT_SECRET : option string) (d : driver)
    (req_body email password user : jsval) (hashedPassword : string) (this : run_info) :
  get req_body "email" = Some email ->
  get req_body "password" = Some password ->
  truthy email = true ->
  truthy password = true ->
  d _ (DbGet {| sql := "SELECT * FROM users WHERE email = ?"; params := [email] |}) = DbOk user ->
  truthy user = false ->
  d _ (BcryptHash password 10) = Some hashedPassword ->
  (forall s, d _ (DbRun s) = DbOk this) ->
  exists username income goal,
    truthy username = true
    /\ (truthy (get_opt req_body "username") = true -> username = get_opt req_body "username")
    /\ (truthy (get_opt req_body "username") = false -> username = JStr "User")
    /\ (truthy (get_opt req_body "monthly_income") = true ->
        income = get_opt req_body "monthly_income")
    /\ (truthy (get_opt req_body "monthly_income") = false -> income = JNum 0)
    /\ (truthy (get_opt req_body "savings_goal") = true ->
        goal = get_opt req_body "savings_goal")
    /\ (truthy (get_opt req_body "savings_goal") = false -> goal = JNum 0)
    /\ List.map statement_of (List.filter writes (trace d (api_register JWT_SECRET req_body)))
       = [Some {| sql := "INSERT INTO users (username, email, password, monthly_income, savings_goal) "
                         +:+ Str.nl +:+ "         VALUES (?, ?, ?, ?, ?)";
                  params := [username; email; JStr hashedPassword; income; goal] |}]
    /\ run d (api_register JWT_SECRET req_body)
       = Return (json 201 (JObj [
           ("message", JStr "User created successfully");
           ("token", JStr (d _ (JwtSign (JObj [("userId", integer (lastID this))])
                                  (secret_or_fallback JWT_SECRET))));
           ("user", JObj [ ("id", integer (lastID this)); ("username", username);
                           ("email", email); ("monthly_income", income);
                           ("savings_goal", goal) ]) ])).
Proof.
  intros He Hp Hte Htp Hd Hu Hh Hr.
  destruct (get_defined _ _ "username" _ He) as [username Hn].
  destruct (get_defined _ _ "monthly_income" _ He) as [income Hi].
  destruct (get_defined _ _ "savings_goal" _ He) as [goal Hg].
  exists (or_else username (JStr "User")), (or_else income (JNum 0)), (or_else goal (JNum 0)).
  unfold get_opt. rewrite Hn, Hi, Hg.
  split; [unfold or_else; now destruct (truthy username) eqn:E|].
  do 6 (split; [intros H; unfold or_else; now rewrite H|]).
  unfold api_register. rewrite Hn, He, Hp, Hi, Hg, Hte, Htp. cbn [negb orb run trace].
  rewrite Hd, Hu. cbn [run trace]. rewrite Hh. cbn [run trace]. rewrite Hr.
  split; reflexivity.
Qed.

Lemma register_success_witness :
  exists token,
    run empty_store (api_register None credentials)
    = Return (json 201 (JObj [
        ("message", JStr "User created successfully");
        ("token", JStr token);
        ("user", JObj [ ("id", integer 7); ("username", JStr "User");
                        ("email", JStr "a@b.c"); ("monthly_income", JNum 0);
                        ("savings_goal", JNum 0) ]) ])).
Proof.
  destruct (register_success None empty_store credentials (JStr "a@b.c") (JStr "secret")
              JUndefined "$2a$10$hash" {| lastID := 7; changes := 0 |}
              eq_refl eq_refl eq_refl eq_refl eq_refl eq_refl eq_refl (fun _ => eq_refl))
    as (username & income & goal & _ & _ & Hn & _ & Hi & _ & Hg & _ & Hrun).
  rewrite (Hn eq_refl), (Hi eq_refl), (Hg eq_refl) in Hrun.
  eexists. exact Hrun.
Defined.

(** X5: login answers an email that is not registered and a password that
    bcrypt refuses alike, with status 400 and "Invalid credentials", and
    signs no token in either case: the answer does not tell whether the
    email is registered. *)
Theorem login_failures_look_alike (JWT_SECRET : option string) (d1 d2 : driver)
    (req_body email password missing user : jsval) :
  get req_body "email" = Some email ->
  get req_body "password" = Some password ->
  truthy email = true ->
  truthy password = true ->
  d1 _ (DbGet {| sql := "SELECT * FROM users WHERE email = ?"; params := [email] |})
    = DbOk missing ->
  truthy missing = false ->
  d2 _ (DbGet {| sql := "SELECT * FROM users WHERE email = ?"; params := [email] |})
    = DbOk user ->
  truthy user = true ->
  d2 _ (BcryptCompare password (get_opt user "password")) = Some false ->
  run d1 (api_login JWT_SECRET req_body) = run d2 (api_login JWT_SECRET req_body)
  /\ run d1 (api_login JWT_SECRET req_body)
     = Return (json 400 (error_body "Invalid credentials"))
  /\ length (trace d1 (api_login JWT_SECRET req_body)) = 1%nat
  /\ length (trace d2 (api_login JWT_SECRET req_body)) = 2%nat.
Proof.
  intros He Hp Hte Htp H1 Hm H2 Hu Hc.
  unfold api_login. rewrite He, Hp, Hte, Htp. cbn [negb orb run trace].
  rewrite H1, H2, Hm, Hu. cbn [negb run trace]. rewrite Hc. repeat split.
Qed.

Lemma login_failures_look_alike_witness :
  run empty_store (api_login None credentials)
  = run (store_with_user false) (api_login None credentials).
Proof.
  exact (proj1 (login_failures_look_alike None empty_store (store_with_user false)
                  credentials (JStr "a@b.c") (JStr "secret") JUndefined registered_user
                  eq_refl eq_refl eq_refl eq_refl eq_refl eq_refl eq_refl eq_refl eq_refl)).
Defined.

(** X6: when the store answers the lookup and bcrypt the comparison, login
    answers with status 200 exactly when a row was found and bcrypt accepts
    the password, and with status 400 otherwise; the token of a success is
    signed for the id of the row, and the profile of the answer holds the
    id, the name, the email, the income and the goal of the row and no
    password. *)
Theorem login_succeeds_iff (JWT_SECRET : option string) (d : driver)
    (req_body email password user : jsval) (valid : bool) :
  get req_body "email" = Some email ->
  get req_body "password" = Some password ->
  truthy email = true ->
  truthy password = true ->
  d _ (DbGet {| sql := "SELECT * FROM users WHERE email = ?"; params := [email] |})
    = DbOk user ->
  d _ (BcryptCompare password (get_opt user "password")) = Some valid ->
  exists r,
    run d (api_login JWT_SECRET req_body) = Return r
    /\ (status r = 200 <-> truthy user = true /\ valid = true)
    /\ (status r = 200 \/ r = json 400 (error_body "Invalid credentials"))
    /\ (status r = 200 ->
        get_opt (body r) "token"
          = JStr (d _ (JwtSign (JObj [("userId", get_opt user "id")])
                         (secret_or_fallback JWT_SECRET)))
        /\ get_opt (body r) "user"
           = JObj [ ("id", get_opt user "id"); ("username", get_opt user "username");
                    ("email", get_opt user "email");
                    ("monthly_income", get_opt user "monthly_income");
                    ("savings_goal", get_opt user "savings_goal") ]
        /\ get_opt (get_opt (body r) "user") "password" = JUndefined).
Proof.
  intros He Hp Hte Htp Hd Hc.
  unfold api_login. rewrite He, Hp, Hte, Htp. cbn [negb orb run].
  rewrite Hd. destruct (truthy user) eqn:Hu; cbn [negb run answer].
  - rewrite Hc. destruct valid; cbn [negb run answer]; eexists; (split; [reflexivity|]).
    + split; [split; auto|]. split; [now left|]. intros _. repeat split.
    + split; [split; [discriminate | intros [_ H]; discriminate]|].
      split; [now right | discriminate].
  - eexists. split; [reflexivity|].
    split; [split; [discriminate | intros [H _]; discriminate]|].
    split; [now right | discriminate].
Qed.

Lemma login_succeeds_iff_witness :
  exists r,
    run (store_with_user true) (api_login None credentials) = Return r
    /\ status r = 200
    /\ get_opt (get_opt (body r) "user") "id" = integer 7.
Proof.
  destruct (login_succeeds_iff None (store_with_user true) credentials
              (JStr "a@b.c") (JStr "secret") registered_user true
              eq_refl eq_refl eq_refl eq_refl eq_refl eq_refl)
    as (r & Hrun & Hiff & _ & Hok).
  exists r. split; [exact Hrun|].
  assert (Hs : status r = 200) by (apply Hiff; split; reflexivity).
  split; [exact Hs|]. destruct (Hok Hs) as (_ & -> & _). reflexivity.
Defined.

(** X7: registration and then login.  When a registration has succeeded,
    the store returns for the email a row with the id that it gave and the
    hash that was bound, bcrypt accepts the password against that hash and
    jwt signs as before, a login with the same body answers with status 200
    and the token of the registration, for the same id. *)
Theorem register_then_login (JWT_SECRET : option string) (d1 d2 : driver)
    (req_body email password missing user : jsval) (hashedPassword : string)
    (this : run_info) :
  get req_body "email" = Some email ->
  get req_body "password" = Some password ->
  truthy email = true ->
  truthy password = true ->
  d1 _ (DbGet {| sql := "SELECT * FROM users WHERE email = ?"; params := [email] |})
    = DbOk missing ->
  truthy missing = false ->
  d1 _ (BcryptHash password 10) = Some hashedPassword ->
  (forall s, d1 _ (DbRun s) = DbOk this) ->
  d2 _ (DbGet {| sql := "SELECT * FROM users WHERE email = ?"; params := [email] |})
    = DbOk user ->
  truthy user = true ->
  get_opt user "id" = integer (lastID this) ->
  get_opt user "password" = JStr hashedPassword ->
  d2 _ (BcryptCompare password (JStr hashedPassword)) = Some true ->
  (forall payload secret, d2 _ (JwtSign payload secret) = d1 _ (JwtSign payload secret)) ->
  exists registered logged_in,
    run d1 (api_register JWT_SECRET req_body) = Return registered
    /\ run d2 (api_login JWT_SECRET req_body) = Return logged_in
    /\ status registered = 201 /\ status logged_in = 200
    /\ get_opt (body registered) "token"
       = JStr (d1 _ (JwtSign (JObj [("userId", integer (lastID this))])
                       (secret_or_fallback JWT_SECRET)))
    /\ get_opt (body logged_in) "token" = get_opt (body registered) "token"
    /\ get_opt (get_opt (body registered) "user") "id" = integer (lastID this)
    /\ get_opt (get_opt (body logged_in) "user") "id" = integer (lastID this).
Proof.
  intros He Hp Hte Htp H1 Hm Hh Hr H2 Hu Hid Hpw Hc Hj.
  destruct (get_defined _ _ "username" _ He) as [username Hn].
  destruct (get_defined _ _ "monthly_income" _ He) as [income Hi].
  destruct (get_defined _ _ "savings_goal" _ He) as [goal Hg].
  unfold api_register, api_login.
  rewrite Hn, He, Hp, Hi, Hg, Hte, Htp. cbn [negb orb run].
  rewrite H1, Hm, H2, Hu. cbn [negb run]. rewrite Hh, Hpw, Hc. cbn [negb run].
  rewrite Hr. cbn [run answer]. rewrite Hid, Hj.
  eexists _, _. repeat split.
Qed.

Lemma register_then_login_witness :
  exists registered logged_in,
    run empty_store (api_register None credentials) = Return registered
    /\ run (store_with_user true) (api_login None credentials) = Return logged_in
    /\ status registered = 201 /\ status logged_in = 200
    /\ get_opt (body logged_in) "token" = get_opt (body registered) "token".
Proof.
  destruct (register_then_login None empty_store (store_with_user true) credentials
              (JStr "a@b.c") (JStr "secret") JUndefined registered_user "$2a$10$hash"
              {| lastID := 7; changes := 0 |}
              eq_refl eq_refl eq_refl eq_refl eq_refl eq_refl eq_refl (fun _ => eq_refl)
              eq_refl eq_refl eq_refl eq_refl eq_refl (fun _ _ => eq_refl))
    as (registered & logged_in & H1 & H2 & H3 & H4 & _ & H5 & _).
  exists registered, logged_in. repeat split; assumption.
Defined.

(** ** Expenses *)

Lemma post_expense_inserted (userId : Z) (req_body : jsval) (now : string)
    (p : insert_expense) :
  api_post_expense userId req_body now = Return (Inserted p) ->
  insert_user_id p = userId /\ insert_date p = now
  /\ (forall q, insert_amount p = JNum q -> (0 < q)%Q).
Proof.
  unfold api_post_expense.
  destruct (get req_body "name") as [name|]; [|discriminate].
  destruct (get req_body "amount") as [amount|]; [|discriminate].
  destruct (get req_body "category") as [category|]; [|discriminate].
  destruct (negb (truthy name) || negb (truthy amount)); [discriminate|].
  destruct (le_zero amount) as [[|]|] eqn:E; try discriminate.
  intros [= <-]. cbn. repeat split.
  intros q ->. unfold le_zero in E. cbn [to_number] in E.
  injection E as E. apply Qnot_le_lt. intros Hle. apply Qle_bool_iff in Hle. congruence.
Qed.

(** X8: what the expense handler hands to the INSERT belongs to the caller
    and carries the time of the request, a name and an amount that are
    truthy and a category that is truthy too ("other" where the body has
    none); an amount that is a number is greater than 0. *)
Theorem inserted_expense_is_valid (userId : Z) (req_body : jsval) (now : string)
    (p : insert_expense) :
  api_post_expense userId req_body now = Return (Inserted p) ->
  insert_user_id p = userId
  /\ insert_date p = now
  /\ truthy (insert_name p) = true
  /\ truthy (insert_amount p) = true
  /\ truthy (insert_category p) = true
  /\ (truthy (get_opt req_body "category") = false -> insert_category p = JStr "other")
  /\ (forall q, insert_amount p = JNum q -> (0 < q)%Q).
Proof.
  unfold api_post_expense, get_opt.
  destruct (get req_body "name") as [name|]; [|discriminate].
  destruct (get req_body "amount") as [amount|]; [|discriminate].
  destruct (get req_body "category") as [category|]; [|discriminate].
  destruct (truthy name) eqn:En, (truthy amount) eqn:Ea; cbn [negb orb]; try discriminate.
  destruct (le_zero amount) as [[|]|] eqn:E; try discriminate.
  intros [= <-]. cbn. repeat split; auto.
  - unfold or_else. now destruct (truthy category) eqn:Ec.
  - intros H. unfold or_else. now rewrite H.
  - intros q ->. unfold le_zero in E. cbn [to_number] in E.
    injection E as E. apply Qnot_le_lt. intros Hle. apply Qle_bool_iff in Hle. congruence.
Qed.

Lemma inserted_expense_is_valid_witness : (0 < 25 # 2)%Q.
Proof.
  exact (proj2 (proj2 (proj2 (proj2 (proj2 (proj2
           (inserted_expense_is_valid 1
              (JObj [("name", JStr "lunch"); ("amount", JNum (25 # 2))])
              "2024-05-17T10:00:00.000Z"
              {| insert_user_id := 1; insert_name := JStr "lunch";
                 insert_amount := JNum (25 # 2); insert_category := JStr "other";
                 insert_date := "2024-05-17T10:00:00.000Z" |} eq_refl))))))
           (25 # 2)%Q eq_refl).
Defined.

(** X9: an expense whose name is falsy, or whose amount is missing, null,
    0 or a negative number, is answered with status 400 and makes no call:
    the store never sees it. *)
Theorem rejected_expense_makes_no_call (d : driver) (userId : Z)
    (req_body name amount category : jsval) (now : string) :
  get req_body "name" = Some name ->
  get req_body "amount" = Some amount ->
  get req_body "category" = Some category ->
  truthy name = false \/ amount = JUndefined \/ amount = JNull
    \/ (exists q, amount = JNum q /\ (q <= 0)%Q) ->
  trace d (api_create_expense userId req_body now) = []
  /\ run d (api_create_expense userId req_body now)
     = Return (json 400 (error_body "Valid name and amount are required")).
Proof.
  intros Hn Ha Hc H. unfold api_create_expense.
  destruct H as [Hname | H].
  - unfold api_post_expense. rewrite Hn, Ha, Hc, Hname. split; reflexivity.
  - rewrite (expense_rejects_missing_zero_negative userId req_body name amount category now
               Hn Ha Hc H).
    split; reflexivity.
Qed.

Lemma rejected_expense_makes_no_call_witness :
  trace empty_store
    (api_create_expense 1 (JObj [("name", JStr "lunch"); ("amount", JNum (-5))])
       "2024-05-17T10:00:00.000Z") = [].
Proof.
  refine (proj1 (rejected_expense_makes_no_call empty_store 1
                   (JObj [("name", JStr "lunch"); ("amount", JNum (-5))])
                   (JStr "lunch") (JNum (-5)) JUndefined "2024-05-17T10:00:00.000Z"
                   eq_refl eq_refl eq_refl _)).
  right. right. right. exists (-5)%Q. split; [reflexivity | discriminate].
Defined.

(** X10: an expense that passes the validation is written with one INSERT
    that binds the caller, the name, the amount, the category and the time;
    the row of the id that the store reports is read back and sent with
    status 201. *)
Theorem accepted_expense_is_written_and_read_back (d : driver) (userId : Z)
    (req_body : jsval) (now : string) (p : insert_expense) (this : run_info)
    (expense : jsval) :
  api_post_expense userId req_body now = Return (Inserted p) ->
  d _ (DbRun (insert_expense_statement p)) = DbOk this ->
  d _ (DbGet {| sql := "SELECT * FROM expenses WHERE id = ?";
                params := [integer (lastID this)] |}) = DbOk expense ->
  run d (api_create_expense userId req_body now) = Return (json 201 expense)
  /\ List.map statement_of (trace d (api_create_expense userId req_body now))
     = [ Some {| sql := "INSERT INTO expenses (user_id, name, amount, category, date) VALUES (?, ?, ?, ?, ?)";
                 params := [ integer userId; insert_name p; insert_amount p;
                             insert_category p; JStr now ] |};
         Some {| sql := "SELECT * FROM expenses WHERE id = ?";
                 params := [integer (lastID this)] |} ]
  /\ placeholders (sql (insert_expense_statement p))
     = length (params (insert_expense_statement p)).
Proof.
  intros Hp Hr Hg.
  destruct (post_expense_inserted userId req_body now p Hp) as (Hu & Hd & _).
  unfold api_create_expense. rewrite Hp. cbn [run trace]. rewrite Hr. cbn [run trace].
  rewrite Hg. cbn [run trace answer List.map statement_of].
  unfold insert_expense_statement. rewrite Hu, Hd. repeat split.
Qed.

Lemma accepted_expense_is_written_and_read_back_witness :
  run store_with_expense
    (api_create_expense 1 (JObj [("name", JStr "tea"); ("amount", JNum 10)])
       "2024-05-07T12:00:00.000Z")
  = Return (json 201 stored_tea).
Proof.
  exact (proj1 (accepted_expense_is_written_and_read_back store_with_expense 1%Z
                  (JObj [("name", JStr "tea"); ("amount", JNum 10%Q)])
                  "2024-05-07T12:00:00.000Z"
                  {| insert_user_id := 1; insert_name := JStr "tea";
                     insert_amount := JNum 10%Q; insert_category := JStr "other";
                     insert_date := "2024-05-07T12:00:00.000Z" |}
                  {| lastID := 8; changes := 1 |} stored_tea eq_refl eq_refl eq_refl)).
Defined.

(** ** The writes on the tables *)

Lemma filter_implied {A : Type} (p q : A -> bool) (l : list A) :
  (forall x, p x = true -> q x = true) ->
  List.filter p (List.filter q l) = List.filter p l.
Proof.
  intros H. induction l as [|x l IH]; simpl; [reflexivity|].
  destruct (q x) eqn:Eq; simpl.
  - now rewrite IH.
  - destruct (p x) eqn:Ep; [|exact IH]. rewrite (H x Ep) in Eq. discriminate.
Qed.





Lemma month_after_delete_other (t : Sql.tables) (ms : string) (id uid uid' : Z) :
  uid' <> uid ->
  Sql.month_expenses (Store.delete_expense t id uid) ms uid' = Sql.month_expenses t ms uid'.
Proof.
  intros Hne. unfold Sql.month_expenses, Store.delete_expense. simpl.
  apply filter_implied. intros e. unfold Sql.in_month, Store.targeted.
  destruct (Z.eqb_spec (Sql.user_id e) uid'); [|discriminate].
  destruct (Z.eqb_spec (Sql.user_id e) uid); [congruence|].
  now rewrite andb_false_r.
Qed.

Lemma month_after_insert (t : Sql.tables) (ms : string) (uid : Z) (r : Sql.expenses_record) :
  Sql.month_expenses (Store.insert_expense t r) ms uid
  = (Sql.month_expenses t ms uid ++ if Sql.in_month ms uid r then [r] else [])%list.
Proof.
  unfold Sql.month_expenses, Store.insert_expense. simpl.
  rewrite List.filter_app. simpl. now destruct (Sql.in_month ms uid r).
Qed.

Lemma select_after_update (t : Sql.tables) (uid uid' : Z) (a b : Store.assignment) :
  Sql.select_user (Store.update_user t uid a b) uid'
  = match Sql.select_user t uid' with
    | Some u =>
        if (uid' =? uid)%Z
        then Some (UserRow (Store.assign a (monthly_income u)) (Store.assign b (savings_goal u)))
        else Some u
    | None => None
    end.
Proof.
  unfold Sql.select_user, Store.update_user. simpl.
  induction (Sql.users t) as [|u l IH]; simpl; [reflexivity|].
  destruct (Z.eqb_spec (Sql.id u) uid) as [E|E]; simpl.
  - destruct (Z.eqb_spec (Sql.id u) uid') as [E'|E']; simpl.
    + assert (H : (uid' =? uid)%Z = true) by (apply Z.eqb_eq; congruence).
      now rewrite H.
    + exact IH.
  - destruct (Z.eqb_spec (Sql.id u) uid') as [E'|E']; simpl.
    + assert (H : (uid' =? uid)%Z = false) by (apply Z.eqb_neq; congruence).
      now rewrite H.
    + exact IH.
Qed.

Lemma same_view_stats (a b : Ledger) (uid : Z) :
  same_view a b uid -> api_stats a uid = api_stats b uid.
Proof. intros (H1 & H2 & _). unfold api_stats. now rewrite H1, H2. Qed.

(** X13: the writes of a user leave the other users alone.  After an
    expense of one user is inserted or deleted, or the settings of one user
    are updated, the reads of the statistics and the chat handlers give every
    other user what they gave before, so the statistics of the other users
    are the same response. *)
Theorem writes_leave_other_users_alone (t : Sql.tables) (ms : string) (uid other : Z)
    (r : Sql.expenses_record) (n : Z) (income goal : Store.assignment) :
  other <> uid ->
  Sql.user_id r = uid ->
  Forall (fun t' => same_view (Sql.ledger t' ms) (Sql.ledger t ms) other
                    /\ api_stats (Sql.ledger t' ms) other = api_stats (Sql.ledger t ms) other
                    /\ Store.list_expenses t' other = Store.list_expenses t other)
    [ Store.insert_expense t r; Store.delete_expense t n uid;
      Store.update_user t uid income goal ].
Proof.
  intros Hne Hr.
  assert (Hm : Sql.in_month ms other r = false).
  { unfold Sql.in_month. destruct (Z.eqb_spec (Sql.user_id r) other); [congruence|reflexivity]. }
  assert (H : forall t', Sql.select_user t' other = Sql.select_user t other ->
                         Sql.month_expenses t' ms other = Sql.month_expenses t ms other ->
                         List.filter (Store.owned other) (Sql.expenses t')
                         = List.filter (Store.owned other) (Sql.expenses t) ->
                         same_view (Sql.ledger t' ms) (Sql.ledger t ms) other
                         /\ api_stats (Sql.ledger t' ms) other = api_stats (Sql.ledger t ms) other
                         /\ Store.list_expenses t' other = Store.list_expenses t other).
  { intros t' H1 H2 H3.
    assert (Hv : same_view (Sql.ledger t' ms) (Sql.ledger t ms) other).
    { unfold same_view, Sql.ledger, Sql.recent_expenses. simpl. now rewrite H1, H2. }
    split; [exact Hv|]. split; [now apply same_view_stats|].
    unfold Store.list_expenses. now rewrite H3. }
  apply List.Forall_cons; [|apply List.Forall_cons; [|apply List.Forall_cons;
    [|apply List.Forall_nil]]]; apply H.
  - reflexivity.
  - rewrite month_after_insert, Hm. apply List.app_nil_r.
  - unfold Store.insert_expense. simpl. rewrite List.filter_app. simpl.
    unfold Store.owned at 2. destruct (Z.eqb_spec (Sql.user_id r) other); [congruence|].
    apply List.app_nil_r.
  - reflexivity.
  - now apply month_after_delete_other.
  - unfold Store.delete_expense. simpl. apply filter_implied.
    intros e. unfold Store.owned, Store.targeted.
    destruct (Z.eqb_spec (Sql.user_id e) other); [|discriminate].
    destruct (Z.eqb_spec (Sql.user_id e) uid); [congruence|]. now rewrite andb_false_r.
  - rewrite select_after_update.
    destruct (Z.eqb_spec other uid); [contradiction|]. now destruct (Sql.select_user t other).
  - reflexivity.
  - reflexivity.
Qed.

Lemma writes_leave_other_users_alone_witness :
  api_stats (Sql.ledger (Store.delete_expense shared_tables 1 1) "2024-05-01") 2
  = api_stats (Sql.ledger shared_tables "2024-05-01") 2.
Proof.
  pose proof (writes_leave_other_users_alone shared_tables "2024-05-01" 1%Z 2%Z
                {| Sql.expense_id := 8; Sql.user_id := 1; Sql.name := "tea";
                   Sql.amount := Real 10; Sql.category := "food";
                   Sql.date := "2024-05-07T12:00:00.000Z" |}
                1%Z Store.Keep Store.Keep ltac:(discriminate) eq_refl) as H.
  apply List.Forall_cons_iff in H. destruct H as [_ H].
  apply List.Forall_cons_iff in H. destruct H as [H _].
  exact (proj1 (proj2 H)).
Defined.

Lemma stats_total (t : Sql.tables) (ms : string) (uid : Z) (u : user_row) :
  Sql.select_user t uid = Some u ->
  real_or_null (monthly_income u) ->
  Forall (fun e => is_real (Sql.amount e)) (Sql.month_expenses t ms uid) ->
  exists T,
    number_field (api_stats (Sql.ledger t ms) uid) "total_expenses" = Some T
    /\ number_field (api_stats (Sql.ledger t ms) uid) "saved_amount"
       = Some (Qmax 0 (income_of (monthly_income u) - T))
    /\ (T == sum_table_amounts (Sql.month_expenses t ms uid))%Q.
Proof.
  intros Hu Hi HE.
  destruct (group_by_category_sum _ HE) as [Hreal Hsum].
  destruct (api_stats_run (Sql.ledger t ms) uid u _ (f_equal DbOk Hu) eq_refl Hi Hreal)
    as (T & HT & _ & _ & H1 & H2 & _).
  exists T. split; [exact H1|]. split; [exact H2|]. now rewrite HT.
Qed.

Lemma sum_table_amounts_app (l l' : list Sql.expenses_record) :
  (sum_table_amounts (l ++ l') == sum_table_amounts l + sum_table_amounts l')%Q.
Proof. induction l as [|e l IH]; simpl; [ring|]. rewrite IH. ring. Qed.

Lemma saved_monotone (income a b : Q) :
  (a <= b)%Q -> (0 <= Qmax 0 (income - b) <= Qmax 0 (income - a))%Q.
Proof.
  intros H. split; [apply saved_nonneg|].
  apply Q.max_le_compat_l. apply Qplus_le_r. now apply Qopp_le_compat.
Qed.

Lemma bound_js (v : jsval) (p : prim) : Store.bound v = Some p -> js p = v.
Proof.
  destruct v as [| | |q| |negative|s| | |]; simpl; try discriminate.
  - now intros [= <-].
  - now intros [= <-].
  - intros [= <-]. now destruct negative.
  - destruct (Store.has_digit s); [discriminate|]. now intros [= <-].
Qed.

(** X14: an expense that the handler accepts with an amount that is a whole
    number, once stored under the caller with the time of the request,
    raises the expenses of the month in the statistics of the caller by its
    amount, which is more than they were, and lowers the amount saved or
    leaves it at 0; the income of the caller is a finite number or not set
    and the amounts of the month are whole numbers, of at most 2^53 in
    total with the new one. *)
Theorem accepted_expense_raises_total (t : Sql.tables) (ms : string) (userId : Z)
    (req_body : jsval) (now : string) (p : insert_expense) (id : Z)
    (r : Sql.expenses_record) (u : user_row) :
  api_post_expense userId req_body now = Return (Inserted p) ->
  Store.stored_expense p id = Some r ->
  String.leb ms now = true ->
  Sql.select_user t userId = Some u ->
  real_or_null (monthly_income u) ->
  Forall (fun e => exact_value (Sql.amount e)) (Sql.month_expenses t ms userId) ->
  exact_value (Sql.amount r) ->
  exact (sum_table_amounts (Sql.month_expenses t ms userId) + real (Sql.amount r)) ->
  exists before after saved saved',
    number_field (api_stats (Sql.ledger t ms) userId) "total_expenses" = Some before
    /\ number_field (api_stats (Sql.ledger (Store.insert_expense t r) ms) userId)
         "total_expenses" = Some after
    /\ number_field (api_stats (Sql.ledger t ms) userId) "saved_amount" = Some saved
    /\ number_field (api_stats (Sql.ledger (Store.insert_expense t r) ms) userId)
         "saved_amount" = Some saved'
    /\ (after == before + real (Sql.amount r))%Q
    /\ (before < after)%Q
    /\ (0 <= saved' <= saved)%Q.
Proof.
  intros Hp Hs Hnow Hu Hi HE Hexact _.
  destruct (post_expense_inserted userId req_body now p Hp) as (Hid & Hdate & Hpos).
  assert (Hr : Sql.in_month ms userId r = true /\ (0 < real (Sql.amount r))%Q).
  { unfold Store.stored_expense in Hs.
    destruct (insert_name p) as [| | | | | |nm| | |]; try discriminate.
    destruct (Store.bound (insert_amount p)) as [a|] eqn:Eb; [|discriminate].
    destruct (insert_category p) as [| | | | | |c| | |]; try discriminate.
    destruct a as [|[|q| |]|]; try discriminate; injection Hs as <-;
      simpl in Hexact; try contradiction.
    pose proof (bound_js _ _ Eb) as Hj. simpl in Hj.
    unfold Sql.in_month. simpl.
    rewrite Hid, Hdate, Z.eqb_refl, Hnow. split; [reflexivity|]. now apply Hpos. }
  destruct Hr as [Hin Hamount].
  assert (HE1 : Forall (fun e => is_real (Sql.amount e)) (Sql.month_expenses t ms userId))
    by (revert HE; apply List.Forall_impl; intros e; apply exact_is_real).
  assert (HE2 : Forall (fun e => is_real (Sql.amount e))
                  (Sql.month_expenses (Store.insert_expense t r) ms userId)).
  { rewrite month_after_insert, Hin. apply List.Forall_app. split; [exact HE1|].
    constructor; [now apply exact_is_real | constructor]. }
  destruct (stats_total t ms userId u Hu Hi HE1) as (T & H1 & H2 & HT).
  destruct (stats_total (Store.insert_expense t r) ms userId u Hu Hi HE2)
    as (T' & H3 & H4 & HT').
  assert (Hsum : (T' == T + real (Sql.amount r))%Q).
  { rewrite HT', HT, month_after_insert, Hin, sum_table_amounts_app. simpl. ring. }
  assert (Hlt : (T < T')%Q).
  { rewrite Hsum. rewrite <- (Qplus_0_r T) at 1. now apply Qplus_lt_r. }
  exists T, T', (Qmax 0 (income_of (monthly_income u) - T)),
    (Qmax 0 (income_of (monthly_income u) - T')).
  repeat (split; [assumption|]).
  apply saved_monotone. now apply Qlt_le_weak.
Qed.

Lemma accepted_expense_raises_total_witness :
  exists before after saved saved',
    number_field (api_stats busy_ledger 1) "total_expenses" = Some before
    /\ number_field
         (api_stats
            (Sql.ledger
               (Store.insert_expense busy_tables
                  {| Sql.expense_id := 8; Sql.user_id := 1; Sql.name := "tea";
                     Sql.amount := Real 10; Sql.category := "other";
                     Sql.date := "2024-05-07T12:00:00.000Z" |}) "2024-05-01") 1)
         "total_expenses" = Some after
    /\ number_field (api_stats busy_ledger 1) "saved_amount" = Some saved
    /\ number_field
         (api_stats
            (Sql.ledger
               (Store.insert_expense busy_tables
                  {| Sql.expense_id := 8; Sql.user_id := 1; Sql.name := "tea";
                     Sql.amount := Real 10; Sql.category := "other";
                     Sql.date := "2024-05-07T12:00:00.000Z" |}) "2024-05-01") 1)
         "saved_amount" = Some saved'
    /\ (after == before + 10)%Q
    /\ (before < after)%Q
    /\ (0 <= saved' <= saved)%Q.
Proof.
  refine (accepted_expense_raises_total busy_tables "2024-05-01" 1%Z
            (JObj [("name", JStr "tea"); ("amount", JNum 10%Q)])
            "2024-05-07T12:00:00.000Z"
            {| insert_user_id := 1; insert_name := JStr "tea"; insert_amount := JNum 10%Q;
               insert_category := JStr "other"; insert_date := "2024-05-07T12:00:00.000Z" |}
            8%Z
            {| Sql.expense_id := 8; Sql.user_id := 1; Sql.name := "tea";
               Sql.amount := Real 10; Sql.category := "other";
               Sql.date := "2024-05-07T12:00:00.000Z" |}
            (UserRow (Real 1000) (Real 500))
            eq_refl eq_refl eq_refl eq_refl I _ _ _).
  - repeat constructor; discriminate.
  - repeat split; discriminate.
  - repeat split; discriminate.
Defined.



(** X16: the statistics show the settings that were written.  After the
    UPDATE of the income and the goal of a user, the statistics of that user
    carry the value of each field that the body had (a number, or null) and
    the stored value of a field that it left out; the expenses of the month
    are what they were. *)
Theorem settings_show_in_stats (t : Sql.tables) (ms : string) (userId : Z) (u : user_row)
    (income goal : jsval) (a b : Store.assignment) :
  Sql.select_user t userId = Some u ->
  Store.assignment_of income = Some a ->
  Store.assignment_of goal = Some b ->
  let before := api_stats (Sql.ledger t ms) userId in
  let after := api_stats (Sql.ledger (Store.update_user t userId a b) ms) userId in
  status after = 200
  /\ get (body after) "monthly_income"
     = Some (if defined income then income else js (monthly_income u))
  /\ get (body after) "savings_goal"
     = Some (if defined goal then goal else js (savings_goal u))
  /\ get (body after) "total_expenses" = get (body before) "total_expenses"
  /\ get (body after) "category_totals" = get (body before) "category_totals".
Proof.
  intros Hu Ha Hb before after. unfold before, after, api_stats.
  cbn [Sql.ledger get_user month_category_totals].
  rewrite select_after_update, Hu, Z.eqb_refl.
  assert (H : forall v x old, Store.assignment_of v = Some x ->
                js (Store.assign x old) = if defined v then v else js old).
  { intros v x old Hx.
    destruct v as [| | |q| |negative|s| | |]; simpl in Hx; try discriminate Hx;
      try (injection Hx as <-; reflexivity).
    - destruct negative; injection Hx as <-; reflexivity.
    - destruct (Store.has_digit s); [discriminate|]. injection Hx as <-. reflexivity. }
  cbn [monthly_income savings_goal].
  rewrite <- (H income a (monthly_income u) Ha), <- (H goal b (savings_goal u) Hb).
  repeat split.
Qed.

Lemma settings_show_in_stats_witness :
  get (body (api_stats
               (Sql.ledger (Store.update_user busy_tables 1 (Store.SetTo (Real 2000))
                              Store.Keep) "2024-05-01") 1)) "monthly_income"
  = Some (JNum 2000%Q).
Proof.
  exact (proj1 (proj2 (settings_show_in_stats busy_tables "2024-05-01" 1%Z
                         (UserRow (Real 1000) (Real 500)) (JNum 2000%Q) JUndefined
                         (Store.SetTo (Real 2000)) Store.Keep eq_refl eq_refl eq_refl))).
Defined.

(** X17: the statement of the settings handler names only the three
    columns of the settings, those that the body carries (null counts, a
    missing field does not), in their fixed order; the values of the body
    are bound, never written into the text, the text has one placeholder for
    each bound value, and the last bound value is the caller.  A body that
    carries none of the three is answered with status 400 and makes no
    call. *)
Theorem settings_statement (d : driver) (userId : Z)
    (req_body monthly_income savings_goal openai_key : jsval) :
  get req_body "monthly_income" = Some monthly_income ->
  get req_body "savings_goal" = Some savings_goal ->
  get req_body "openai_key" = Some openai_key ->
  let present :=
    List.filter (fun cv => defined (snd cv))
      (combine settings_columns [monthly_income; savings_goal; openai_key]) in
  let s :=
    {| sql := "UPDATE users SET "
              +:+ join ", " (List.map (fun cv => fst cv +:+ " = ?") present)
              +:+ " WHERE id = ?";
       params := (List.map snd present ++ [integer userId])%list |} in
  (present = [] ->
   trace d (api_update_settings userId req_body) = []
   /\ run d (api_update_settings userId req_body)
      = Return (json 400 (error_body "No fields to update")))
  /\ (present <> [] ->
      List.map statement_of (trace d (api_update_settings userId req_body)) = [Some s]
      /\ List.map writes (trace d (api_update_settings userId req_body)) = [true]
      /\ placeholders (sql s) = length (params s)).
Proof.
  intros H1 H2 H3 present s. unfold api_update_settings. rewrite H1, H2, H3.
  unfold s, present, push_field, settings_columns. cbn [combine List.filter snd fst].
  destruct (defined monthly_income), (defined savings_goal), (defined openai_key);
    cbn [fst snd List.app List.length Nat.eqb List.map];
    (split; [intros Hp; try discriminate Hp; split; reflexivity
            |intros Hp; try (now destruct Hp);
             cbn [trace run]; destruct (d _ _); repeat split]).
Qed.

Lemma settings_statement_witness :
  trace empty_store (api_update_settings 1 (JObj [])) = [].
Proof.
  exact (proj1 (proj1 (settings_statement empty_store 1%Z (JObj [])
                         JUndefined JUndefined JUndefined eq_refl eq_refl eq_refl) eq_refl)).
Defined.

(** ** The groups of the statistics *)













(** ** The chat handler, whatever the service does *)

Lemma attempt_outcome (gemini_key : string) (service : request -> fetch_outcome)
    (message : jsval) (context : string) (w : World) :
  exists r w',
    attempt gemini_key service message context w = (r, w')
    /\ heap w' = heap w
    /\ (exists l, sent w' = sent w ++ l /\ (length l <= 1)%nat)
    /\ match r with
       | Return x => exists text, x = json 200 (JObj [("response", JStr text)])
       | Throw _ => True
       end.
Proof.
  assert (Hone : forall r : request,
             exists l, sent w ++ [r] = sent w ++ l /\ (length l <= 1)%nat).
  { intros r. exists [r]. split; [reflexivity | simpl; lia]. }
  assert (Hnone : exists l, sent w = sent w ++ l /\ (length l <= 1)%nat).
  { exists []. split; [now rewrite List.app_nil_r | simpl; lia]. }
  unfold attempt. destruct (to_string message) as [question|]; cbn [type_error].
  2: { eexists _, _. split; [reflexivity|]. auto. }
  rewrite bind_ret. unfold bind at 1, fetch.
  destruct (service _) as [|ok data].
  { eexists _, _. split; [reflexivity|]. simpl. auto. }
  destruct ok; cbn [fst snd negb].
  - destruct data as [d|]; cbn [response_json].
    2: { eexists _, _. split; [reflexivity|]. simpl. auto. }
    rewrite bind_ret. cbv zeta.
    destruct (truthy (extract_text d)).
    + destruct (extract_text d); eexists _, _; (split; [reflexivity|]); simpl; eauto.
    + eexists _, _. split; [reflexivity|]. simpl. eauto.
  - destruct data as [d|]; cbn [response_json].
    2: { eexists _, _. split; [reflexivity|]. simpl. auto. }
    rewrite bind_ret.
    destruct (get d "error") as [e|]; cbn [type_error].
    2: { eexists _, _. split; [reflexivity|]. simpl. auto. }
    rewrite bind_ret.
    destruct (to_string _); eexists _, _; (split; [reflexivity|]); simpl; auto.
Qed.

Lemma fallback_outcome (message : jsval) (u : user_row) (rows : list expense_row)
    (w : World) (user expenses : positive) (error : exn) :
  holds w user expenses u rows ->
  exists r w',
    fallback message user expenses error w = (r, w')
    /\ sent w' = sent w
    /\ (forall question, message = JStr question ->
        r = Return (json 200 (JObj [("response", JStr (advice question u rows))]))).
Proof.
  intros H.
  assert (Hs : (exists s, message = JStr s) \/ forall s, message <> JStr s).
  { destruct message; try (right; intros s' E; discriminate E). left. eauto. }
  destruct Hs as [[s ->]|Hs].
  - destruct (fallback_run s u rows w user expenses error H) as (w' & Hrun & Hsent & _).
    eexists _, w'. split; [exact Hrun|]. split; [exact Hsent|].
    intros q [= <-]. reflexivity.
  - unfold fallback.
    set (w1 := {| heap := heap w;
                  console := console w ++ [LogError "Gemini API error:" error];
                  sent := sent w |}).
    rewrite (bind_return (log _) _ w w1 tt eq_refl).
    rewrite (bind_throw _ _ _ _ _
               (generateMockAIResponse_not_a_string message u rows w1 user expenses H Hs)).
    eexists _, _. split; [reflexivity|]. split; [reflexivity|].
    intros q E. destruct (Hs q E).
Qed.

Lemma chat_with_context_outcome (key : string) (service : request -> fetch_outcome)
    (message : jsval) (user expenses : positive) (u : user_row)
    (rows : list expense_row) (w : World) :
  holds w user expenses u rows ->
  exists r w',
    chat_with_context key service message user expenses w = (r, w')
    /\ (exists l, sent w' = sent w ++ l /\ (length l <= 1)%nat)
    /\ (forall question, message = JStr question ->
        exists text, r = Return (json 200 (JObj [("response", JStr text)]))).
Proof.
  intros Hh. rewrite (chat_with_context_unfold _ _ _ _ _ _ _ _ Hh).
  destruct (attempt_outcome key service message
              (financialContext u (total_of rows)
                 (saved_of (prim_or (monthly_income u) (Real 0)) (total_of rows)) rows) w)
    as (r & w1 & Ha & Hheap & Hsent & Hr).
  unfold try_catch. rewrite Ha. destruct r as [x|e].
  - eexists _, _. split; [reflexivity|]. split; [exact Hsent|].
    intros q _. destruct Hr as [text ->]. eauto.
  - destruct (fallback_outcome message u rows w1 user expenses e) as (r & w2 & Hf & Hs2 & Hr2).
    { destruct Hh as [H1 H2]. split; now rewrite Hheap. }
    exists r, w2. split; [exact Hf|]. split; [now rewrite Hs2|].
    intros q Hq. rewrite (Hr2 q Hq). eauto.
Qed.

(** The exits of the handler before the callback of the second read. *)
Lemma api_chat_early (env : Env) (db : Ledger) (service : request -> fetch_outcome)
    (userId : Z) (req_body message : jsval) (w : World) :
  get req_body "message" = Some message ->
  let out := api_chat env db service userId req_body w in
  let configured := match GEMINI_API_KEY env with
                    | Some (String _ _) => true
                    | _ => false
                    end in
  (truthy message = false ->
   out = (Return (json 400 (error_body "Message is required")), w))
  /\ (truthy message = true -> configured = false ->
      out = (Return (json 500 (error_body
               "Gemini API key not configured. Please add GEMINI_API_KEY to your .env file.")),
             w))
  /\ (truthy message = true -> configured = true ->
      (forall m, get_user db userId = DbErr m ->
                 out = (Return (json 500 (error_body m)), w))
      /\ (get_user db userId = DbOk None ->
          out = (Return (json 404 (error_body "User not found")), w))
      /\ (forall u m, get_user db userId = DbOk (Some u) ->
                      month_recent_expenses db userId = DbErr m ->
                      fst out = Return (json 500 (error_body m))
                      /\ sent (snd out) = sent w /\ console (snd out) = console w)).
Proof.
  intros Hm out configured. unfold out, configured, api_chat.
  unfold try_catch at 1. rewrite Hm. cbn [type_error]. rewrite bind_ret.
  split; [|split].
  - intros Ht. rewrite Ht. reflexivity.
  - intros Ht Hc. rewrite Ht. cbn [negb].
    destruct (GEMINI_API_KEY env) as [[|c k]|]; try discriminate Hc; reflexivity.
  - intros Ht Hc. rewrite Ht. cbn [negb].
    destruct (GEMINI_API_KEY env) as [[|c k]|]; try discriminate Hc.
    unfold bind at 1. cbn [ret]. split; [|split].
    + intros m ->. reflexivity.
    + intros ->. reflexivity.
    + intros u m -> Hr. unfold bind at 1, alloc. rewrite Hr. repeat split.
Qed.

(** X19: the guards of the chat handler.  A message that is falsy is
    answered with status 400; without a key, with status 500; an error of
    the first read with status 500 and its message, a user that the store
    does not have with status 404, and an error of the second read with
    status 500 and its message.  In each of these cases no request leaves
    for the service and nothing is written to the console: a request leaves
    only for a message that is truthy, with a key, a user and the two reads
    of the store. *)
Theorem chat_guards (env : Env) (db : Ledger) (service : request -> fetch_outcome)
    (userId : Z) (req_body message : jsval) (w : World) :
  get req_body "message" = Some message ->
  let out := api_chat env db service userId req_body w in
  let configured := match GEMINI_API_KEY env with
                    | Some (String _ _) => true
                    | _ => false
                    end in
  (truthy message = false ->
   out = (Return (json 400 (error_body "Message is required")), w))
  /\ (truthy message = true -> configured = false ->
      out = (Return (json 500 (error_body
               "Gemini API key not configured. Please add GEMINI_API_KEY to your .env file.")),
             w))
  /\ (truthy message = true -> configured = true ->
      (forall m, get_user db userId = DbErr m ->
                 out = (Return (json 500 (error_body m)), w))
      /\ (get_user db userId = DbOk None ->
          out = (Return (json 404 (error_body "User not found")), w))
      /\ (forall u m, get_user db userId = DbOk (Some u) ->
                      month_recent_expenses db userId = DbErr m ->
                      fst out = Return (json 500 (error_body m))
                      /\ sent (snd out) = sent w /\ console (snd out) = console w))
  /\ (sent (snd out) <> sent w ->
      truthy message = true /\ configured = true
      /\ exists u rows, get_user db userId = DbOk (Some u)
                        /\ month_recent_expenses db userId = DbOk rows).
Proof.
  intros Hm out configured.
  pose proof (api_chat_early env db service userId req_body message w Hm) as G.
  cbv zeta in G. fold out configured in G. destruct G as (G1 & G2 & G3).
  split; [exact G1|]. split; [exact G2|]. split; [exact G3|].
  intros Hs.
  destruct (truthy message); [|now rewrite (G1 eq_refl) in Hs].
  destruct configured; [|now rewrite (G2 eq_refl eq_refl) in Hs].
  destruct (G3 eq_refl eq_refl) as (Ga & Gb & Gc).
  split; [reflexivity|]. split; [reflexivity|].
  destruct (get_user db userId) as [m|[u|]].
  - now rewrite (Ga m eq_refl) in Hs.
  - destruct (month_recent_expenses db userId) as [m|rows]; [|eauto].
    destruct (Gc u m eq_refl eq_refl) as (_ & E & _). contradiction.
  - now rewrite (Gb eq_refl) in Hs.
Qed.

Lemma chat_guards_witness :
  api_chat {| GEMINI_API_KEY := None |} example_ledger (fun _ => Rejected) 1
    (JObj [("message", JStr "")]) empty_world
  = (Return (json 400 (error_body "Message is required")), empty_world).
Proof.
  exact (proj1 (chat_guards {| GEMINI_API_KEY := None |} example_ledger (fun _ => Rejected)
                  1%Z (JObj [("message", JStr "")]) (JStr "") empty_world eq_refl) eq_refl).
Defined.

(** X20: whatever the body, the store and the service are, a call of the
    chat handler sends at most one request to the service, and the requests
    that were sent before stay as they were. *)
Theorem chat_sends_at_most_one_request (env : Env) (db : Ledger)
    (service : request -> fetch_outcome) (userId : Z) (req_body : jsval) (w : World) :
  exists l,
    sent (snd (api_chat env db service userId req_body w)) = sent w ++ l
    /\ (length l <= 1)%nat.
Proof.
  assert (Hnone : forall w', sent w' = sent w ->
                             exists l, sent w' = sent w ++ l /\ (length l <= 1)%nat).
  { intros w' ->. exists []. split; [now rewrite List.app_nil_r | simpl; lia]. }
  destruct (get req_body "message") as [message|] eqn:Hm.
  2: { unfold api_chat, try_catch at 1. rewrite Hm. now apply Hnone. }
  destruct (truthy message) eqn:Ht.
  2: { rewrite (proj1 (api_chat_early env db service userId req_body message w Hm) Ht).
       now apply Hnone. }
  destruct (GEMINI_API_KEY env) as [[|c k]|] eqn:Hk.
  1, 3: unfold api_chat, try_catch at 1; rewrite Hm; cbn [type_error]; rewrite bind_ret;
        rewrite Ht, Hk; now apply Hnone.
  destruct (get_user db userId) as [m|[u|]] eqn:Hu.
  1, 3: unfold api_chat, try_catch at 1; rewrite Hm; cbn [type_error]; rewrite bind_ret;
        rewrite Ht, Hk; cbn [negb]; unfold bind at 1; cbn [ret]; rewrite Hu;
        now apply Hnone.
  destruct (month_recent_expenses db userId) as [m|rows] eqn:Hr.
  { unfold api_chat, try_catch at 1. rewrite Hm. cbn [type_error]. rewrite bind_ret.
    rewrite Ht, Hk. cbn [negb]. unfold bind at 1. cbn [ret]. rewrite Hu.
    unfold bind at 1, alloc. rewrite Hr. now apply Hnone. }
  destruct (api_chat_run env db service userId req_body message (String c k) u rows w
              Hm Ht Hk ltac:(discriminate) Hu Hr)
    as (w' & user & expenses & -> & Hh & Hsent & _).
  destruct (chat_with_context_outcome (String c k) service message user expenses u rows w' Hh)
    as (r & w2 & -> & (l & Hl & Hlen) & _).
  exists l. cbn [snd]. now rewrite Hl, Hsent.
Qed.

(** X21: a question that is a text is always answered.  Whatever the store
    and the service do, the handler returns a response and throws nothing;
    the status is 200, 400, 404 or 500; with status 200 the body carries a
    text under "response", and with another status an error message. *)
Theorem chat_answers_every_text_question (env : Env) (db : Ledger)
    (service : request -> fetch_outcome) (userId : Z) (req_body : jsval)
    (question : string) (w : World) :
  get req_body "message" = Some (JStr question) ->
  exists r,
    fst (api_chat env db service userId req_body w) = Return r
    /\ ((status r = 200 /\ exists text, body r = JObj [("response", JStr text)])
        \/ (In (status r) [400; 404; 500] /\ exists m, body r = error_body m)).
Proof.
  intros Hm.
  pose proof (api_chat_early env db service userId req_body (JStr question) w Hm) as G.
  cbv zeta in G. destruct G as (G1 & G2 & G3).
  destruct (truthy (JStr question)) eqn:Ht.
  2: { rewrite (G1 eq_refl). eexists. split; [reflexivity|]. right. simpl. eauto. }
  destruct (GEMINI_API_KEY env) as [[|c k]|] eqn:Hk.
  1, 3: rewrite (G2 eq_refl eq_refl); eexists; (split; [reflexivity|]); right; simpl; eauto 6.
  destruct (G3 eq_refl eq_refl) as (Ga & Gb & Gc).
  destruct (get_user db userId) as [m|[u|]] eqn:Hu.
  - rewrite (Ga m eq_refl). eexists. split; [reflexivity|]. right. simpl. eauto 6.
  - destruct (month_recent_expenses db userId) as [m|rows] eqn:Hr.
    + destruct (Gc u m eq_refl eq_refl) as (-> & _).
      eexists. split; [reflexivity|]. right. simpl. eauto 6.
    + destruct (api_chat_run env db service userId req_body (JStr question) (String c k)
                  u rows w Hm Ht Hk ltac:(discriminate) Hu Hr)
        as (w' & user & expenses & -> & Hh & _).
      destruct (chat_with_context_outcome (String c k) service (JStr question) user expenses
                  u rows w' Hh) as (r & w2 & -> & _ & Hr2).
      destruct (Hr2 question eq_refl) as [text ->].
      eexists. split; [reflexivity|]. left. simpl. eauto.
  - rewrite (Gb eq_refl). eexists. split; [reflexivity|]. right. simpl. eauto 6.
Qed.

Lemma chat_answers_every_text_question_witness :
  exists r,
    fst (api_chat {| GEMINI_API_KEY := Some "key" |} example_ledger (fun _ => Rejected) 1
           (JObj [("message", JStr "How can I save?")]) empty_world) = Return r
    /\ ((status r = 200 /\ exists text, body r = JObj [("response", JStr text)])
        \/ (In (status r) [400; 404; 500] /\ exists m, body r = error_body m)).
Proof.
  exact (chat_answers_every_text_question {| GEMINI_API_KEY := Some "key" |} example_ledger
           (fun _ => Rejected) 1%Z (JObj [("message", JStr "How can I save?")])
           "How can I save?" empty_world eq_refl).
Defined.

(** ** A category that the breakdown never lists *)

Lemma tally_step_without_proto (o : list (string * jsval)) (e : expense_row) :
  own "__proto__" o = None -> own "__proto__" (tally_step o e) = None.
Proof.
  intros Ho. unfold tally_step.
  destruct (add _ _) as [v|]; [|exact Ho]. unfold obj_set.
  destruct (own (category e) o) eqn:E.
  - rewrite own_replace, Ho. reflexivity.
  - destruct (String.eqb_spec (category e) "__proto__") as [Hc|Hc]; [exact Ho|].
    rewrite own_app_single, Ho.
    destruct (String.eqb_spec "__proto__" (category e)); [congruence | reflexivity].
Qed.

Lemma tally_step_proto (o : list (string * jsval)) (e : expense_row) :
  own "__proto__" o = None -> category e = "__proto__" -> tally_step o e = o.
Proof.
  intros Ho Hc. unfold tally_step. rewrite Hc.
  destruct (add _ _) as [v|]; [|reflexivity]. unfold obj_set. now rewrite Ho.
Qed.

Lemma tally_from_without_proto (rows : list expense_row) (o : list (string * jsval)) :
  own "__proto__" o = None ->
  fold_left tally_step rows o
  = fold_left tally_step
      (List.filter (fun e => negb (String.eqb (category e) "__proto__")) rows) o.
Proof.
  revert o. induction rows as [|e rows IH]; intros o Ho; simpl; [reflexivity|].
  destruct (String.eqb_spec (category e) "__proto__") as [Hc|Hc]; simpl.
  - rewrite (tally_step_proto o e Ho Hc). now apply IH.
  - apply IH. now apply tally_step_without_proto.
Qed.

Lemma tally_from_never_has_proto (rows : list expense_row) (o : list (string * jsval)) :
  own "__proto__" o = None -> own "__proto__" (fold_left tally_step rows o) = None.
Proof.
  revert o. induction rows as [|e rows IH]; intros o Ho; simpl; [exact Ho|].
  apply IH. now apply tally_step_without_proto.
Qed.

(** X22: the breakdown of the budget answer never lists the category
    [__proto__].  The loop reads the prototype of the object under that
    name and its assignment of the sum is ignored, so the answer is the
    answer for the expenses without those of that category. *)
Theorem proto_category_is_dropped (question : string) (u : user_row)
    (rows : list expense_row) (w : World) (user expenses : positive) :
  holds w user expenses u rows ->
  first_match question keyword_sets = Budget ->
  let listed := List.filter (fun e => negb (String.eqb (category e) "__proto__")) rows in
  fst (generateMockAIResponse (JStr question) user expenses w)
  = Return (breakdown_text (List.map entry_line (Object_entries (tally listed))))
  /\ tally rows = tally listed
  /\ own "__proto__" (tally rows) = None.
Proof.
  intros Hh Hm listed.
  destruct (generateMockAIResponse_run question u rows w user expenses Hh) as (w' & Hrun & _).
  rewrite Hrun. cbn [fst]. unfold advice, matched. rewrite Hm. unfold budget_text.
  assert (Ht : tally rows = tally listed) by (now apply tally_from_without_proto).
  rewrite Ht. split; [reflexivity|]. split; [reflexivity|].
  now apply tally_from_never_has_proto.
Qed.

Lemma proto_category_is_dropped_witness :
  fst (generateMockAIResponse (JStr "How should I budget?") 1 2
         (example_world (UserRow (Real 50000) (Real 20000))
            [ExpenseRow "rent" (Real 500) "housing"; ExpenseRow "gift" (Real 200) "__proto__"]))
  = Return (breakdown_text
              (List.map entry_line (Object_entries (tally [ExpenseRow "rent" (Real 500) "housing"])))).
Proof.
  exact (proj1 (proto_category_is_dropped "How should I budget?"
                  (UserRow (Real 50000) (Real 20000))
                  [ExpenseRow "rent" (Real 500) "housing"; ExpenseRow "gift" (Real 200) "__proto__"]
                  (example_world (UserRow (Real 50000) (Real 20000))
                     [ExpenseRow "rent" (Real 500) "housing"; ExpenseRow "gift" (Real 200) "__proto__"])
                  1%positive 2%positive (conj eq_refl eq_refl) eq_refl)).
Defined.

(** ** The statements of the handlers *)

Ltac listed_text := repeat first [left; reflexivity | right].

Ltac close_prepared :=
  repeat first
    [ apply prepared_done
    | apply prepared_step;
      [ first [exact I | split; [listed_text | reflexivity]] | intros ? ]
    | match goal with
      | |- prepared (if ?b then _ else _) => destruct b
      | |- prepared (match ?x with _ => _ end) => destruct x
      end ].

Lemma handle_prepared (JWT_SECRET : option string) (r : route) :
  prepared (handle JWT_SECRET r).
Proof.
  destruct r; unfold handle, api_register, api_login, api_user, api_expenses,
    api_create_expense, api_delete_expense, api_health, answer.
  1-6, 8: close_prepared.
  unfold api_update_settings, push_field, answer.
  destruct (get req_body "monthly_income") as [x|]; [|apply prepared_done].
  destruct (get req_body "savings_goal") as [y|]; [|apply prepared_done].
  destruct (get req_body "openai_key") as [z|]; [|apply prepared_done].
  destruct (defined x), (defined y), (defined z);
    cbn [fst snd List.app List.length Nat.eqb]; close_prepared.
Qed.

Lemma prepared_trace (d : driver) (p : prog (completion response)) :
  prepared p ->
  forall e s, In e (trace d p) -> statement_of e = Some s -> prepared_statement s.
Proof.
  induction 1 as [r | A c k Hc Hk IH]; intros e s He Hs; [destruct He|].
  cbn [trace] in He. destruct He as [<-|He]; [|exact (IH _ _ _ He Hs)].
  destruct c; simpl in Hs; try discriminate; injection Hs as <-; exact Hc.
Qed.

(** X23: no value of a request is written into the text of a statement.
    Whatever a request holds and whatever the store answers, each statement
    that a handler runs has one of fourteen fixed texts, and binds one value
    for each placeholder of its text. *)
Theorem statements_are_prepared (JWT_SECRET : option string) (r : route) (d : driver)
    (e : event) (s : statement) :
  In e (trace d (handle JWT_SECRET r)) ->
  statement_of e = Some s ->
  In (sql s) statement_texts /\ placeholders (sql s) = length (params s).
Proof. intros He Hs. exact (prepared_trace d _ (handle_prepared JWT_SECRET r) e s He Hs). Qed.

Lemma statements_are_prepared_witness :
  In "DELETE FROM expenses WHERE id = ? AND user_id = ?" statement_texts.
Proof.
  exact (proj1 (statements_are_prepared None (DeleteExpense 1 "3' OR '1'='1") empty_store
                  (Event (DbRun {| sql := "DELETE FROM expenses WHERE id = ? AND user_id = ?";
                                   params := [JStr "3' OR '1'='1"; integer 1] |})
                         (DbOk {| lastID := 7; changes := 0 |}))
                  {| sql := "DELETE FROM expenses WHERE id = ? AND user_id = ?";
                     params := [JStr "3' OR '1'='1"; integer 1] |}
                  (or_introl eq_refl) eq_refl)).
Defined.
